(** * Swarm trading SDKs: routing, orchestration and venue execution

    A shallow embedding of the TypeScript sources
    - [shared/src/models.ts]: [Quote], [TradeResult];
    - [trading-sdk/src/routing.ts]: [Router.selectPlatform];
    - [trading-sdk/src/sdk/client.ts]: [TradingClient];
    - [market-maker-sdk/src/sdk/client.ts]: [MarketMakerClient], with the
      [RPQClient] of [rpqService] under it;
    - [cross-chain-access-sdk/src/sdk/client.ts]: [CrossChainAccessClient],
      with the [CrossChainAccessAPIClient] of [crossChainAccess] under it;
    - the exception classes of the three SDKs and of [shared];
    - [cross-chain-access-sdk/src/marketHours]: the market hours;
    - [shared/src/baseClient]: [BaseAPIClient.makeRequest] and its retries;
    - [shared/src/web3/helpers.ts]: [Web3Helper];
    - [market-maker-sdk/src/marketMakerWeb3/client.ts]:
      [MarketMakerWeb3Client];
    - [shared/src/remoteConfig] and [shared/src/config.ts]: the remote
      configuration.

    JavaScript numbers are IEEE 754 binary64 values, so [number] is Rocq's
    primitive [float]: [/], [*], [<=], [===] are the primitive operations and
    behave on NaN, infinities and signed zeros as they do in JavaScript.
    [async] code is sequential between awaits; it is written in a small
    state-and-exception monad whose state carries the mutable fields of the
    client object and the chronological list of calls made to collaborators
    (HTTP services, the chain, the other SDK clients).  What a collaborator
    answers is read from an oracle record.  [console.log] output is not
    modelled. *)

From Stdlib Require Import String Ascii List Bool ZArith PrimFloat.
From Stdlib Require Import DecimalString Uint63.
From Stdlib Require Import Lia.
From Stdlib Require Floats.
Import ListNotations.

Local Open Scope string_scope.
Local Open Scope bool_scope.

(* ================================================================== *)
(** * JavaScript values *)
(* ================================================================== *)

Module Js.

Definition number := float.

(** [x !== undefined] for an optional field. *)
Definition defined {A} (x : option A) : bool :=
  match x with Some _ => true | None => false end.

(** Truthiness of an optional string: [undefined] and [""] are falsy. *)
Definition truthy_string (s : option string) : bool :=
  match s with
  | Some s => negb (String.eqb s "")
  | None => false
  end.

(** Truthiness of an optional number: [undefined], [0], [-0], [NaN] are
    falsy. *)
Definition truthy_number (x : option number) : bool :=
  match x with
  | Some x => negb (PrimFloat.eqb x 0 || negb (PrimFloat.eqb x x))
  | None => false
  end.

(** [x >= y] on numbers. *)
Definition geb (x y : number) : bool := PrimFloat.leb y x.
(** [x > y] on numbers. *)
Definition gtb (x y : number) : bool := PrimFloat.ltb y x.

(** [Array.prototype.join]. *)
Fixpoint join (sep : string) (l : list string) : string :=
  match l with
  | [] => ""
  | [x] => x
  | x :: rest => x ++ sep ++ join sep rest
  end.

(** [`${x}`] of an optional string. *)
Definition template (s : option string) : string :=
  match s with Some s => s | None => "undefined" end.

(** [haystack.includes(needle)].  *)
Fixpoint includes (needle haystack : string) : bool :=
  String.prefix needle haystack ||
  match haystack with
  | EmptyString => false
  | String _ rest => includes needle rest
  end.

(** [toLowerCase] and [toUpperCase] on ASCII text, which is what symbols,
    addresses and messages are made of: the ASCII letters change case and
    every other character is kept.  On letters outside ASCII the engine
    applies the case mapping of Unicode, which is not modelled. *)
Definition lower_ascii (c : ascii) : ascii :=
  let n := nat_of_ascii c in
  if (65 <=? n)%nat && (n <=? 90)%nat then ascii_of_nat (n + 32) else c.

Fixpoint toLowerCase (s : string) : string :=
  match s with
  | EmptyString => EmptyString
  | String c rest => String (lower_ascii c) (toLowerCase rest)
  end.

Definition upper_ascii (c : ascii) : ascii :=
  let n := nat_of_ascii c in
  if (97 <=? n)%nat && (n <=? 122)%nat then ascii_of_nat (n - 32) else c.

Fixpoint toUpperCase (s : string) : string :=
  match s with
  | EmptyString => EmptyString
  | String c rest => String (upper_ascii c) (toUpperCase rest)
  end.

(** ** Error objects

    Every exception class of the SDKs sets [this.name] to its own class
    name; the two [QuoteUnavailableException] classes (RPQ service and
    Cross-Chain Access) are distinct classes with one name. *)
Inductive ErrorClass : Type :=
| Error | TypeError | SyntaxError
| APIException
| Web3Exception | InsufficientBalanceException | TransactionFailedException
| CrossChainAccessException | CcaQuoteUnavailableException
| InvalidSymbolException | OrderFailedException | MarketClosedException
| AccountBlockedException | InsufficientFundsException
| RPQServiceException | NoOffersAvailableException
| RpqQuoteUnavailableException
| MarketMakerWeb3Exception | OfferNotFoundError | OfferInactiveError
| InsufficientOfferBalanceError | OfferExpiredError | UnauthorizedError
| TradingException | NoLiquidityException | AllPlatformsFailedException
| InvalidRoutingStrategyException.

Definition ErrorClass_eqb (a b : ErrorClass) : bool :=
  match a, b with
  | Error, Error | TypeError, TypeError | SyntaxError, SyntaxError
  | APIException, APIException
  | Web3Exception, Web3Exception
  | InsufficientBalanceException, InsufficientBalanceException
  | TransactionFailedException, TransactionFailedException
  | CrossChainAccessException, CrossChainAccessException
  | CcaQuoteUnavailableException, CcaQuoteUnavailableException
  | InvalidSymbolException, InvalidSymbolException
  | OrderFailedException, OrderFailedException
  | MarketClosedException, MarketClosedException
  | AccountBlockedException, AccountBlockedException
  | InsufficientFundsException, InsufficientFundsException
  | RPQServiceException, RPQServiceException
  | NoOffersAvailableException, NoOffersAvailableException
  | RpqQuoteUnavailableException, RpqQuoteUnavailableException
  | MarketMakerWeb3Exception, MarketMakerWeb3Exception
  | OfferNotFoundError, OfferNotFoundError
  | OfferInactiveError, OfferInactiveError
  | InsufficientOfferBalanceError, InsufficientOfferBalanceError
  | OfferExpiredError, OfferExpiredError
  | UnauthorizedError, UnauthorizedError
  | TradingException, TradingException
  | NoLiquidityException, NoLiquidityException
  | AllPlatformsFailedException, AllPlatformsFailedException
  | InvalidRoutingStrategyException, InvalidRoutingStrategyException => true
  | _, _ => false
  end.

(** The [extends] clause of each class. *)
Definition superclass (c : ErrorClass) : option ErrorClass :=
  match c with
  | Error => None
  | TypeError | SyntaxError | APIException | Web3Exception
  | CrossChainAccessException | RPQServiceException
  | MarketMakerWeb3Exception | TradingException => Some Error
  | InsufficientBalanceException | TransactionFailedException =>
      Some Web3Exception
  | CcaQuoteUnavailableException | InvalidSymbolException
  | OrderFailedException | MarketClosedException
  | AccountBlockedException | InsufficientFundsException =>
      Some CrossChainAccessException
  | NoOffersAvailableException | RpqQuoteUnavailableException =>
      Some RPQServiceException
  | OfferNotFoundError | OfferInactiveError | InsufficientOfferBalanceError
  | OfferExpiredError | UnauthorizedError => Some MarketMakerWeb3Exception
  | NoLiquidityException | AllPlatformsFailedException
  | InvalidRoutingStrategyException => Some TradingException
  end.

Definition class_name (c : ErrorClass) : string :=
  match c with
  | Error => "Error" | TypeError => "TypeError"
  | SyntaxError => "SyntaxError"
  | APIException => "APIException"
  | Web3Exception => "Web3Exception"
  | InsufficientBalanceException => "InsufficientBalanceException"
  | TransactionFailedException => "TransactionFailedException"
  | CrossChainAccessException => "CrossChainAccessException"
  | CcaQuoteUnavailableException => "QuoteUnavailableException"
  | InvalidSymbolException => "InvalidSymbolException"
  | OrderFailedException => "OrderFailedException"
  | MarketClosedException => "MarketClosedException"
  | AccountBlockedException => "AccountBlockedException"
  | InsufficientFundsException => "InsufficientFundsException"
  | RPQServiceException => "RPQServiceException"
  | NoOffersAvailableException => "NoOffersAvailableException"
  | RpqQuoteUnavailableException => "QuoteUnavailableException"
  | MarketMakerWeb3Exception => "MarketMakerWeb3Exception"
  | OfferNotFoundError => "OfferNotFoundError"
  | OfferInactiveError => "OfferInactiveError"
  | InsufficientOfferBalanceError => "InsufficientOfferBalanceError"
  | OfferExpiredError => "OfferExpiredError"
  | UnauthorizedError => "UnauthorizedError"
  | TradingException => "TradingException"
  | NoLiquidityException => "NoLiquidityException"
  | AllPlatformsFailedException => "AllPlatformsFailedException"
  | InvalidRoutingStrategyException => "InvalidRoutingStrategyException"
  end.

(** Decimal text of an integer, as in [`${statusCode}`]. *)
Definition string_of_Z (z : Z) : string :=
  NilZero.string_of_int (Z.to_int z).

(** An error object: its class, its [message], and the properties that
    single classes add: [statusCode] ([APIException]; [0] stands for a
    missing one) and [txHash] ([TransactionFailedException]). *)
Record error : Type := mkError {
  cls : ErrorClass;
  message : string;
  statusCode : Z;
  txHash : option string
}.

(** [new C(message)] for the classes without extra properties. *)
Definition new (c : ErrorClass) (msg : string) : error :=
  mkError c msg 0 None.

(** [new APIException(message, statusCode)]. *)
Definition newAPIException (msg : string) (status : Z) : error :=
  mkError APIException
    (if Z.eqb status 0 then msg
     else msg ++ " (status: " ++ string_of_Z status ++ ")")
    status None.

(** [new TransactionFailedException(reason, txHash)]. *)
Definition newTransactionFailedException (reason : string)
  (hash : option string) : error :=
  mkError TransactionFailedException
    (if truthy_string hash
     then reason ++ " (tx: " ++ template hash ++ ")" else reason)
    0 hash.

(** [e instanceof C]: walk the prototype chain (its depth is at most 3). *)
Fixpoint subclass_within (fuel : nat) (c target : ErrorClass) : bool :=
  ErrorClass_eqb c target ||
  match fuel with
  | O => false
  | S fuel =>
      match superclass c with
      | Some p => subclass_within fuel p target
      | None => false
      end
  end.

Definition instanceof (e : error) (c : ErrorClass) : bool :=
  subclass_within 3 (cls e) c.

(** [String(e)], that is [Error.prototype.toString]: the name, then the
    message when there is one. *)
Definition toString (e : error) : string :=
  if String.eqb (message e) "" then class_name (cls e)
  else class_name (cls e) ++ ": " ++ message e.

End Js.

(* ================================================================== *)
(** * Sequential effects: state, call log and exceptions *)
(* ================================================================== *)

Inductive outcome (A : Type) : Type :=
| Ok (a : A)
| Throw (e : Js.error).
Arguments Ok {A} a.
Arguments Throw {A} e.

(** The built-in functions the SDKs call on numbers and strings.  They
    belong to the JavaScript engine and not to the repository, so the
    development is parametric in them. *)
Record Runtime : Type := mkRuntime {
  parseFloat : string -> Js.number;
  (** [parseInt(s, 10)] *)
  parseInt : string -> Js.number;
  (** [BigInt(s)], which throws a [SyntaxError] on a malformed string *)
  BigInt : string -> outcome Z;
  (** [Number(b)] of a bigint *)
  Number_of_bigint : Z -> Js.number;
  (** [Math.pow] *)
  pow : Js.number -> Js.number -> Js.number;
  (** [String(x)] and [`${x}`] of a number *)
  String_of_number : Js.number -> string;
  (** [Number(x.toFixed(digits))] *)
  toFixed : Js.number -> nat -> Js.number;
  (** [new Date()] *)
  now : Z
}.

Section Effects.
(** [St] holds the mutable fields of the object, [Call] names the calls
    made to collaborators. *)
Context {St Call : Type}.

Definition world : Type := St * list Call.

Definition M (A : Type) : Type := world -> outcome A * world.

Definition ret {A} (a : A) : M A := fun w => (Ok a, w).

Definition bind {A B} (m : M A) (k : A -> M B) : M B :=
  fun w =>
    match m w with
    | (Ok a, w') => k a w'
    | (Throw e, w') => (Throw e, w')
    end.

Definition throw {A} (e : Js.error) : M A := fun w => (Throw e, w).

(** [try { body } catch (error) { handler }]. *)
Definition try_catch {A} (body : M A) (handler : Js.error -> M A) : M A :=
  fun w =>
    match body w with
    | (Ok a, w') => (Ok a, w')
    | (Throw e, w') => handler e w'
    end.

Definition get : M St := fun w => (Ok (fst w), w).

Definition put (s : St) : M unit := fun w => (Ok tt, (s, snd w)).

(** A call to a collaborator: it is appended to the log and answers what
    the oracle says. *)
Definition call {A} (c : Call) (answer : outcome A) : M A :=
  fun w => (answer, (fst w, (snd w ++ [c])%list)).

(** Lifting a pure computation that may throw. *)
Definition lift {A} (r : outcome A) : M A := fun w => (r, w).

Definition calls (w : world) : list Call := snd w.
End Effects.

Arguments world : clear implicits.
Arguments M : clear implicits.

Declare Scope js_scope.
Delimit Scope js_scope with js.
Notation "x <- m ;; k" := (bind m (fun x => k))
  (at level 61, m at next level, right associativity) : js_scope.
Notation "m ;;; k" := (bind m (fun _ => k))
  (at level 61, right associativity) : js_scope.


(* ================================================================== *)
(** * Shared models ([packages/shared/src/models.ts]) *)
(* ================================================================== *)

Inductive Network : Type := ETHEREUM | POLYGON | BASE | BSC.

Definition chainId (n : Network) : Z :=
  match n with
  | ETHEREUM => 1
  | POLYGON => 137
  | BASE => 8453
  | BSC => 56
  end.

(** A [Date] is kept as the instant it denotes. *)
Definition Date := Z.

Record Quote : Type := mkQuote {
  sellTokenAddress : string;
  buyTokenAddress : string;
  sellAmount : Js.number;
  buyAmount : Js.number;
  rate : Js.number;
  source : string;
  timestamp : Date
}.

Definition getQuotePricePerUnit (quote : Quote) : Js.number :=
  if PrimFloat.eqb (sellAmount quote) 0 then 0%float
  else (buyAmount quote / sellAmount quote)%float.

Definition getQuoteInverseRate (quote : Quote) : Js.number :=
  if PrimFloat.eqb (buyAmount quote) 0 then 0%float
  else (sellAmount quote / buyAmount quote)%float.

(** The rate of the specification for a pair of amounts, and the test
    that a reported [rate] is that rate up to [tolerance]. *)
Definition buyOverSell (buy sell : Js.number) : Js.number :=
  if PrimFloat.eqb sell 0 then 0%float else (buy / sell)%float.

Definition rateIsBuyOverSell (tolerance rate buy sell : Js.number) : bool :=
  PrimFloat.leb (PrimFloat.abs (rate - buyOverSell buy sell)%float) tolerance.

Module TradeResult.
Record t : Type := make {
  txHash : string;
  orderId : option string;
  sellTokenAddress : string;
  buyTokenAddress : string;
  sellAmount : Js.number;
  buyAmount : Js.number;
  rate : Js.number;
  source : string;
  timestamp : Date;
  network : Network;
  status : string
}.
End TradeResult.
Definition TradeResult : Type := TradeResult.t.

(** [createTradeResult(params)]: [status] defaults to ["completed"]. *)
Definition createTradeResult
  (txHash : string) (orderId : option string)
  (sellTokenAddress : string) (sellAmount : Js.number)
  (buyTokenAddress : string) (buyAmount : Js.number)
  (rate : Js.number) (source : string) (timestamp : Date)
  (network : Network) (status : option string) : TradeResult :=
  TradeResult.make txHash orderId sellTokenAddress buyTokenAddress
    sellAmount buyAmount rate source timestamp network
    (match status with Some s => s | None => "completed" end).

(* ================================================================== *)
(** * Routing ([packages/trading-sdk/src/routing.ts]) *)
(* ================================================================== *)

Module Routing.

(** The enum is string valued, and [selectPlatform] compares its argument
    against the five members with [===]; any other string falls through to
    the last [return]. *)
Definition RoutingStrategy := string.
Definition BEST_PRICE : RoutingStrategy := "best_price".
Definition CROSS_CHAIN_ACCESS_FIRST : RoutingStrategy :=
  "cross_chain_access_first".
Definition MARKET_MAKER_FIRST : RoutingStrategy := "market_maker_first".
Definition CROSS_CHAIN_ACCESS_ONLY : RoutingStrategy :=
  "cross_chain_access_only".
Definition MARKET_MAKER_ONLY : RoutingStrategy := "market_maker_only".

Inductive Platform : Type := cross_chain_access | market_maker.

Definition Platform_eqb (a b : Platform) : bool :=
  match a, b with
  | cross_chain_access, cross_chain_access
  | market_maker, market_maker => true
  | _, _ => false
  end.

Definition platform_name (p : Platform) : string :=
  match p with
  | cross_chain_access => "cross_chain_access"
  | market_maker => "market_maker"
  end.

Record PlatformOption : Type := mkPlatformOption {
  platform : Platform;
  quote : option Quote;
  available : bool;
  error : option string
}.

(** The [options] argument of [createPlatformOption]. *)
Record PlatformOptionInit : Type := mkInit {
  init_quote : option Quote;
  init_available : option bool;
  init_error : option string
}.

Definition createPlatformOption (platform : Platform)
  (options : PlatformOptionInit) : PlatformOption :=
  {| platform := platform;
     quote := init_quote options;
     available := match init_available options with
                  | Some b => b
                  | None => true
                  end;
     error := init_error options |}.

Definition getEffectiveRate (option : PlatformOption) : Js.number :=
  match quote option with
  | None => 0%float
  | Some q =>
      if PrimFloat.eqb (sellAmount q) 0 then 0%float
      else (buyAmount q / sellAmount q)%float
  end.

(** [Router.selectPlatform].  A strategy block of the source whose inner
    tests all fail falls through to the next block; the chain of tests below
    is that control flow, in the source's order. *)
Definition selectPlatform
  (crossChainAccessOption marketMakerOption : PlatformOption)
  (strategy : RoutingStrategy) (isBuy : bool) : outcome PlatformOption :=
  let crossChainAccessAvailable :=
    available crossChainAccessOption
    && Js.defined (quote crossChainAccessOption) in
  let marketMakerAvailable :=
    available marketMakerOption && Js.defined (quote marketMakerOption) in
  if negb crossChainAccessAvailable && negb marketMakerAvailable then
    let errors :=
      app
        (if Js.truthy_string (error crossChainAccessOption)
         then ["Cross-Chain Access: "
                 ++ Js.template (error crossChainAccessOption)]
         else [])
        (if Js.truthy_string (error marketMakerOption)
         then ["Market Maker: " ++ Js.template (error marketMakerOption)]
         else []) in
    Throw (Js.new Js.NoLiquidityException
             ("No platforms available. " ++ Js.join "; " errors))
  else if String.eqb strategy CROSS_CHAIN_ACCESS_ONLY then
    if negb crossChainAccessAvailable then
      Throw (Js.new Js.NoLiquidityException
               ("Cross-Chain Access not available: "
                  ++ Js.template (error crossChainAccessOption)))
    else Ok crossChainAccessOption
  else if String.eqb strategy MARKET_MAKER_ONLY then
    if negb marketMakerAvailable then
      Throw (Js.new Js.NoLiquidityException
               ("Market Maker not available: "
                  ++ Js.template (error marketMakerOption)))
    else Ok marketMakerOption
  else if String.eqb strategy CROSS_CHAIN_ACCESS_FIRST
          && crossChainAccessAvailable then
    Ok crossChainAccessOption
  else if String.eqb strategy CROSS_CHAIN_ACCESS_FIRST
          && marketMakerAvailable then
    Ok marketMakerOption
  else if String.eqb strategy MARKET_MAKER_FIRST
          && marketMakerAvailable then
    Ok marketMakerOption
  else if String.eqb strategy MARKET_MAKER_FIRST
          && crossChainAccessAvailable then
    Ok crossChainAccessOption
  else if String.eqb strategy BEST_PRICE then
    if crossChainAccessAvailable && negb marketMakerAvailable then
      Ok crossChainAccessOption
    else if marketMakerAvailable && negb crossChainAccessAvailable then
      Ok marketMakerOption
    else
      let crossChainAccessRate := getEffectiveRate crossChainAccessOption in
      let marketMakerRate := getEffectiveRate marketMakerOption in
      if isBuy then
        if PrimFloat.leb crossChainAccessRate marketMakerRate
        then Ok crossChainAccessOption
        else Ok marketMakerOption
      else
        if Js.geb crossChainAccessRate marketMakerRate
        then Ok crossChainAccessOption
        else Ok marketMakerOption
  else
    Ok (if crossChainAccessAvailable then crossChainAccessOption
        else marketMakerOption).

(** ** Vocabulary of the routing statements *)

(** The availability test [selectPlatform] applies to each option: the flag
    is set and the quote is present. *)
Definition usable (o : PlatformOption) : bool :=
  available o && Js.defined (quote o).

(** The rate of the specification: [buyAmount / sellAmount] of the quote,
    [0] when [sellAmount] is [0] or there is no quote. *)
Definition rateOf (q : option Quote) : Js.number :=
  match q with
  | Some q =>
      if PrimFloat.eqb (sellAmount q) 0 then 0%float
      else (buyAmount q / sellAmount q)%float
  | None => 0%float
  end.

(** The comparison that decides [BEST_PRICE] when both venues quote. *)
Definition crossChainAccessWins (isBuy : bool) (ccaRate mmRate : Js.number)
  : bool :=
  (isBuy && PrimFloat.leb ccaRate mmRate)
  || (negb isBuy && Js.geb ccaRate mmRate).

Definition other (p : Platform) : Platform :=
  match p with
  | cross_chain_access => market_maker
  | market_maker => cross_chain_access
  end.

End Routing.

(* ================================================================== *)
(** * The unified client ([packages/trading-sdk/src/sdk/client.ts]) *)
(* ================================================================== *)

Module Trading.
Import Routing.
Local Open Scope js_scope.

(** The fields of a [TradingClient] that [trade] reads or writes. *)
Record TradingClient : Type := mkTradingClient {
  routingStrategy : RoutingStrategy;
  initialized : bool
}.

(** [new TradingClient(options)]: the strategy defaults to [BEST_PRICE]. *)
Definition constructor (strategy : option RoutingStrategy) : TradingClient :=
  {| routingStrategy := match strategy with
                        | Some s => s
                        | None => BEST_PRICE
                        end;
     initialized := false |}.

Record TradeOptions : Type := mkTradeOptions {
  fromToken : string;
  toToken : string;
  userEmail : string;
  fromAmount : option Js.number;
  toAmount : option Js.number;
  toTokenSymbol : option string;
  opt_routingStrategy : option RoutingStrategy
}.

(** Calls that leave [TradingClient]: the methods of the two venue clients
    it owns, and the imported [Router]. *)
Inductive Call : Type :=
| MarketMaker_initialize
| CrossChainAccess_initialize
| MarketMaker_getQuote
    (fromToken toToken : string) (fromAmount toAmount : option Js.number)
| CrossChainAccess_getQuote (symbol : string)
| Router_selectPlatform
    (crossChainAccessOption marketMakerOption : PlatformOption)
    (strategy : RoutingStrategy) (isBuy : bool)
| MarketMaker_trade
    (fromToken toToken : string) (fromAmount toAmount : option Js.number)
| CrossChainAccess_buy
    (rwaTokenAddress : string) (rwaSymbol : option string)
    (usdcAmount : Js.number) (userEmail : string)
| CrossChainAccess_sell
    (rwaTokenAddress : string) (rwaSymbol : option string)
    (rwaAmount : option Js.number) (userEmail : string).

(** What the two venue clients answer. *)
Record Venues : Type := mkVenues {
  mm_initialize : outcome unit;
  cca_initialize : outcome unit;
  mm_getQuote :
    string -> string -> option Js.number -> option Js.number -> outcome Quote;
  cca_getQuote : string -> outcome Quote;
  mm_trade :
    string -> string -> option Js.number -> option Js.number ->
    outcome TradeResult;
  cca_buy :
    string -> option string -> Js.number -> string -> outcome TradeResult;
  cca_sell :
    string -> option string -> option Js.number -> string ->
    outcome TradeResult
}.

Section Client.
Variable V : Venues.

Definition T : Type -> Type := M TradingClient Call.

(** [initialize()]: the two clients authenticate one after the other. *)
Definition initialize : T unit :=
  this <- get ;;
  if negb (initialized this) then
    call MarketMaker_initialize (mm_initialize V) ;;;
    call CrossChainAccess_initialize (cca_initialize V) ;;;
    this <- get ;;
    put {| routingStrategy := routingStrategy this; initialized := true |}
  else ret tt.

Definition getMarketMakerOption (fromToken toToken : string)
  (fromAmount toAmount : option Js.number) : T PlatformOption :=
  try_catch
    (quote <- call (MarketMaker_getQuote fromToken toToken fromAmount toAmount)
                   (mm_getQuote V fromToken toToken fromAmount toAmount) ;;
     ret (createPlatformOption market_maker (mkInit (Some quote) None None)))
    (fun error =>
       ret (createPlatformOption market_maker
              (mkInit None (Some false) (Some (Js.toString error))))).

Definition getCrossChainAccessOption (symbol : option string)
  (fromAmount toAmount : option Js.number) : T PlatformOption :=
  match symbol with
  | Some symbol =>
      if String.eqb symbol "" then
        ret (createPlatformOption cross_chain_access
               (mkInit None (Some false) (Some "Symbol not provided")))
      else
        try_catch
          (quote <- call (CrossChainAccess_getQuote symbol)
                         (cca_getQuote V symbol) ;;
           ret (createPlatformOption cross_chain_access
                  (mkInit (Some quote) None None)))
          (fun error =>
             if Js.instanceof error Js.MarketClosedException then
               ret (createPlatformOption cross_chain_access
                      (mkInit None (Some false) (Some "Market closed")))
             else
               ret (createPlatformOption cross_chain_access
                      (mkInit None (Some false)
                         (Some (Js.toString error)))))
  | None =>
      ret (createPlatformOption cross_chain_access
             (mkInit None (Some false) (Some "Symbol not provided")))
  end.

Definition executeMarketMakerTrade (fromToken toToken : string)
  (fromAmount toAmount : option Js.number) : T TradeResult :=
  call (MarketMaker_trade fromToken toToken fromAmount toAmount)
       (mm_trade V fromToken toToken fromAmount toAmount).

Definition executeCrossChainAccessTrade (rwaTokenAddress : string)
  (rwaSymbol : option string) (rwaAmount usdcAmount : option Js.number)
  (userEmail : string) : T TradeResult :=
  match usdcAmount with
  | Some usdcAmount =>
      call (CrossChainAccess_buy rwaTokenAddress rwaSymbol usdcAmount userEmail)
           (cca_buy V rwaTokenAddress rwaSymbol usdcAmount userEmail)
  | None =>
      call (CrossChainAccess_sell rwaTokenAddress rwaSymbol rwaAmount userEmail)
           (cca_sell V rwaTokenAddress rwaSymbol rwaAmount userEmail)
  end.

(** The two branches of [if (platform === "cross_chain_access")], which
    [trade] writes out once for the selected platform and once for the
    fallback platform. *)
Definition executeOn (p : Platform) (options : TradeOptions) : T TradeResult :=
  if Platform_eqb p cross_chain_access then
    executeCrossChainAccessTrade (toToken options) (toTokenSymbol options)
      (toAmount options) (fromAmount options) (userEmail options)
  else
    executeMarketMakerTrade (fromToken options) (toToken options)
      (fromAmount options) (toAmount options).

Definition allowsFallback (strategy : RoutingStrategy) : bool :=
  String.eqb strategy BEST_PRICE
  || String.eqb strategy CROSS_CHAIN_ACCESS_FIRST
  || String.eqb strategy MARKET_MAKER_FIRST.

Definition validationError : Js.error :=
  Js.new Js.Error "Must provide either fromAmount OR toAmount, not both".

(** [trade(options)]. *)
Definition trade (options : TradeOptions) : T TradeResult :=
  if (Js.defined (fromAmount options) && Js.defined (toAmount options))
     || (negb (Js.defined (fromAmount options))
         && negb (Js.defined (toAmount options)))
  then throw validationError
  else
    this <- get ;;
    let strategy :=
      match opt_routingStrategy options with
      | Some s => s
      | None => routingStrategy this
      end in
    let isBuy := Js.defined (fromAmount options) in
    (if negb (initialized this) then initialize else ret tt) ;;;
    marketMakerOption <-
      getMarketMakerOption (fromToken options) (toToken options)
        (fromAmount options) (toAmount options) ;;
    crossChainAccessOption <-
      (if Js.truthy_string (toTokenSymbol options) then
         getCrossChainAccessOption (toTokenSymbol options)
           (fromAmount options) (toAmount options)
       else
         ret (createPlatformOption cross_chain_access
                (mkInit None (Some false) (Some "Symbol not provided")))) ;;
    selected <-
      call (Router_selectPlatform crossChainAccessOption marketMakerOption
              strategy isBuy)
           (selectPlatform crossChainAccessOption marketMakerOption
              strategy isBuy) ;;
    try_catch
      (executeOn (platform selected) options)
      (fun error =>
         let fallbackPlatform :=
           if Platform_eqb (platform selected) cross_chain_access
           then market_maker else cross_chain_access in
         let fallbackOption :=
           if Platform_eqb (platform selected) cross_chain_access
           then marketMakerOption else crossChainAccessOption in
         if allowsFallback strategy && available fallbackOption then
           try_catch
             (executeOn fallbackPlatform options)
             (fun fallbackError =>
                throw (Js.new Js.AllPlatformsFailedException
                         ("Primary (" ++ platform_name (platform selected)
                            ++ "): " ++ Js.toString error
                            ++ ". Fallback ("
                            ++ platform_name fallbackPlatform
                            ++ "): " ++ Js.toString fallbackError)))
         else
           throw (Js.new Js.TradingException
                    ("Trade failed: " ++ Js.toString error))).

End Client.

(** ** Vocabulary of the orchestration statements *)

(** Running a computation of the client from a state and an empty log. *)
Definition run {A} (m : M TradingClient Call A) (this : TradingClient)
  : outcome A * world TradingClient Call :=
  m (this, []).

(** Exactly one of the two amounts is given. *)
Definition oneAmount (options : TradeOptions) : bool :=
  xorb (Js.defined (fromAmount options)) (Js.defined (toAmount options)).

(** The strategy in force for a request. *)
Definition strategyOf (this : TradingClient) (options : TradeOptions)
  : RoutingStrategy :=
  match opt_routingStrategy options with
  | Some s => s
  | None => routingStrategy this
  end.

(** [c] is an execution request sent to venue [p]. *)
Definition isExecutionOn (p : Platform) (c : Call) : bool :=
  match c, p with
  | MarketMaker_trade _ _ _ _, market_maker => true
  | CrossChainAccess_buy _ _ _ _, cross_chain_access => true
  | CrossChainAccess_sell _ _ _ _, cross_chain_access => true
  | _, _ => false
  end.

Definition isExecution (c : Call) : bool :=
  isExecutionOn market_maker c || isExecutionOn cross_chain_access c.

(** What venue [p] answers to the execution request of [options]. *)
Definition executionAnswer (V : Venues) (options : TradeOptions)
  (p : Platform) : outcome TradeResult :=
  match p with
  | market_maker =>
      mm_trade V (fromToken options) (toToken options)
        (fromAmount options) (toAmount options)
  | cross_chain_access =>
      match fromAmount options with
      | Some usdcAmount =>
          cca_buy V (toToken options) (toTokenSymbol options) usdcAmount
            (userEmail options)
      | None =>
          cca_sell V (toToken options) (toTokenSymbol options)
            (toAmount options) (userEmail options)
      end
  end.

(** The execution request [trade] sends to venue [p]. *)
Definition executionCall (options : TradeOptions) (p : Platform) : Call :=
  match p with
  | market_maker =>
      MarketMaker_trade (fromToken options) (toToken options)
        (fromAmount options) (toAmount options)
  | cross_chain_access =>
      match fromAmount options with
      | Some usdcAmount =>
          CrossChainAccess_buy (toToken options) (toTokenSymbol options)
            usdcAmount (userEmail options)
      | None =>
          CrossChainAccess_sell (toToken options) (toTokenSymbol options)
            (toAmount options) (userEmail options)
      end
  end.

(** The quote requests of one [trade]: always the Market Maker's, and the
    Cross-Chain Access one when a symbol is given. *)
Definition quoteCalls (options : TradeOptions) : list Call :=
  MarketMaker_getQuote (fromToken options) (toToken options)
    (fromAmount options) (toAmount options)
  :: match toTokenSymbol options with
     | Some symbol =>
         if String.eqb symbol "" then []
         else [CrossChainAccess_getQuote symbol]
     | None => []
     end.

Definition allPlatformsFailed (selected : Platform)
  (error fallbackError : Js.error) : Js.error :=
  Js.new Js.AllPlatformsFailedException
    ("Primary (" ++ platform_name selected ++ "): " ++ Js.toString error
       ++ ". Fallback (" ++ platform_name (other selected) ++ "): "
       ++ Js.toString fallbackError).

Definition tradeFailed (error : Js.error) : Js.error :=
  Js.new Js.TradingException ("Trade failed: " ++ Js.toString error).

(** Both venue clients can be initialized, or already are. *)
Definition initializes (V : Venues) (this : TradingClient) : bool :=
  initialized this ||
  match mm_initialize V, cca_initialize V with
  | Ok _, Ok _ => true
  | _, _ => false
  end.

(** The option a quote answer is turned into: the quote when there is one,
    otherwise an unavailable option that records the reason. *)
Definition unavailableOption (p : Platform) (reason : string)
  : PlatformOption :=
  {| platform := p; quote := None; available := false;
     error := Some reason |}.

Definition availableOption (p : Platform) (q : Quote) : PlatformOption :=
  {| platform := p; quote := Some q; available := true; error := None |}.

Definition marketMakerOptionOf (V : Venues) (options : TradeOptions)
  : PlatformOption :=
  match mm_getQuote V (fromToken options) (toToken options)
          (fromAmount options) (toAmount options) with
  | Ok q => availableOption market_maker q
  | Throw e => unavailableOption market_maker (Js.toString e)
  end.

Definition crossChainAccessOptionOf (V : Venues) (options : TradeOptions)
  : PlatformOption :=
  match toTokenSymbol options with
  | None => unavailableOption cross_chain_access "Symbol not provided"
  | Some symbol =>
      if String.eqb symbol "" then
        unavailableOption cross_chain_access "Symbol not provided"
      else
        match cca_getQuote V symbol with
        | Ok q => availableOption cross_chain_access q
        | Throw e =>
            unavailableOption cross_chain_access
              (if Js.instanceof e Js.MarketClosedException
               then "Market closed" else Js.toString e)
        end
  end.

(** ** The run of [trade] in closed form

    [settle] is the execution step with its fallback, [tradeRun] the whole
    call; [TradingFacts.trade_run] shows that [trade] computes them. *)
Definition settle (V : Venues) (options : TradeOptions)
  (strategy : RoutingStrategy) (cca mm selected : PlatformOption)
  : outcome TradeResult * list Call :=
  let p := platform selected in
  let fallbackOption :=
    match p with cross_chain_access => mm | market_maker => cca end in
  match executionAnswer V options p with
  | Ok result => (Ok result, [executionCall options p])
  | Throw error =>
      if allowsFallback strategy && available fallbackOption then
        (match executionAnswer V options (other p) with
         | Ok result => Ok result
         | Throw fallbackError =>
             Throw (allPlatformsFailed p error fallbackError)
         end,
         [executionCall options p; executionCall options (other p)])
      else (Throw (tradeFailed error), [executionCall options p])
  end.

Definition routeAndSettle (V : Venues) (options : TradeOptions)
  (this : TradingClient) (log : list Call)
  : outcome TradeResult * world TradingClient Call :=
  let cca := crossChainAccessOptionOf V options in
  let mm := marketMakerOptionOf V options in
  let strategy := strategyOf this options in
  let isBuy := Js.defined (fromAmount options) in
  let log :=
    (log ++ quoteCalls options
         ++ [Router_selectPlatform cca mm strategy isBuy])%list in
  match selectPlatform cca mm strategy isBuy with
  | Throw e => (Throw e, (this, log))
  | Ok selected =>
      let (r, executions) := settle V options strategy cca mm selected in
      (r, (this, (log ++ executions)%list))
  end.

Definition tradeRun (V : Venues) (options : TradeOptions)
  (this : TradingClient) : outcome TradeResult * world TradingClient Call :=
  if negb (oneAmount options) then (Throw validationError, (this, []))
  else if initialized this then routeAndSettle V options this []
  else
    match mm_initialize V with
    | Throw e => (Throw e, (this, [MarketMaker_initialize]))
    | Ok _ =>
        match cca_initialize V with
        | Throw e =>
            (Throw e,
             (this, [MarketMaker_initialize; CrossChainAccess_initialize]))
        | Ok _ =>
            routeAndSettle V options
              {| routingStrategy := routingStrategy this;
                 initialized := true |}
              [MarketMaker_initialize; CrossChainAccess_initialize]
        end
    end.

End Trading.

(* ================================================================== *)
(** * The Market Maker venue
      (RPQ service client; [packages/market-maker-sdk/src/sdk/client.ts]) *)
(* ================================================================== *)

Module MarketMaker.
Local Open Scope js_scope.

Definition getNetworkName (network : Network) : string :=
  match network with
  | ETHEREUM => "ethereum"
  | POLYGON => "polygon"
  | BASE => "base"
  | BSC => "bsc"
  end.

(** [PricingType] is a string enum; the field comes from the wire and is
    only cast, so it can hold any string. *)
Definition FIXED_PRICING : string := "FixedPricing".
Definition DYNAMIC_PRICING : string := "DynamicPricing".

Record SelectedOffer : Type := mkSelectedOffer {
  id : string;
  withdrawalAmountPaid : string;
  withdrawalAmountPaidDecimals : string;
  offerType : string;
  maker : string;
  pricePerUnit : string;
  pricingType : string;
  depositToWithdrawalRate : option string
}.

Record BestOffersResult : Type := mkBestOffersResult {
  result_success : bool;
  targetAmount : string;
  totalWithdrawalAmountPaid : string;
  selectedOffers : list SelectedOffer;
  mode : string
}.

Record BestOffersResponse : Type := mkBestOffersResponse {
  success : bool;
  result : BestOffersResult
}.

(** The body of [GET /dotc_offers/best] ([BestOffersAPIResponse]). *)
Record BestOffersAPIResult : Type := mkBestOffersAPIResult {
  api_result_success : bool;
  api_targetAmount : string;
  api_totalWithdrawalAmountPaid : string;
  api_selectedOffers : option (list SelectedOffer);
  api_mode : string
}.

Record BestOffersAPIResponse : Type := mkBestOffersAPIResponse {
  api_success : bool;
  api_result : option BestOffersAPIResult
}.

(** The body of [GET /dotc_offers/quote] ([QuoteResponse]). *)
Record QuoteResponse : Type := mkQuoteResponse {
  quote_success : bool;
  quote_buyAssetAddress : string;
  quote_sellAssetAddress : string;
  averagePrice : string;
  quote_sellAmount : option string;
  quote_buyAmount : option string
}.

(** The fields of a [MarketMakerClient] and of the [RPQClient] it owns. *)
Record MarketMakerClient : Type := mkMarketMakerClient {
  network : Network;
  privateKey : string;
  apiKey : option string;
  initialized : bool
}.

(** Calls that leave the client: the authentication service, the HTTP
    requests of the RPQ client, and the two transactions of the Web3
    client. *)
Inductive Call : Type :=
| Auth_verify (privateKey : string)
| Http_get (endpoint : string) (params : list (string * string))
| Web3_takeOfferFixed
    (offerId withdrawalToken : string) (withdrawalAmountPaid : Z)
    (affiliate : option string)
| Web3_takeOfferDynamic
    (offerId withdrawalToken : string) (withdrawalAmountPaid : Z)
    (maximumDepositToWithdrawalRate : Z) (affiliate : option string).

Record Services : Type := mkServices {
  auth_verify : string -> outcome unit;
  get_best : list (string * string) -> outcome BestOffersAPIResponse;
  get_quote : list (string * string) -> outcome QuoteResponse;
  takeOfferFixed :
    string -> string -> Z -> option string -> outcome string;
  takeOfferDynamic :
    string -> string -> Z -> Z -> option string -> outcome string
}.

Section Client.
Variable rt : Runtime.
Variable S : Services.

Definition T : Type -> Type := M MarketMakerClient Call.

(** The optional query parameter [name=value], added when [value] is a
    non-empty string. *)
Definition param (name : string) (value : option string)
  : list (string * string) :=
  match value with
  | Some v => if String.eqb v "" then [] else [(name, v)]
  | None => []
  end.

(** ** [RPQClient] *)

Definition getBestOffers (buyAssetAddress sellAssetAddress : string)
  (targetSellAmount targetBuyAmount : option string)
  : T BestOffersResponse :=
  this <- get ;;
  if Js.truthy_string targetSellAmount && Js.truthy_string targetBuyAmount
  then throw (Js.new Js.Error
                "Specify either targetSellAmount OR targetBuyAmount, not both")
  else if negb (Js.truthy_string targetSellAmount)
          && negb (Js.truthy_string targetBuyAmount)
  then throw (Js.new Js.Error
                "Must specify either targetSellAmount OR targetBuyAmount")
  else
    try_catch
      (let params :=
         ([("network", getNetworkName (network this));
           ("buyAssetAddress", buyAssetAddress);
           ("sellAssetAddress", sellAssetAddress)]
          ++ param "targetSellAmount" targetSellAmount
          ++ param "targetBuyAmount" targetBuyAmount)%list in
       response <- call (Http_get "/dotc_offers/best" params)
                        (get_best S params) ;;
       match api_result response with
       | None =>
           throw (Js.new Js.NoOffersAvailableException
                    ("No offers available for " ++ sellAssetAddress
                       ++ " -> " ++ buyAssetAddress))
       | Some resultData =>
           ret {| success := api_success response;
                  result :=
                    {| result_success := api_result_success resultData;
                       targetAmount := api_targetAmount resultData;
                       totalWithdrawalAmountPaid :=
                         api_totalWithdrawalAmountPaid resultData;
                       selectedOffers :=
                         match api_selectedOffers resultData with
                         | Some offers => offers
                         | None => []
                         end;
                       mode := api_mode resultData |} |}
       end)
      (fun error =>
         if Js.instanceof error Js.APIException
            && Z.eqb (Js.statusCode error) 400
         then throw (Js.new Js.RPQServiceException
                       ("Invalid request parameters: " ++ Js.message error))
         else if Js.instanceof error Js.NoOffersAvailableException
         then throw error
         else throw (Js.new Js.RPQServiceException
                       ("Failed to get best offers: " ++ Js.toString error))).

Definition requestQuote (buyAssetAddress sellAssetAddress : string)
  (targetSellAmount targetBuyAmount : option string) : T QuoteResponse :=
  this <- get ;;
  if negb (Js.truthy_string (apiKey this)) then
    throw (Js.new Js.RPQServiceException
             "API key is required for get_quote endpoint")
  else
    try_catch
      (if Js.truthy_string targetSellAmount
          && Js.truthy_string targetBuyAmount
       then throw (Js.new Js.Error
              "Provide either targetSellAmount OR targetBuyAmount, not both")
       else
         let params :=
           ([("buyAssetAddress", buyAssetAddress);
             ("sellAssetAddress", sellAssetAddress);
             ("network", getNetworkName (network this))]
            ++ param "targetSellAmount" targetSellAmount
            ++ param "targetBuyAmount" targetBuyAmount)%list in
         call (Http_get "/dotc_offers/quote" params) (get_quote S params))
      (fun error =>
         if Js.instanceof error Js.APIException
            && Z.eqb (Js.statusCode error) 400
         then throw (Js.new Js.RpqQuoteUnavailableException
                       ("Quote unavailable: " ++ Js.message error))
         else if Js.instanceof error Js.APIException
                 && Z.eqb (Js.statusCode error) 401
         then throw (Js.new Js.RPQServiceException
                       "Invalid or missing API key")
         else if Js.instanceof error Js.APIException
                 && Z.eqb (Js.statusCode error) 429
         then throw (Js.new Js.RPQServiceException
                       "Monthly rate limit reached")
         else throw (Js.new Js.RPQServiceException
                       ("Failed to get quote: " ++ Js.toString error))).

(** [RPQClient.getQuote]. *)
Definition rpq_getQuote (buyAssetAddress sellAssetAddress : string)
  (targetSellAmount targetBuyAmount : option string) : T Quote :=
  rpqQuote <- requestQuote buyAssetAddress sellAssetAddress
                targetSellAmount targetBuyAmount ;;
  let sellAmount :=
    if Js.truthy_string (quote_sellAmount rpqQuote)
    then parseFloat rt (Js.template (quote_sellAmount rpqQuote))
    else 0%float in
  let buyAmount :=
    if Js.truthy_string (quote_buyAmount rpqQuote)
    then parseFloat rt (Js.template (quote_buyAmount rpqQuote))
    else 0%float in
  let rate :=
    if Js.gtb sellAmount 0%float then (buyAmount / sellAmount)%float
    else 0%float in
  ret {| sellTokenAddress := quote_sellAssetAddress rpqQuote;
         sellAmount := sellAmount;
         buyTokenAddress := quote_buyAssetAddress rpqQuote;
         buyAmount := buyAmount;
         rate := rate;
         source := "Market Maker RPQ";
         timestamp := now rt |}.

(** ** [MarketMakerClient] *)

Definition initialize : T unit :=
  this <- get ;;
  if initialized this then ret tt
  else
    call (Auth_verify (privateKey this)) (auth_verify S (privateKey this)) ;;;
    this <- get ;;
    put {| network := network this; privateKey := privateKey this;
           apiKey := apiKey this; initialized := true |}.

(** [amount ? String(amount) : undefined]. *)
Definition amountText (amount : option Js.number) : option string :=
  match amount with
  | Some x =>
      if Js.truthy_number amount then Some (String_of_number rt x) else None
  | None => None
  end.

Definition getQuote (fromToken toToken : string)
  (fromAmount toAmount : option Js.number) : T Quote :=
  rpq_getQuote toToken fromToken (amountText fromAmount)
    (amountText toAmount).

Definition trade (fromToken toToken : string)
  (fromAmount toAmount : option Js.number) (affiliate : option string)
  : T TradeResult :=
  this <- get ;;
  (if negb (initialized this) then initialize else ret tt) ;;;
  try_catch
    (bestOffersResponse <-
       getBestOffers toToken fromToken (amountText fromAmount)
         (amountText toAmount) ;;
     match selectedOffers (result bestOffersResponse) with
     | [] =>
         throw (Js.new Js.NoOffersAvailableException
                  "No suitable offers found for this trade")
     | selectedOffer :: _ =>
         let withdrawalDecimals :=
           parseInt rt (withdrawalAmountPaidDecimals selectedOffer) in
         withdrawalAmountPaidWei <-
           lift (BigInt rt (withdrawalAmountPaid selectedOffer)) ;;
         let withdrawalAmountPaidNormalized :=
           (Number_of_bigint rt withdrawalAmountPaidWei
            / pow rt 10%float withdrawalDecimals)%float in
         txHash <-
           (if String.eqb (pricingType selectedOffer) DYNAMIC_PRICING then
              if negb (Js.truthy_string
                         (depositToWithdrawalRate selectedOffer))
              then
                throw (Js.new Js.MarketMakerWeb3Exception
                         ("Dynamic offer " ++ id selectedOffer
                            ++ " missing depositToWithdrawalRate"))
              else
                maxRate <-
                  lift (BigInt rt
                          (Js.template
                             (depositToWithdrawalRate selectedOffer))) ;;
                call (Web3_takeOfferDynamic (id selectedOffer) fromToken
                        withdrawalAmountPaidWei maxRate affiliate)
                     (takeOfferDynamic S (id selectedOffer) fromToken
                        withdrawalAmountPaidWei maxRate affiliate)
            else
              call (Web3_takeOfferFixed (id selectedOffer) fromToken
                      withdrawalAmountPaidWei affiliate)
                   (takeOfferFixed S (id selectedOffer) fromToken
                      withdrawalAmountPaidWei affiliate)) ;;
         let pricePerUnit := parseFloat rt (pricePerUnit selectedOffer) in
         let depositAmountReceivedNormalized :=
           if Js.gtb pricePerUnit 0%float
           then (withdrawalAmountPaidNormalized / pricePerUnit)%float
           else 0%float in
         this <- get ;;
         ret (createTradeResult txHash (Some (id selectedOffer))
                fromToken withdrawalAmountPaidNormalized
                toToken depositAmountReceivedNormalized
                pricePerUnit "market_maker" (now rt) (network this) None)
     end)
    (fun error =>
       if Js.instanceof error Js.NoOffersAvailableException
          || Js.instanceof error Js.MarketMakerWeb3Exception
       then throw error
       else throw (Js.new Js.MarketMakerWeb3Exception
                     ("Trade execution failed: " ++ Js.toString error))).

End Client.

(** ** Vocabulary of the statements *)

(** [c] submits a transaction. *)
Definition isTransaction (c : Call) : bool :=
  match c with
  | Web3_takeOfferFixed _ _ _ _ | Web3_takeOfferDynamic _ _ _ _ _ => true
  | _ => false
  end.

Definition run {A} (m : M MarketMakerClient Call A)
  (this : MarketMakerClient)
  : outcome A * world MarketMakerClient Call :=
  m (this, []).

(** The query [trade] sends to [/dotc_offers/best]. *)
Definition bestOffersQuery (rt : Runtime) (this : MarketMakerClient)
  (fromToken toToken : string) (fromAmount toAmount : option Js.number)
  : list (string * string) :=
  ([("network", getNetworkName (network this));
    ("buyAssetAddress", toToken);
    ("sellAssetAddress", fromToken)]
   ++ param "targetSellAmount" (amountText rt fromAmount)
   ++ param "targetBuyAmount" (amountText rt toAmount))%list.

(** The client can start a trade and the RPQ service selects [offer] first:
    authentication succeeds (or was done), one amount is given, and the
    best-offers request answers a result whose first selected offer is
    [offer]. *)
Definition selects (rt : Runtime) (S : Services) (this : MarketMakerClient)
  (fromToken toToken : string) (fromAmount toAmount : option Js.number)
  (offer : SelectedOffer) : Prop :=
  (initialized this = true \/ auth_verify S (privateKey this) = Ok tt)
  /\ xorb (Js.truthy_string (amountText rt fromAmount))
          (Js.truthy_string (amountText rt toAmount)) = true
  /\ exists apiResponse resultData rest,
       get_best S
         (bestOffersQuery rt this fromToken toToken fromAmount toAmount)
       = Ok apiResponse
       /\ api_result apiResponse = Some resultData
       /\ api_selectedOffers resultData = Some (offer :: rest).

End MarketMaker.

(* ================================================================== *)
(** * The Cross-Chain Access venue
      (API client; [packages/cross-chain-access-sdk/src/sdk/client.ts]) *)
(* ================================================================== *)

Module CrossChainAccess.
Local Open Scope js_scope.

Inductive OrderSide : Type := BUY | SELL.

Definition side_name (side : OrderSide) : string :=
  match side with BUY => "buy" | SELL => "sell" end.

Record CrossChainAccessQuote : Type := mkCrossChainAccessQuote {
  bidPrice : Js.number;
  askPrice : Js.number;
  bidSize : Js.number;
  askSize : Js.number;
  quote_timestamp : Date;
  bidExchange : option string;
  askExchange : option string
}.

Definition getPriceForSide (quote : CrossChainAccessQuote)
  (side : OrderSide) : Js.number :=
  match side with BUY => askPrice quote | SELL => bidPrice quote end.

Record AccountStatus : Type := mkAccountStatus {
  accountBlocked : bool;
  tradingBlocked : bool;
  transfersBlocked : bool;
  tradeSuspendedByUser : bool;
  marketOpen : bool;
  accountStatus : string
}.

Definition isTradingAllowed (status : AccountStatus) : bool :=
  negb (accountBlocked status) && negb (tradingBlocked status)
  && negb (transfersBlocked status) && negb (tradeSuspendedByUser status)
  && marketOpen status.

Record AccountFunds : Type := mkAccountFunds {
  cash : Js.number;
  buyingPower : Js.number;
  dayTradingBuyingPower : Js.number;
  effectiveBuyingPower : Js.number;
  nonMarginBuyingPower : Js.number;
  regTBuyingPower : Js.number
}.

Definition hasSufficientFunds (funds : AccountFunds)
  (requiredAmount : Js.number) : bool :=
  Js.geb (buyingPower funds) requiredAmount.

(** The result of [getMarketStatus()], which reads the clock. *)
Record MarketStatus : Type := mkMarketStatus {
  isOpen : bool;
  status_message : string
}.

(** The [attributes] object [createOrder] posts to [/orders]. *)
Record OrderRequest : Type := mkOrderRequest {
  req_wallet : string;
  req_tx_hash : string;
  req_asset : string;
  req_asset_symbol : string;
  req_side : OrderSide;
  req_price : Js.number;
  req_qty : Js.number;
  req_notional : Js.number;
  req_chain_id : Z;
  req_target_chain_id : Z;
  req_user_email : string
}.

(** The [data] object of the answer to [POST /orders]; every field may be
    missing. *)
Record OrderData : Type := mkOrderData {
  data_id : option string;
  data_symbol : option string;
  data_side : option string;
  data_qty : option Js.number;
  data_filled_qty : option Js.number;
  data_status : option string
}.

(** [CrossChainAccessOrderResponse], without its two timestamps, which
    nothing in the client reads. *)
Record CrossChainAccessOrderResponse : Type := mkOrderResponse {
  orderId : string;
  symbol : string;
  side : string;
  quantity : Js.number;
  filledQty : Js.number;
  status : string
}.

(** The fields of a [CrossChainAccessClient], of the API client it owns
    ([authToken]) and of its Web3 helper ([address]). *)
Record CrossChainAccessClient : Type := mkCrossChainAccessClient {
  network : Network;
  usdcAddress : string;
  privateKey : string;
  address : string;
  authToken : option string;
  topupAddress : option string;
  initialized : bool
}.

Definition set_authToken (this : CrossChainAccessClient) (token : string)
  : CrossChainAccessClient :=
  {| network := network this; usdcAddress := usdcAddress this;
     privateKey := privateKey this; address := address this;
     authToken := Some token; topupAddress := topupAddress this;
     initialized := initialized this |}.

Definition set_topupAddress (this : CrossChainAccessClient)
  (a : string) : CrossChainAccessClient :=
  {| network := network this; usdcAddress := usdcAddress this;
     privateKey := privateKey this; address := address this;
     authToken := authToken this; topupAddress := Some a;
     initialized := initialized this |}.

Definition set_initialized (this : CrossChainAccessClient)
  : CrossChainAccessClient :=
  {| network := network this; usdcAddress := usdcAddress this;
     privateKey := privateKey this; address := address this;
     authToken := authToken this; topupAddress := topupAddress this;
     initialized := true |}.

(** Calls that leave the client: authentication, remote configuration,
    the HTTP requests of the API client, and the chain. *)
Inductive Call : Type :=
| Auth_verify (privateKey : string)
| Config_getTopupAddress
| Api_getStatus
| Api_getFunds
| Api_getAssetQuote (symbol : string)
| Api_postOrders (attributes : OrderRequest)
| Web3_getBalance (tokenAddress : string)
| Web3_transferToken
    (toAddress : option string) (tokenAddress : string) (amount : Js.number).

Record Services : Type := mkServices {
  (** the access token of [SwarmAuth.verify] *)
  auth_verify : string -> outcome string;
  config_topupAddress : outcome string;
  marketStatus : MarketStatus;
  api_status : outcome AccountStatus;
  api_funds : outcome AccountFunds;
  api_assetQuote : string -> outcome CrossChainAccessQuote;
  api_orders : OrderRequest -> outcome OrderData;
  web3_balance : string -> outcome Js.number;
  (** the hash of the confirmed transfer *)
  web3_transfer : option string -> string -> Js.number -> outcome string
}.

Definition RWA_DECIMALS : nat := 9.
Definition USDC_DECIMALS : nat := 2.

Section Client.
Variable rt : Runtime.
Variable S : Services.

Definition T : Type -> Type := M CrossChainAccessClient Call.

(** ** [CrossChainAccessAPIClient] *)

Definition getAccountStatus : T AccountStatus :=
  this <- get ;;
  if negb (Js.truthy_string (authToken this)) then
    throw (Js.newAPIException
             "Authentication token required for getting account status" 401)
  else call Api_getStatus (api_status S).

Definition getAccountFunds : T AccountFunds :=
  this <- get ;;
  if negb (Js.truthy_string (authToken this)) then
    throw (Js.newAPIException
             "Authentication token required for getting account funds" 401)
  else call Api_getFunds (api_funds S).

Definition getAssetQuote (symbol : string) : T CrossChainAccessQuote :=
  try_catch
    (call (Api_getAssetQuote (Js.toUpperCase symbol))
          (api_assetQuote S (Js.toUpperCase symbol)))
    (fun error =>
       if Js.instanceof error Js.APIException
          && Z.eqb (Js.statusCode error) 404
       then throw (Js.new Js.InvalidSymbolException
                     ("Invalid trading symbol: " ++ symbol))
       else if Js.instanceof error Js.APIException
               && Z.eqb (Js.statusCode error) 400
       then throw (Js.new Js.CcaQuoteUnavailableException
                     ("Quote unavailable for " ++ symbol ++ ": "
                        ++ Js.message error))
       else throw (Js.new Js.CcaQuoteUnavailableException
                     ("Failed to get quote for " ++ symbol ++ ": "
                        ++ Js.toString error))).

Definition createOrder
  (wallet txHash assetAddress assetSymbol : string) (side : OrderSide)
  (price qty notional : Js.number) (chainId : Z) (userEmail : string)
  (targetChainId : option Z) : T CrossChainAccessOrderResponse :=
  this <- get ;;
  if negb (Js.truthy_string (authToken this)) then
    throw (Js.newAPIException
             "Authentication token required for creating orders" 401)
  else
    try_catch
      (let attributes :=
         {| req_wallet := Js.toLowerCase wallet;
            req_tx_hash := txHash;
            req_asset := assetAddress;
            req_asset_symbol := Js.toUpperCase assetSymbol;
            req_side := side;
            req_price := price;
            req_qty := qty;
            req_notional := notional;
            req_chain_id := chainId;
            req_target_chain_id :=
              match targetChainId with Some c => c | None => chainId end;
            req_user_email := userEmail |} in
       orderData <- call (Api_postOrders attributes)
                         (api_orders S attributes) ;;
       ret {| orderId := match data_id orderData with
                         | Some i => i
                         | None => "unknown"
                         end;
              symbol := match data_symbol orderData with
                        | Some s => s
                        | None => assetSymbol
                        end;
              side := match data_side orderData with
                      | Some s => s
                      | None => side_name side
                      end;
              quantity := match data_qty orderData with
                          | Some q => q
                          | None => qty
                          end;
              filledQty := match data_filled_qty orderData with
                           | Some q => q
                           | None => 0%float
                           end;
              status := match data_status orderData with
                        | Some s => s
                        | None => "pending"
                        end |})
      (fun error =>
         if Js.instanceof error Js.APIException then
           throw (Js.new Js.OrderFailedException
                    ("Order creation failed: " ++ Js.message error))
         else
           throw (Js.new Js.OrderFailedException
                    ("Order creation failed: " ++ Js.toString error))).

(** ** [CrossChainAccessClient] *)

Definition authenticate : T unit :=
  this <- get ;;
  accessToken <- call (Auth_verify (privateKey this))
                      (auth_verify S (privateKey this)) ;;
  this <- get ;;
  put (set_authToken this accessToken).

Definition loadTopupAddress : T unit :=
  this <- get ;;
  if negb (Js.truthy_string (topupAddress this)) then
    a <- call Config_getTopupAddress (config_topupAddress S) ;;
    this <- get ;;
    put (set_topupAddress this a)
  else ret tt.

Definition initialize : T unit :=
  this <- get ;;
  if negb (initialized this) then
    authenticate ;;;
    loadTopupAddress ;;;
    this <- get ;;
    put (set_initialized this)
  else ret tt.

Definition checkTradingAvailability : T (bool * string) :=
  this <- get ;;
  (if negb (initialized this) then initialize else ret tt) ;;;
  let marketStatus := marketStatus S in
  if negb (isOpen marketStatus) then
    ret (false, status_message marketStatus)
  else
    try_catch
      (status <- getAccountStatus ;;
       if negb (isTradingAllowed status) then
         let reasons :=
           ((if accountBlocked status then ["account blocked"] else [])
            ++ (if tradingBlocked status then ["trading blocked"] else [])
            ++ (if transfersBlocked status
                then ["transfers blocked"] else [])
            ++ (if tradeSuspendedByUser status
                then ["suspended by user"] else [])
            ++ (if negb (marketOpen status)
                then ["market closed"] else []))%list in
         ret (false, "Trading not available: " ++ Js.join ", " reasons)
       else ret (true, "Trading is available"))
      (fun error =>
         ret (false, "Failed to check account status: "
                       ++ Js.toString error)).

(** [getQuote(rwaSymbol)]. *)
Definition getQuote (rwaSymbol : string) : T Quote :=
  crossChainAccessQuote <- getAssetQuote rwaSymbol ;;
  this <- get ;;
  ret {| sellTokenAddress := usdcAddress this;
         sellAmount := 1%float;
         buyTokenAddress := rwaSymbol;
         buyAmount := (1 / askPrice crossChainAccessQuote)%float;
         rate := askPrice crossChainAccessQuote;
         source := "cross_chain_access";
         timestamp := now rt |}.

(** With neither amount, [finalUsdc] is [undefined] and the rounding
    [finalUsdc.toFixed(...)] throws; [buy] and [sell] never call
    [executeTrade] so. *)
Definition undefinedAmount : Js.error :=
  Js.new Js.TypeError
    "Cannot read properties of undefined (reading 'toFixed')".

Definition executeTrade (rwaTokenAddress rwaSymbol : string)
  (rwaAmount usdcAmount : option Js.number) (orderSide : OrderSide)
  (userEmail : string) (targetChainId : option Z) : T TradeResult :=
  this <- get ;;
  (if negb (initialized this) then initialize else ret tt) ;;;
  availability <- checkTradingAvailability ;;
  let '(isAvailable, message) := availability in
  if negb isAvailable then
    if Js.includes "market" (Js.toLowerCase message)
       || Js.includes "closed" (Js.toLowerCase message)
    then throw (Js.new Js.MarketClosedException message)
    else throw (Js.new Js.AccountBlockedException message)
  else
    crossChainAccessQuote <- getAssetQuote rwaSymbol ;;
    let price := getPriceForSide crossChainAccessQuote orderSide in
    amounts <-
      match orderSide with
      | BUY =>
          match rwaAmount with
          | Some rwaAmount => ret (rwaAmount, (rwaAmount * price)%float)
          | None =>
              match usdcAmount with
              | Some usdcAmount =>
                  ret ((usdcAmount / price)%float, usdcAmount)
              | None => throw undefinedAmount
              end
          end
      | SELL =>
          match rwaAmount with
          | Some rwaAmount => ret (rwaAmount, (rwaAmount * price)%float)
          | None =>
              match usdcAmount with
              | Some usdcAmount =>
                  ret ((usdcAmount / price)%float, usdcAmount)
              | None => throw undefinedAmount
              end
          end
      end ;;
    let '(finalRwa, finalUsdc) := amounts in
    let finalRwa := toFixed rt finalRwa RWA_DECIMALS in
    let finalUsdc := toFixed rt finalUsdc USDC_DECIMALS in
    transfer <-
      match orderSide with
      | BUY =>
          funds <- getAccountFunds ;;
          if negb (hasSufficientFunds funds finalUsdc) then
            throw (Js.new Js.InsufficientFundsException
                     ("Insufficient buying power: need $"
                        ++ String_of_number rt finalUsdc ++ ", have $"
                        ++ String_of_number rt (buyingPower funds)))
          else
            this <- get ;;
            ret (usdcAddress this, finalUsdc)
      | SELL =>
          rwaBalance <- call (Web3_getBalance rwaTokenAddress)
                             (web3_balance S rwaTokenAddress) ;;
          if PrimFloat.ltb rwaBalance finalRwa then
            throw (Js.new Js.InsufficientFundsException
                     ("Insufficient RWA balance: need "
                        ++ String_of_number rt finalRwa ++ ", have "
                        ++ String_of_number rt rwaBalance))
          else ret (rwaTokenAddress, finalRwa)
      end ;;
    let '(transferToken, transferAmount) := transfer in
    this <- get ;;
    (if negb (Js.truthy_string (topupAddress this))
     then loadTopupAddress else ret tt) ;;;
    this <- get ;;
    txHash <- call (Web3_transferToken (topupAddress this) transferToken
                      transferAmount)
                   (web3_transfer S (topupAddress this) transferToken
                      transferAmount) ;;
    orderResponse <-
      createOrder (address this) txHash rwaTokenAddress rwaSymbol orderSide
        price finalRwa finalUsdc (chainId (network this)) userEmail
        targetChainId ;;
    ret (createTradeResult txHash (Some (orderId orderResponse))
           transferToken transferAmount
           (match orderSide with
            | BUY => rwaTokenAddress
            | SELL => usdcAddress this
            end)
           (match orderSide with BUY => finalRwa | SELL => finalUsdc end)
           price "cross_chain_access" (now rt) (network this) None).

Definition amountsError : Js.error :=
  Js.new Js.Error "Must provide either rwaAmount OR usdcAmount, not both".

Definition buy (rwaTokenAddress rwaSymbol userEmail : string)
  (rwaAmount usdcAmount : option Js.number) (targetChainId : option Z)
  : T TradeResult :=
  if (Js.defined rwaAmount && Js.defined usdcAmount)
     || (negb (Js.defined rwaAmount) && negb (Js.defined usdcAmount))
  then throw amountsError
  else executeTrade rwaTokenAddress rwaSymbol rwaAmount usdcAmount BUY
         userEmail targetChainId.

Definition sell (rwaTokenAddress rwaSymbol userEmail : string)
  (rwaAmount usdcAmount : option Js.number) (targetChainId : option Z)
  : T TradeResult :=
  if (Js.defined rwaAmount && Js.defined usdcAmount)
     || (negb (Js.defined rwaAmount) && negb (Js.defined usdcAmount))
  then throw amountsError
  else executeTrade rwaTokenAddress rwaSymbol rwaAmount usdcAmount SELL
         userEmail targetChainId.

End Client.

(** ** Vocabulary of the statements *)

Definition run {A} (m : M CrossChainAccessClient Call A)
  (this : CrossChainAccessClient)
  : outcome A * world CrossChainAccessClient Call :=
  m (this, []).

Definition isTransfer (c : Call) : bool :=
  match c with
  | Web3_transferToken _ _ _ => true
  | _ => false
  end.

Definition isOrder (c : Call) : bool :=
  match c with
  | Api_postOrders _ => true
  | _ => false
  end.

(** A list of calls that moves no funds and submits no order. *)
Definition quiet (l : list Call) : bool :=
  negb (existsb (fun c => isTransfer c || isOrder c) l).

(** What each step of [executeTrade] does to the client and to the log.
    A step is described by [steps m P]: from any world, [m] appends a quiet
    list of calls, and its outcome and final client satisfy [P]. *)
Definition steps {A} (m : M CrossChainAccessClient Call A)
  (P : CrossChainAccessClient -> outcome A -> CrossChainAccessClient -> Prop)
  : Prop :=
  forall this log,
  exists r this' l,
    m (this, log) = (r, (this', log ++ l)%list)
    /\ quiet l = true
    /\ P this r this'.

(** The error [createOrder] throws when the request to [/orders] fails
    with [error]. *)
Definition orderFailed (error : Js.error) : Js.error :=
  Js.new Js.OrderFailedException
    ("Order creation failed: "
       ++ (if Js.instanceof error Js.APIException
           then Js.message error else Js.toString error)).

(** The three ways a run of [executeTrade] ends, [l] being the calls it
    made: it throws before any funds move; the transfer itself fails; or
    the transfer is confirmed with hash [h] and the order is posted with
    that hash, after which the run succeeds or throws [createOrder]'s
    error. *)
Definition endsAs (S : Services) (rwaSymbol : string) (orderSide : OrderSide)
  (r : outcome TradeResult) (l : list Call) : Prop :=
  (quiet l = true /\ exists e, r = Throw e)
  \/ (exists l1 toAddress token amount e,
        l = (l1 ++ [Web3_transferToken toAddress token amount])%list
        /\ quiet l1 = true
        /\ web3_transfer S toAddress token amount = Throw e
        /\ r = Throw e)
  \/ (exists l1 toAddress token amount h attributes quote,
        l = (l1 ++ [Web3_transferToken toAddress token amount;
                    Api_postOrders attributes])%list
        /\ quiet l1 = true
        /\ web3_transfer S toAddress token amount = Ok h
        /\ req_tx_hash attributes = h
        /\ api_assetQuote S (Js.toUpperCase rwaSymbol) = Ok quote
        /\ match api_orders S attributes with
           | Throw e => r = Throw (orderFailed e)
           | Ok _ =>
               exists result,
                 r = Ok result
                 /\ TradeResult.rate result = getPriceForSide quote orderSide
                 /\ TradeResult.txHash result = h
           end).

(** An error keeps the hash [h] when it has it as its [txHash] property or
    somewhere in its message. *)
Definition keepsHash (e : Js.error) (h : string) : bool :=
  match Js.txHash e with
  | Some h' => String.eqb h' h
  | None => false
  end
  || Js.includes h (Js.message e).

End CrossChainAccess.

(* ================================================================== *)
(** * Scenarios

    Concrete clients, requests and collaborator answers on which the
    statements below are evaluated. *)
(* ================================================================== *)

Module Scenario.
Local Open Scope float_scope.

(** The engine's answers on the strings and numbers that occur in the
    scenarios (every other input gets a dummy answer). *)
Definition runtime : Runtime :=
  {| parseFloat := fun s =>
       if String.eqb s "4" then 4%float
       else if String.eqb s "40" then 40%float
       else if String.eqb s "100" then 100%float
       else nan;
     parseInt := fun s => if String.eqb s "6" then 6%float else nan;
     BigInt := fun s =>
       if String.eqb s "2000000" then Ok 2000000%Z
       else if String.eqb s "3900000" then Ok 3900000%Z
       else Throw (Js.new Js.SyntaxError
                     ("Cannot convert " ++ s ++ " to a BigInt"));
     Number_of_bigint := fun z => PrimFloat.of_uint63 (Uint63.of_Z z);
     pow := fun b e =>
       if PrimFloat.eqb b 10 && PrimFloat.eqb e 6 then 1000000%float
       else nan;
     String_of_number := fun x =>
       if PrimFloat.eqb x 100 then "100"
       else if PrimFloat.eqb x 10 then "10"
       else "?";
     (* the amounts of the scenarios are whole numbers *)
     toFixed := fun x _ => x;
     now := 1700000000000%Z |}.

(** ** Routing *)

Definition quoteOf (venue : string) (sell buy rate : Js.number) : Quote :=
  {| sellTokenAddress := "0xUSDC"; buyTokenAddress := "0xRWA";
     sellAmount := sell; buyAmount := buy; rate := rate;
     source := venue; timestamp := 1700000000000%Z |}.

(** Cross-Chain Access gives 0.5 token per USDC, the Market Maker 0.4. *)
Definition ccaQuote : Quote := quoteOf "cross_chain_access" 1 0.5 2.
Definition mmQuote : Quote := quoteOf "Market Maker RPQ" 100 40 (40 / 100).

Definition ccaOption : Routing.PlatformOption :=
  Routing.createPlatformOption Routing.cross_chain_access
    (Routing.mkInit (Some ccaQuote) None None).
Definition mmOption : Routing.PlatformOption :=
  Routing.createPlatformOption Routing.market_maker
    (Routing.mkInit (Some mmQuote) None None).
Definition mmDown : Routing.PlatformOption :=
  Routing.createPlatformOption Routing.market_maker
    (Routing.mkInit None (Some false) (Some "RPQServiceException: down")).

(** ** Orchestration *)

Definition client : Trading.TradingClient := Trading.constructor None.

(** Spend 100 USDC on the token [AAPL]. *)
Definition spend100 : Trading.TradeOptions :=
  {| Trading.fromToken := "0xUSDC"; Trading.toToken := "0xRWA";
     Trading.userEmail := "user@example.com";
     Trading.fromAmount := Some 100%float; Trading.toAmount := None;
     Trading.toTokenSymbol := Some "AAPL";
     Trading.opt_routingStrategy := None |}.


Definition both100 : Trading.TradeOptions :=
  {| Trading.fromToken := "0xUSDC"; Trading.toToken := "0xRWA";
     Trading.userEmail := "user@example.com";
     Trading.fromAmount := Some 100%float;
     Trading.toAmount := Some 10%float;
     Trading.toTokenSymbol := Some "AAPL";
     Trading.opt_routingStrategy := None |}.

Definition reverted : Js.error :=
  Js.new Js.MarketMakerWeb3Exception "Transaction reverted".
Definition closed : Js.error :=
  Js.new Js.MarketClosedException "Market is closed".
Definition rpqDown : Js.error :=
  Js.new Js.RPQServiceException "Failed to get quote: TypeError: fetch failed".

(** Both venues quote; every execution fails. *)
Definition failingVenues : Trading.Venues :=
  {| Trading.mm_initialize := Ok tt;
     Trading.cca_initialize := Ok tt;
     Trading.mm_getQuote := fun _ _ _ _ => Ok mmQuote;
     Trading.cca_getQuote := fun _ => Ok ccaQuote;
     Trading.mm_trade := fun _ _ _ _ => Throw reverted;
     Trading.cca_buy := fun _ _ _ _ => Throw closed;
     Trading.cca_sell := fun _ _ _ _ => Throw closed |}.

(** The Market Maker quote fails; Cross-Chain Access quotes. *)
Definition mmQuoteFails : Trading.Venues :=
  {| Trading.mm_initialize := Ok tt;
     Trading.cca_initialize := Ok tt;
     Trading.mm_getQuote := fun _ _ _ _ => Throw rpqDown;
     Trading.cca_getQuote := fun _ => Ok ccaQuote;
     Trading.mm_trade := fun _ _ _ _ => Throw reverted;
     Trading.cca_buy := fun _ _ _ _ => Throw closed;
     Trading.cca_sell := fun _ _ _ _ => Throw closed |}.

(** ** Market Maker *)

Definition marketMaker : MarketMaker.MarketMakerClient :=
  {| MarketMaker.network := POLYGON;
     MarketMaker.privateKey := "0xkey";
     MarketMaker.apiKey := Some "key123";
     MarketMaker.initialized := false |}.

(** An offer that takes 2 USDC (6 decimals) at the price 4. *)
Definition offer (pricing : string) (maxRate : option string)
  : MarketMaker.SelectedOffer :=
  {| MarketMaker.id := "42";
     MarketMaker.withdrawalAmountPaid := "2000000";
     MarketMaker.withdrawalAmountPaidDecimals := "6";
     MarketMaker.offerType := "PartialOffer";
     MarketMaker.maker := "0xMaker";
     MarketMaker.pricePerUnit := "4";
     MarketMaker.pricingType := pricing;
     MarketMaker.depositToWithdrawalRate := maxRate |}.

Definition fixedOffer := offer "FixedPricing" None.
Definition dynamicOffer := offer "DynamicPricing" (Some "3900000").
Definition dynamicOfferNoRate := offer "DynamicPricing" None.

(** The RPQ service selects [o]; every transaction is confirmed. *)
Definition rpq (o : MarketMaker.SelectedOffer) : MarketMaker.Services :=
  {| MarketMaker.auth_verify := fun _ => Ok tt;
     MarketMaker.get_best := fun _ =>
       Ok {| MarketMaker.api_success := true;
             MarketMaker.api_result :=
               Some {| MarketMaker.api_result_success := true;
                       MarketMaker.api_targetAmount := "100";
                       MarketMaker.api_totalWithdrawalAmountPaid := "2000000";
                       MarketMaker.api_selectedOffers := Some [o];
                       MarketMaker.api_mode := "sell" |} |};
     MarketMaker.get_quote := fun _ =>
       Ok {| MarketMaker.quote_success := true;
             MarketMaker.quote_buyAssetAddress := "0xRWA";
             MarketMaker.quote_sellAssetAddress := "0xUSDC";
             MarketMaker.averagePrice := "2.5";
             MarketMaker.quote_sellAmount := Some "100";
             MarketMaker.quote_buyAmount := Some "40" |};
     MarketMaker.takeOfferFixed := fun _ _ _ _ => Ok "0xfeed";
     MarketMaker.takeOfferDynamic := fun _ _ _ _ _ => Ok "0xbeef" |}.

(** ** Cross-Chain Access *)

Definition crossChainAccess : CrossChainAccess.CrossChainAccessClient :=
  {| CrossChainAccess.network := POLYGON;
     CrossChainAccess.usdcAddress := "0xUSDC";
     CrossChainAccess.privateKey := "0xkey";
     CrossChainAccess.address := "0xWallet";
     CrossChainAccess.authToken := None;
     CrossChainAccess.topupAddress := None;
     CrossChainAccess.initialized := false |}.

Definition serverError : Js.error :=
  Js.newAPIException "Internal server error" 500.

(** The market is open, the account is in order, AAPL quotes 1.5 / 2, the
    transfer is confirmed with hash [0xabc123], and the order request is
    answered by [orders]. *)
Definition bridge (orders : outcome CrossChainAccess.OrderData)
  : CrossChainAccess.Services :=
  {| CrossChainAccess.auth_verify := fun _ => Ok "token";
     CrossChainAccess.config_topupAddress := Ok "0xEscrow";
     CrossChainAccess.marketStatus :=
       {| CrossChainAccess.isOpen := true;
          CrossChainAccess.status_message :=
            "Market is open. Closes in 2h 0m" |};
     CrossChainAccess.api_status :=
       Ok {| CrossChainAccess.accountBlocked := false;
             CrossChainAccess.tradingBlocked := false;
             CrossChainAccess.transfersBlocked := false;
             CrossChainAccess.tradeSuspendedByUser := false;
             CrossChainAccess.marketOpen := true;
             CrossChainAccess.accountStatus := "ACTIVE" |};
     CrossChainAccess.api_funds :=
       Ok {| CrossChainAccess.cash := 1000;
             CrossChainAccess.buyingPower := 1000;
             CrossChainAccess.dayTradingBuyingPower := 1000;
             CrossChainAccess.effectiveBuyingPower := 1000;
             CrossChainAccess.nonMarginBuyingPower := 1000;
             CrossChainAccess.regTBuyingPower := 1000 |};
     CrossChainAccess.api_assetQuote := fun _ =>
       Ok {| CrossChainAccess.bidPrice := 1.5;
             CrossChainAccess.askPrice := 2;
             CrossChainAccess.bidSize := 10;
             CrossChainAccess.askSize := 10;
             CrossChainAccess.quote_timestamp := 1700000000000%Z;
             CrossChainAccess.bidExchange := None;
             CrossChainAccess.askExchange := None |};
     CrossChainAccess.api_orders := fun _ => orders;
     CrossChainAccess.web3_balance := fun _ => Ok 100%float;
     CrossChainAccess.web3_transfer := fun _ _ _ => Ok "0xabc123" |}.

Definition orderAccepted : outcome CrossChainAccess.OrderData :=
  Ok {| CrossChainAccess.data_id := Some "order-1";
        CrossChainAccess.data_symbol := Some "AAPL";
        CrossChainAccess.data_side := Some "buy";
        CrossChainAccess.data_qty := Some 50%float;
        CrossChainAccess.data_filled_qty := None;
        CrossChainAccess.data_status := Some "pending" |}.

End Scenario.

(* ================================================================== *)
(** * Further vocabulary for the routing and orchestration statements *)
(* ================================================================== *)

Module RoutingErrors.
Import Routing.

(** The reasons [selectPlatform] lists when no venue can be used: the
    recorded [error] of each option that has one, Cross-Chain Access
    first. *)
Definition reasons (cca mm : PlatformOption) : list string :=
  app
    (if Js.truthy_string (error cca)
     then ["Cross-Chain Access: " ++ Js.template (error cca)] else [])
    (if Js.truthy_string (error mm)
     then ["Market Maker: " ++ Js.template (error mm)] else []).

Definition noPlatforms (cca mm : PlatformOption) : Js.error :=
  Js.new Js.NoLiquidityException
    ("No platforms available. " ++ Js.join "; " (reasons cca mm)).

(** The error of a venue-only strategy whose venue cannot be used. *)
Definition venueDown (name : string) (o : PlatformOption) : Js.error :=
  Js.new Js.NoLiquidityException
    (name ++ " not available: " ++ Js.template (error o)).

(** When [selectPlatform] throws, and what. *)
Definition fails (cca mm : PlatformOption) (strategy : RoutingStrategy)
  : bool :=
  negb (usable cca || usable mm)
  || (String.eqb strategy CROSS_CHAIN_ACCESS_ONLY && negb (usable cca))
  || (String.eqb strategy MARKET_MAKER_ONLY && negb (usable mm)).

Definition failure (cca mm : PlatformOption) (strategy : RoutingStrategy)
  : Js.error :=
  if negb (usable cca || usable mm) then noPlatforms cca mm
  else if String.eqb strategy CROSS_CHAIN_ACCESS_ONLY
  then venueDown "Cross-Chain Access" cca
  else venueDown "Market Maker" mm.

(** [x !== x]: the number is NaN. *)
Definition isNaN (x : Js.number) : bool := negb (PrimFloat.eqb x x).

End RoutingErrors.

(* ================================================================== *)
(** * The unified client: [getQuotes]
      ([packages/trading-sdk/src/sdk/client.ts]) *)
(* ================================================================== *)

Module TradingQuotes.
Import Routing Trading.
Local Open Scope js_scope.

(** The [params] of [getQuotes]. *)
Record QuoteParams : Type := mkQuoteParams {
  fromToken : string;
  toToken : string;
  fromAmount : option Js.number;
  toAmount : option Js.number;
  toTokenSymbol : option string
}.

(** The object [getQuotes] returns; [None] is [null]. *)
Record Quotes : Type := mkQuotes {
  market_maker : option Quote;
  cross_chain_access : option Quote
}.

Section Client.
Variable V : Venues.

Definition getMarketMakerQuote (fromToken toToken : string)
  (fromAmount toAmount : option Js.number) : T (option Quote) :=
  try_catch
    (quote <- call (MarketMaker_getQuote fromToken toToken fromAmount toAmount)
                   (mm_getQuote V fromToken toToken fromAmount toAmount) ;;
     ret (Some quote))
    (fun _ => ret None).

Definition getCrossChainAccessQuote (symbol : string) : T (option Quote) :=
  try_catch
    (quote <- call (CrossChainAccess_getQuote symbol)
                   (cca_getQuote V symbol) ;;
     ret (Some quote))
    (fun _ => ret None).

(** [getQuotes(params)].  The two requests of the [Promise.all] are started
    in the order of the array; each catches its own error. *)
Definition getQuotes (params : QuoteParams) : T Quotes :=
  marketMakerQuote <-
    getMarketMakerQuote (fromToken params) (toToken params)
      (fromAmount params) (toAmount params) ;;
  crossChainAccessQuote <-
    (if Js.truthy_string (toTokenSymbol params)
     then getCrossChainAccessQuote (Js.template (toTokenSymbol params))
     else ret None) ;;
  ret {| market_maker := marketMakerQuote;
         cross_chain_access := crossChainAccessQuote |}.

End Client.

(** ** Vocabulary *)

(** [null] for a failed request. *)
Definition quoteOrNull (answer : outcome Quote) : option Quote :=
  match answer with Ok q => Some q | Throw _ => None end.

(** The venue requests of one [getQuotes]. *)
Definition requests (params : QuoteParams) : list Call :=
  MarketMaker_getQuote (fromToken params) (toToken params)
    (fromAmount params) (toAmount params)
  :: (if Js.truthy_string (toTokenSymbol params)
      then [CrossChainAccess_getQuote (Js.template (toTokenSymbol params))]
      else []).

End TradingQuotes.

Module TradingLog.
Import Trading.

(** The execution requests in a log, in order. *)
Definition executions (l : list Call) : list Call := filter isExecution l.

End TradingLog.

(* ================================================================== *)
(** * Further scenarios *)
(* ================================================================== *)

Module RoutingScenario.
Import Scenario.
Local Open Scope float_scope.

(** A Cross-Chain Access quote whose amounts did not parse. *)
Definition nanOption : Routing.PlatformOption :=
  Routing.createPlatformOption Routing.cross_chain_access
    (Routing.mkInit (Some (quoteOf "cross_chain_access" nan nan nan))
       None None).

End RoutingScenario.

Module TradingScenario.
Import Scenario.
Local Open Scope float_scope.

(** No venue quotes: the RPQ service is down and the stock market is
    closed. *)
Definition noQuotes : Trading.Venues :=
  {| Trading.mm_initialize := Ok tt;
     Trading.cca_initialize := Ok tt;
     Trading.mm_getQuote := fun _ _ _ _ => Throw rpqDown;
     Trading.cca_getQuote := fun _ => Throw closed;
     Trading.mm_trade := fun _ _ _ _ => Throw reverted;
     Trading.cca_buy := fun _ _ _ _ => Throw closed;
     Trading.cca_sell := fun _ _ _ _ => Throw closed |}.

(** The Cross-Chain Access fill of 100 USDC at the price 2. *)
Definition fill : TradeResult :=
  createTradeResult "0xabc123" (Some "order-1") "0xUSDC" 100 "0xRWA" 50 2
    "cross_chain_access" 1700000000000%Z POLYGON None.

(** Both venues quote; the Market Maker transaction reverts and
    Cross-Chain Access fills the order. *)
Definition fallbackFills : Trading.Venues :=
  {| Trading.mm_initialize := Ok tt;
     Trading.cca_initialize := Ok tt;
     Trading.mm_getQuote := fun _ _ _ _ => Ok mmQuote;
     Trading.cca_getQuote := fun _ => Ok ccaQuote;
     Trading.mm_trade := fun _ _ _ _ => Throw reverted;
     Trading.cca_buy := fun _ _ _ _ => Ok fill;
     Trading.cca_sell := fun _ _ _ _ => Throw closed |}.

End TradingScenario.

(* ================================================================== *)
(** * Market hours
      ([packages/cross-chain-access-sdk/src/marketHours]) *)
(* ================================================================== *)

Module MarketHours.
Import CrossChainAccess.
Local Open Scope Z_scope.

(** A valid [Date] is kept as its time value, the number of milliseconds
    since the epoch; the accessors below are ECMAScript's [WeekDay],
    [HourFromTime] and [MinFromTime] of that value.  A time value lies
    within 8.64e15 ms of the epoch: a setter whose result would lie beyond
    leaves the Date invalid, its time value NaN, which is [None] here. *)
Definition msPerMinute : Z := 60000.
Definition msPerHour : Z := 3600000.
Definition msPerDay : Z := 86400000.

Definition getUTCDay (date : Date) : Z := (date / msPerDay + 4) mod 7.
Definition getUTCHours (date : Date) : Z := (date / msPerHour) mod 24.
Definition getUTCMinutes (date : Date) : Z := (date / msPerMinute) mod 60.

Definition maxTimeValue : Z := 8640000000000000.

(** ECMAScript's [TimeClip], which every setter of a Date applies to the
    time it has computed. *)
Definition TimeClip (time : Z) : option Z :=
  if Z.abs time <=? maxTimeValue then Some time else None.

(** The time [d.setUTCDate(d.getUTCDate() + days)] computes: the day of
    the month may run past the end of the month, and the date moves by
    that many days. *)
Definition addUTCDate (date : Date) (days : Z) : Date :=
  date + days * msPerDay.

(** The time [d.setUTCHours(hour, minute, 0, 0)] computes. *)
Definition setUTCHours (date : Date) (hour minute : Z) : Date :=
  date - date mod msPerDay + hour * msPerHour + minute * msPerMinute.

Definition MARKET_OPEN_UTC : Z * Z := (14, 30).
Definition MARKET_CLOSE_UTC : Z * Z := (21, 0).

Definition timeInMinutes (hour minute : Z) : Z := hour * 60 + minute.

Definition isMarketOpen (date : Date) : bool :=
  let weekday := getUTCDay date in
  let hour := getUTCHours date in
  let minute := getUTCMinutes date in
  if (weekday =? 0) || (weekday =? 6) then false
  else
    let currentTimeMinutes := timeInMinutes hour minute in
    let openTimeMinutes :=
      timeInMinutes (fst MARKET_OPEN_UTC) (snd MARKET_OPEN_UTC) in
    let closeTimeMinutes :=
      timeInMinutes (fst MARKET_CLOSE_UTC) (snd MARKET_CLOSE_UTC) in
    (openTimeMinutes <=? currentTimeMinutes)
    && (currentTimeMinutes <=? closeTimeMinutes).

(** The result is a number of milliseconds, or NaN when one of the two
    setters left [targetDate] invalid.  [date] is a valid Date; on an
    invalid one every accessor answers NaN, so that the market counts as
    closed, no day is added, and the result is NaN as well. *)
Definition timeUntilOpen (date : Date) : option Z :=
  if isMarketOpen date then Some 0
  else
    let weekday := getUTCDay date in
    let hour := getUTCHours date in
    let minute := getUTCMinutes date in
    let currentTimeMinutes := timeInMinutes hour minute in
    let openTimeMinutes :=
      timeInMinutes (fst MARKET_OPEN_UTC) (snd MARKET_OPEN_UTC) in
    let daysToAdd :=
      if weekday =? 0 then 1
      else if weekday =? 6 then 2
      else if openTimeMinutes <=? currentTimeMinutes then
        if weekday =? 5 then 3 else 1
      else 0 in
    match TimeClip (addUTCDate date daysToAdd) with
    | None => None
    | Some targetDate =>
        match TimeClip (setUTCHours targetDate (fst MARKET_OPEN_UTC)
                          (snd MARKET_OPEN_UTC)) with
        | None => None
        | Some targetDate => Some (targetDate - date)
        end
    end.

(** While the market is open, 21:00 of the day of [date] is a time value
    that [TimeClip] keeps ([MarketHoursFacts.closing_in_range]). *)
Definition timeUntilClose (date : Date) : Z :=
  if negb (isMarketOpen date) then 0
  else
    let targetDate :=
      setUTCHours date (fst MARKET_CLOSE_UTC) (snd MARKET_CLOSE_UTC) in
    targetDate - date.

(** [Math.floor] of a quotient of integers is [Z.div]; [%] is the
    remainder that takes the sign of the dividend, [Z.rem].  On NaN,
    [None], every step yields NaN. *)
Definition formatDuration (ms : option Z) : string :=
  match ms with
  | Some ms =>
      let totalMinutes := ms / (1000 * 60) in
      let hours := totalMinutes / 60 in
      let minutes := Z.rem totalMinutes 60 in
      (Js.string_of_Z hours ++ "h " ++ Js.string_of_Z minutes ++ "m")%string
  | None => "NaNh NaNm"%string
  end.

Definition getMarketStatus (date : Date) : MarketStatus :=
  let isOpen := isMarketOpen date in
  if isOpen then
    let timeLeft := timeUntilClose date in
    {| isOpen := true;
       status_message :=
         ("Market is open. Closes in "
            ++ formatDuration (Some timeLeft))%string |}
  else
    let timeLeft := timeUntilOpen date in
    {| isOpen := false;
       status_message :=
         ("Market is closed. Opens in " ++ formatDuration timeLeft)%string |}.

(** ** Vocabulary *)

(** The instant within its UTC day, in milliseconds. *)
Definition timeOfDay (date : Date) : Z := date mod msPerDay.

(** 14:30:00.000 and 21:00:00.000. *)
Definition openingTime : Z := 52200000.
Definition closingTime : Z := 75600000.

Definition isWeekend (date : Date) : bool :=
  (getUTCDay date =? 0) || (getUTCDay date =? 6).

(** [date] is a time value that a Date can hold. *)
Definition validDate (date : Date) : bool := Z.abs date <=? maxTimeValue.

(** The days [timeUntilOpen] adds, and the wait to the opening they lead
    to. *)
Definition daysToAdd (date : Date) : Z :=
  if getUTCDay date =? 0 then 1
  else if getUTCDay date =? 6 then 2
  else if openingTime <=? timeOfDay date then
    if getUTCDay date =? 5 then 3 else 1
  else 0.

Definition nextOpening (date : Date) : Z :=
  daysToAdd date * msPerDay + openingTime - timeOfDay date.

End MarketHours.

(* ================================================================== *)
(** * Vocabulary for the runs of [CrossChainAccessClient] *)
(* ================================================================== *)

Module CrossChainAccessRuns.
Import CrossChainAccess.

(** The client has authenticated and knows the escrow address. *)
Definition ready (this : CrossChainAccessClient) : bool :=
  initialized this && Js.truthy_string (authToken this)
  && Js.truthy_string (topupAddress this).

(** The reasons [checkTradingAvailability] lists for an account status. *)
Definition blockReasons (status : AccountStatus) : list string :=
  ((if accountBlocked status then ["account blocked"] else [])
   ++ (if tradingBlocked status then ["trading blocked"] else [])
   ++ (if transfersBlocked status then ["transfers blocked"] else [])
   ++ (if tradeSuspendedByUser status then ["suspended by user"] else [])
   ++ (if negb (marketOpen status) then ["market closed"] else []))%list.

(** The error [executeTrade] throws for an availability message. *)
Definition unavailable (message : string) : Js.error :=
  if Js.includes "market" (Js.toLowerCase message)
     || Js.includes "closed" (Js.toLowerCase message)
  then Js.new Js.MarketClosedException message
  else Js.new Js.AccountBlockedException message.

(** The quantity and the notional [executeTrade] derives from the amount
    that is given, before rounding: [rwaAmount] wins when both are. *)
Definition amountsOf (price : Js.number)
  (rwaAmount usdcAmount : option Js.number)
  : option (Js.number * Js.number) :=
  match rwaAmount, usdcAmount with
  | Some rwa, _ => Some (rwa, (rwa * price)%float)
  | None, Some usdc => Some ((usdc / price)%float, usdc)
  | None, None => None
  end.

(** The attributes of the order [executeTrade] posts after the transfer
    [txHash]. *)
Definition orderOf (this : CrossChainAccessClient)
  (rwaTokenAddress rwaSymbol : string) (orderSide : OrderSide)
  (price finalRwa finalUsdc : Js.number) (userEmail : string)
  (targetChainId : option Z) (txHash : string) : OrderRequest :=
  {| req_wallet := Js.toLowerCase (address this);
     req_tx_hash := txHash;
     req_asset := rwaTokenAddress;
     req_asset_symbol := Js.toUpperCase rwaSymbol;
     req_side := orderSide;
     req_price := price;
     req_qty := finalRwa;
     req_notional := finalUsdc;
     req_chain_id := chainId (network this);
     req_target_chain_id :=
       match targetChainId with
       | Some c => c
       | None => chainId (network this)
       end;
     req_user_email := userEmail |}.

(** The request that checks the means of the trade: the buying power for
    a buy, the token balance for a sell. *)
Definition meansCall (orderSide : OrderSide) (rwaTokenAddress : string)
  : Call :=
  match orderSide with
  | BUY => Api_getFunds
  | SELL => Web3_getBalance rwaTokenAddress
  end.

(** What the means are: the account's buying power, or the wallet's
    balance of the token. *)
Definition means (S : Services) (orderSide : OrderSide)
  (rwaTokenAddress : string) : outcome Js.number :=
  match orderSide with
  | BUY =>
      match api_funds S with
      | Ok funds => Ok (buyingPower funds)
      | Throw e => Throw e
      end
  | SELL => web3_balance S rwaTokenAddress
  end.

(** What the trade needs: the rounded notional for a buy, the rounded
    quantity for a sell; and the test [hasSufficientFunds] or
    [rwaBalance < finalRwa] that compares the two. *)
Definition needed (orderSide : OrderSide) (finalRwa finalUsdc : Js.number)
  : Js.number :=
  match orderSide with BUY => finalUsdc | SELL => finalRwa end.

Definition suffices (orderSide : OrderSide) (have need : Js.number)
  : bool :=
  match orderSide with
  | BUY => Js.geb have need
  | SELL => negb (PrimFloat.ltb have need)
  end.

Definition insufficient (rt : Runtime) (orderSide : OrderSide)
  (need have : Js.number) : Js.error :=
  Js.new Js.InsufficientFundsException
    (match orderSide with
     | BUY =>
         "Insufficient buying power: need $" ++ String_of_number rt need
           ++ ", have $" ++ String_of_number rt have
     | SELL =>
         "Insufficient RWA balance: need " ++ String_of_number rt need
           ++ ", have " ++ String_of_number rt have
     end).

(** The token that is sent to the escrow address: USDC for a buy, the
    asset for a sell. *)
Definition paidToken (this : CrossChainAccessClient)
  (orderSide : OrderSide) (rwaTokenAddress : string) : string :=
  match orderSide with
  | BUY => usdcAddress this
  | SELL => rwaTokenAddress
  end.

(** The token and the amount that come back. *)
Definition receivedToken (this : CrossChainAccessClient)
  (orderSide : OrderSide) (rwaTokenAddress : string) : string :=
  match orderSide with
  | BUY => rwaTokenAddress
  | SELL => usdcAddress this
  end.

Definition received (orderSide : OrderSide) (finalRwa finalUsdc : Js.number)
  : Js.number :=
  match orderSide with BUY => finalRwa | SELL => finalUsdc end.

(** The identifier [createOrder] reports for the answer to [/orders]. *)
Definition orderIdOf (data : OrderData) : string :=
  match data_id data with Some i => i | None => "unknown" end.

(** A call of the initialization: authentication or configuration. *)
Definition isSetup (c : Call) : bool :=
  match c with
  | Auth_verify _ | Config_getTopupAddress => true
  | _ => false
  end.

End CrossChainAccessRuns.

Module CrossChainAccessScenario.
Import Scenario.
Local Open Scope float_scope.

(** The client of the scenarios after a successful initialization. *)
Definition readyClient : CrossChainAccess.CrossChainAccessClient :=
  {| CrossChainAccess.network := POLYGON;
     CrossChainAccess.usdcAddress := "0xUSDC";
     CrossChainAccess.privateKey := "0xkey";
     CrossChainAccess.address := "0xWallet";
     CrossChainAccess.authToken := Some "token";
     CrossChainAccess.topupAddress := Some "0xEscrow";
     CrossChainAccess.initialized := true |}.

Definition activeAccount (marketOpen : bool)
  : CrossChainAccess.AccountStatus :=
  {| CrossChainAccess.accountBlocked := false;
     CrossChainAccess.tradingBlocked := false;
     CrossChainAccess.transfersBlocked := false;
     CrossChainAccess.tradeSuspendedByUser := false;
     CrossChainAccess.marketOpen := marketOpen;
     CrossChainAccess.accountStatus := "ACTIVE" |}.

(** An account whose trading and transfers are blocked, during market
    hours. *)
Definition blockedAccount : CrossChainAccess.AccountStatus :=
  {| CrossChainAccess.accountBlocked := false;
     CrossChainAccess.tradingBlocked := true;
     CrossChainAccess.transfersBlocked := true;
     CrossChainAccess.tradeSuspendedByUser := false;
     CrossChainAccess.marketOpen := true;
     CrossChainAccess.accountStatus := "ACTIVE" |}.

Definition fundsOf (power : Js.number) : CrossChainAccess.AccountFunds :=
  {| CrossChainAccess.cash := power;
     CrossChainAccess.buyingPower := power;
     CrossChainAccess.dayTradingBuyingPower := power;
     CrossChainAccess.effectiveBuyingPower := power;
     CrossChainAccess.nonMarginBuyingPower := power;
     CrossChainAccess.regTBuyingPower := power |}.

Definition aapl : CrossChainAccess.CrossChainAccessQuote :=
  {| CrossChainAccess.bidPrice := 1.5;
     CrossChainAccess.askPrice := 2;
     CrossChainAccess.bidSize := 10;
     CrossChainAccess.askSize := 10;
     CrossChainAccess.quote_timestamp := 1700000000000%Z;
     CrossChainAccess.bidExchange := None;
     CrossChainAccess.askExchange := None |}.

(** The collaborators at the instant [date], with the account in state
    [status] and the buying power [power]; AAPL quotes 1.5 / 2, the wallet
    holds 100 tokens, every transfer is confirmed with hash [0xabc123] and
    every order is accepted as [order-1]. *)
Definition services (date : Date) (status : CrossChainAccess.AccountStatus)
  (power : Js.number) : CrossChainAccess.Services :=
  {| CrossChainAccess.auth_verify := fun _ => Ok "token";
     CrossChainAccess.config_topupAddress := Ok "0xEscrow";
     CrossChainAccess.marketStatus := MarketHours.getMarketStatus date;
     CrossChainAccess.api_status := Ok status;
     CrossChainAccess.api_funds := Ok (fundsOf power);
     CrossChainAccess.api_assetQuote := fun _ => Ok aapl;
     CrossChainAccess.api_orders := fun _ => orderAccepted;
     CrossChainAccess.web3_balance := fun _ => Ok 100;
     CrossChainAccess.web3_transfer := fun _ _ _ => Ok "0xabc123" |}.

(** Friday 2 January 1970 at 15:00 UTC, and at 21:01 UTC. *)
Definition fridayAfternoon : Date := 140400000%Z.
Definition fridayNight : Date := 162060000%Z.

End CrossChainAccessScenario.

(* ================================================================== *)
(** * Vocabulary for the runs of [MarketMakerClient] *)
(* ================================================================== *)

Module MarketMakerRuns.
Import MarketMaker.

(** The client after [initialize]. *)
Definition authenticated (this : MarketMakerClient) : MarketMakerClient :=
  {| network := network this; privateKey := privateKey this;
     apiKey := apiKey this; initialized := true |}.

(** The error [trade] makes of an error that is neither a
    [NoOffersAvailableException] nor a [MarketMakerWeb3Exception]. *)
Definition tradeFailed (cause : Js.error) : Js.error :=
  Js.new Js.MarketMakerWeb3Exception
    ("Trade execution failed: " ++ Js.toString cause).

(** The same for [RPQClient.getQuote]. *)
Definition quoteFailed (cause : Js.error) : Js.error :=
  Js.new Js.RPQServiceException
    ("Failed to get quote: " ++ Js.toString cause).

(** The query [getQuote] sends to [/dotc_offers/quote]. *)
Definition quoteQuery (rt : Runtime) (this : MarketMakerClient)
  (fromToken toToken : string) (fromAmount toAmount : option Js.number)
  : list (string * string) :=
  ([("buyAssetAddress", toToken);
    ("sellAssetAddress", fromToken);
    ("network", getNetworkName (network this))]
   ++ param "targetSellAmount" (amountText rt fromAmount)
   ++ param "targetBuyAmount" (amountText rt toAmount))%list.

End MarketMakerRuns.

Module MarketMakerScenario.
Import Scenario.
Local Open Scope float_scope.

(** The client of the scenarios after authentication. *)
Definition readyMaker : MarketMaker.MarketMakerClient :=
  MarketMakerRuns.authenticated marketMaker.

(** The RPQ service answers, and selects no offer. *)
Definition noOffers : MarketMaker.Services :=
  {| MarketMaker.auth_verify := fun _ => Ok tt;
     MarketMaker.get_best := fun _ =>
       Ok {| MarketMaker.api_success := true;
             MarketMaker.api_result :=
               Some {| MarketMaker.api_result_success := true;
                       MarketMaker.api_targetAmount := "100";
                       MarketMaker.api_totalWithdrawalAmountPaid := "0";
                       MarketMaker.api_selectedOffers := Some [];
                       MarketMaker.api_mode := "sell" |} |};
     MarketMaker.get_quote := fun _ => Throw rpqDown;
     MarketMaker.takeOfferFixed := fun _ _ _ _ => Ok "0xfeed";
     MarketMaker.takeOfferDynamic := fun _ _ _ _ _ => Ok "0xbeef" |}.

End MarketMakerScenario.

(* ================================================================== *)
(** * The HTTP client with retries
      ([packages/shared/src/baseClient], [BaseAPIClient]) *)
(* ================================================================== *)

Module BaseClient.
Local Open Scope js_scope.

(** The retry options are JavaScript numbers: they may be fractions,
    infinite or NaN. *)
Record RetryOptions : Type := mkRetryOptions {
  maxAttempts : Js.number;
  initialDelayMs : Js.number;
  maxDelayMs : Js.number;
  multiplier : Js.number
}.

Definition DEFAULT_RETRY_OPTIONS : RetryOptions :=
  {| maxAttempts := 3%float; initialDelayMs := 2000%float;
     maxDelayMs := 10000%float; multiplier := 2%float |}.

(** [Math.min(x, y)]: the smaller number, [-0] when the two are zeros of
    different sign, and NaN when either is NaN (then [x] is neither below
    nor equal to [y], nor [y] below [x]). *)
Definition Math_min (x y : Js.number) : Js.number :=
  if PrimFloat.ltb x y then x
  else if PrimFloat.ltb y x then y
  else if PrimFloat.eqb x y then
    if PrimFloat.get_sign x then x else y
  else nan.

Definition calculateDelay (rt : Runtime) (attempt : Js.number)
  (options : RetryOptions) : Js.number :=
  let delay :=
    (initialDelayMs options * pow rt (multiplier options) attempt)%float in
  Math_min delay (maxDelayMs options).

Definition isRetryableError (error : Js.error) : bool :=
  if Js.instanceof error Js.APIException then
    (500 <=? Js.statusCode error)%Z || (Js.statusCode error =? 429)%Z
  else if Js.instanceof error Js.TypeError then true
  else false.

(** The endpoint without its leading slash. *)
Definition stripSlash (endpoint : string) : string :=
  match endpoint with
  | String "/" rest => rest
  | _ => endpoint
  end.

Section Client.
(** [T] is the type of the response body the caller expects, [D] the type
    of the request data. *)
Variable T : Type.
Variable D : Type.

(** The classes and functions of the engine that [makeRequest] uses on
    URLs and on the request data. *)
Record Engine : Type := mkEngine {
  (** [new URL(text)], as the text of the URL; it throws a [TypeError]
      when [text] is not a URL *)
  newURL : string -> outcome string;
  (** the text of the URL after [url.searchParams.set(key, value)] *)
  searchParams_set : string -> string -> string -> string;
  (** [JSON.stringify(data)], which throws a [TypeError] on a cyclic
      object or a BigInt *)
  JSON_stringify : D -> outcome string
}.

(** What [response.json()] yields: the body, [content] as the caller
    reads it, of which the error path reads the [message] property. *)
Record Json : Type := mkJson {
  message : option string;
  content : T
}.

Record Response : Type := mkResponse {
  ok : bool;
  status : Z;
  (** [await response.json()], which throws on a body that is not JSON *)
  json : outcome Json
}.

(** The fields of a [BaseAPIClient]; [headers] in insertion order. *)
Record BaseAPIClient : Type := mkBaseAPIClient {
  baseUrl : string;
  authToken : option string;
  headers : list (string * string);
  retryOptions : RetryOptions
}.

Inductive Call : Type :=
| Fetch (method url : string) (headers : list (string * string))
    (body : option string)
| Sleep (ms : Js.number).

(** What the network answers to the request of each pass of the loop,
    given the value of [attempt] in that pass. *)
Record Network : Type := mkNetwork {
  fetch : Js.number -> outcome Response
}.

Variable rt : Runtime.
Variable E : Engine.
Variable N : Network.

Definition C : Type -> Type := M BaseAPIClient Call.

(** The URL after the loop over [Object.entries(params)]: a value that is
    [undefined] or [null], [None] here, is skipped, any other is set as
    [String(value)].  [params] itself may be missing. *)
Definition withParams (url : string)
  (params : option (list (string * option string))) : string :=
  match params with
  | Some entries =>
      fold_left
        (fun url entry =>
           match snd entry with
           | Some value => searchParams_set E url (fst entry) value
           | None => url
           end)
        entries url
  | None => url
  end.

(** How a pass through the body of the [for] loop ends without throwing:
    the [try] block returns, or the [catch] clause goes on to the next
    pass. *)
Inductive Pass : Type :=
| Return (responseData : T)
| Continue (lastError : Js.error).

(** One pass through the body of the loop.  [JSON.stringify(data)] is
    evaluated when [data] is given, for the body of the request unless the
    method is [GET], and for the log. *)
Definition pass (attempt : Js.number) (method url : string)
  (data : option D) : C Pass :=
  this <- get ;;
  try_catch
    (body <-
       match data with
       | Some data =>
           text <- lift (JSON_stringify E data) ;;
           ret (if negb (String.eqb method "GET") then Some text else None)
       | None => ret None
       end ;;
     response <- call (Fetch method url (headers this) body)
                      (fetch N attempt) ;;
     if negb (ok response) then
       let errorMessage :=
         match json response with
         | Ok errorData =>
             if Js.truthy_string (message errorData)
             then Js.template (message errorData)
             else "Request failed with status "
                    ++ Js.string_of_Z (status response)
         | Throw _ =>
             "Request failed with status "
               ++ Js.string_of_Z (status response)
         end in
       throw (Js.newAPIException errorMessage (status response))
     else
       responseData <- lift (json response) ;;
       ret (Return (content responseData)))
    (fun error =>
       if PrimFloat.ltb attempt (maxAttempts (retryOptions this) - 1)%float
          && isRetryableError error
       then
         let delay := calculateDelay rt attempt (retryOptions this) in
         call (Sleep delay) (Ok tt) ;;;
         ret (Continue error)
       else throw error).

(** The [for] loop from [attempt] on, and the [throw] after it.  The loop
    need not end (an infinite [maxAttempts] and a service that keeps
    failing): [fuel] bounds the number of passes, and [None] is a run that
    needs more. *)
Fixpoint attempts (fuel : nat) (attempt : Js.number)
  (lastError : option Js.error) (method url : string) (data : option D)
  (w : world BaseAPIClient Call)
  : option (outcome T * world BaseAPIClient Call) :=
  if PrimFloat.ltb attempt (maxAttempts (retryOptions (fst w))) then
    match fuel with
    | O => None
    | S fuel =>
        match pass attempt method url data w with
        | (Ok (Return responseData), w) => Some (Ok responseData, w)
        | (Ok (Continue error), w) =>
            attempts fuel (attempt + 1)%float (Some error) method url data w
        | (Throw error, w) => Some (Throw error, w)
        end
    end
  else
    Some (Throw match lastError with
                | Some error => error
                | None => Js.newAPIException "Max retries exceeded" 0
                end, w).

(** [makeRequest(method, endpoint, data, params)].  The URL is built
    before the loop, outside its [try]. *)
Definition makeRequest (fuel : nat) (method endpoint : string)
  (data : option D) (params : option (list (string * option string)))
  (w : world BaseAPIClient Call)
  : option (outcome T * world BaseAPIClient Call) :=
  match newURL E (baseUrl (fst w) ++ "/" ++ stripSlash endpoint) with
  | Throw error => Some (Throw error, w)
  | Ok url =>
      attempts fuel 0%float None method (withParams url params) data w
  end.

End Client.

Arguments message {T} j.
Arguments content {T} j.
Arguments ok {T} r.
Arguments status {T} r.
Arguments json {T} r.
Arguments fetch {T} n attempt.
Arguments newURL {D} e text.
Arguments searchParams_set {D} e url key value.
Arguments JSON_stringify {D} e data.
Arguments withParams {D} E url params.
Arguments Return {T} responseData.
Arguments Continue {T} lastError.
Arguments pass {T D} rt E N attempt method url data.
Arguments attempts {T D} rt E N fuel attempt lastError method url data w.
Arguments makeRequest {T D} rt E N fuel method endpoint data params w.

(** ** Vocabulary *)

(** The value of [attempt] in pass number [n], the first pass being
    number [0]. *)
Fixpoint count (n : nat) : Js.number :=
  match n with
  | O => 0%float
  | S n => (count n + 1)%float
  end.

(** The text [JSON.stringify(data)] gives for the body, when a body is
    sent. *)
Definition bodyOf {D} (E : Engine D) (method : string) (data : option D)
  : outcome (option string) :=
  match data with
  | Some data =>
      match JSON_stringify E data with
      | Ok text =>
          Ok (if negb (String.eqb method "GET") then Some text else None)
      | Throw e => Throw e
      end
  | None => Ok None
  end.

(** What one request comes to: the body of the answer, or the error the
    [catch] clause sees. *)
Definition attemptOutcome {T} (answer : outcome (Response T)) : outcome T :=
  match answer with
  | Throw e => Throw e
  | Ok response =>
      if ok response then
        match json response with
        | Ok j => Ok (content j)
        | Throw e => Throw e
        end
      else
        Throw (Js.newAPIException
                 (match json response with
                  | Ok errorData =>
                      if Js.truthy_string (message errorData)
                      then Js.template (message errorData)
                      else "Request failed with status "
                             ++ Js.string_of_Z (status response)
                  | Throw _ =>
                      "Request failed with status "
                        ++ Js.string_of_Z (status response)
                  end)
                 (status response))
  end.

(** What the [try] block of pass number [n] comes to: the request is not
    sent when the data cannot be serialized. *)
Definition passOutcome {T D} (E : Engine D) (N : Network T)
  (method : string) (data : option D) (n : nat) : outcome T :=
  match bodyOf E method data with
  | Ok _ => attemptOutcome (fetch N (count n))
  | Throw e => Throw e
  end.

(** The loop admits pass number [n]. *)
Definition admitted (this : BaseAPIClient) (n : nat) : bool :=
  PrimFloat.ltb (count n) (maxAttempts (retryOptions this)).

(** Pass number [n] fails and the [catch] clause goes on to the next: the
    error is worth another try and [attempt < maxAttempts - 1]. *)
Definition retried {T D} (E : Engine D) (N : Network T)
  (this : BaseAPIClient) (method : string) (data : option D) (n : nat)
  : bool :=
  PrimFloat.ltb (count n) (maxAttempts (retryOptions this) - 1)%float
  && match passOutcome E N method data n with
     | Ok _ => false
     | Throw e => isRetryableError e
     end.

(** What every pass sends: the request, or nothing when the data cannot
    be serialized. *)
Definition sends {D} (E : Engine D) (this : BaseAPIClient)
  (method url : string) (data : option D) : list Call :=
  match bodyOf E method data with
  | Ok body => [Fetch method url (headers this) body]
  | Throw _ => []
  end.

(** The calls of [n + 1] passes, counted from the pass in which [attempt]
    has the value given: each pass but the last is followed by its
    delay. *)
Fixpoint trace (rt : Runtime) (this : BaseAPIClient) (sent : list Call)
  (n : nat) (attempt : Js.number) : list Call :=
  match n with
  | O => sent
  | S n =>
      (sent ++ Sleep (calculateDelay rt attempt (retryOptions this))
         :: trace rt this sent n (attempt + 1)%float)%list
  end.

Definition isFetch (c : Call) : bool :=
  match c with Fetch _ _ _ _ => true | Sleep _ => false end.

(** Every pause in a log lasts at most [limit] milliseconds, or is NaN. *)
Definition pausesWithin (limit : Js.number) (l : list Call) : Prop :=
  Forall (fun c => match c with
                   | Sleep ms =>
                       PrimFloat.leb ms limit = true
                       \/ PrimFloat.is_nan ms = true
                   | Fetch _ _ _ _ => True
                   end) l.

End BaseClient.

Module BaseClientScenario.
Import BaseClient.
Local Open Scope float_scope.

Definition client : BaseAPIClient :=
  {| baseUrl := "https://api.example.com";
     authToken := None;
     headers := [("Content-Type", "application/json")];
     retryOptions := DEFAULT_RETRY_OPTIONS |}.

(** The engine on the one URL of the scenarios, and on the powers of 2
    the default options ask for. *)
Definition runtime : Runtime :=
  {| parseFloat := fun _ => nan;
     parseInt := fun _ => nan;
     BigInt := fun s =>
       Throw (Js.new Js.SyntaxError
                ("Cannot convert " ++ s ++ " to a BigInt"));
     Number_of_bigint := fun z => PrimFloat.of_uint63 (Uint63.of_Z z);
     pow := fun b e =>
       if PrimFloat.eqb b 2 && PrimFloat.eqb e 0 then 1
       else if PrimFloat.eqb b 2 && PrimFloat.eqb e 1 then 2
       else if PrimFloat.eqb b 2 && PrimFloat.eqb e 2 then 4
       else nan;
     String_of_number := fun _ => "?";
     toFixed := fun x _ => x;
     now := 1700000000000%Z |}.

Definition engine : Engine unit :=
  {| newURL := fun text =>
       if String.eqb text "https://api.example.com/status" then Ok text
       else Throw (Js.new Js.TypeError "Invalid URL");
     searchParams_set := fun url key value =>
       (url ++ "?" ++ key ++ "=" ++ value)%string;
     JSON_stringify := fun _ => Ok "{}"%string |}.

(** A client whose base URL lacks its scheme. *)
Definition misconfigured : BaseAPIClient :=
  {| baseUrl := "api.example.com";
     authToken := None;
     headers := [("Content-Type", "application/json")];
     retryOptions := DEFAULT_RETRY_OPTIONS |}.

(** The first two requests are answered 503, the third 200. *)
Definition recovering : Network string :=
  {| fetch := fun attempt =>
       if PrimFloat.ltb attempt 2 then
         Ok {| ok := false; status := 503;
               json := Ok {| message := Some "Service unavailable"%string;
                             content := ""%string |} |}
       else
         Ok {| ok := true; status := 200;
               json := Ok {| message := None; content := "account"%string |} |}
  |}.

(** Every request is answered 404. *)
Definition missing : Network string :=
  {| fetch := fun _ =>
       Ok {| ok := false; status := 404;
             json := Ok {| message := Some "Not Found"%string;
                           content := ""%string |} |} |}.

End BaseClientScenario.

(* ================================================================== *)
(** * The Web3 helper ([packages/shared/src/web3/helpers.ts]) *)
(* ================================================================== *)

Module Web3.
Local Open Scope js_scope.

(** ** A [Map] with string keys, in insertion order *)

Fixpoint mapGet {V} (m : list (string * V)) (key : string) : option V :=
  match m with
  | [] => None
  | (k, v) :: rest => if String.eqb k key then Some v else mapGet rest key
  end.

(** [m.set(key, value)]: an existing key keeps its place. *)
Fixpoint mapSet {V} (m : list (string * V)) (key : string) (value : V)
  : list (string * V) :=
  match m with
  | [] => [(key, value)]
  | (k, v) :: rest =>
      if String.eqb k key then (k, value) :: rest
      else (k, v) :: mapSet rest key value
  end.

(** ** The library and engine functions the helper calls *)

Record Lib : Type := mkLib {
  (** viem's [formatUnits(value, decimals)] *)
  formatUnits : Z -> Js.number -> string;
  (** viem's [parseUnits(text, decimals)], which throws on a text that is
      not a decimal number *)
  parseUnits : string -> Js.number -> outcome Z;
  (** [Math.ceil] *)
  ceil : Js.number -> Js.number;
  (** [BigInt(x)] of a number, which throws a [RangeError] unless [x] is an
      integer *)
  BigInt_of_number : Js.number -> outcome Z
}.

(** [1.2], as the binary64 value it denotes. *)
Definition GAS_BUFFER_MULTIPLIER : Js.number := 0x1.3333333333333p+0%float.
Definition DEFAULT_GAS_LIMIT : Z := 100000.

Record Receipt : Type := mkReceipt {
  receipt_status : string;
  blockNumber : Z
}.

(** The fields of a [Web3Helper] that its methods read or write. *)
Record Web3Helper : Type := mkWeb3Helper {
  address : string;
  decimalsCache : list (string * Js.number)
}.

(** Calls to the two viem clients. *)
Inductive Call : Type :=
| Read_balanceOf (token owner : string)
| Read_allowance (token owner spender : string)
| Read_decimals (token : string)
| Estimate_transfer (token to : string) (amountWei : Z)
| Write_transfer (token to : string) (amountWei gas : Z)
| Write_approve (token spender : string) (amountWei : Z)
| WaitForTransactionReceipt (hash : string)
| GetChainId.

Record Chain : Type := mkChain {
  balanceOf : string -> string -> outcome Z;
  allowance : string -> string -> string -> outcome Z;
  (** [Number(decimals)] of what the contract answers *)
  decimals : string -> outcome Js.number;
  estimateTransfer : string -> string -> Z -> outcome Z;
  transfer : string -> string -> Z -> Z -> outcome string;
  approve : string -> string -> Z -> outcome string;
  receipt : string -> outcome Receipt;
  chainId : outcome Z
}.

Section Helper.
Variable rt : Runtime.
Variable L : Lib.
Variable C : Chain.

Definition W : Type -> Type := M Web3Helper Call.

Definition getTokenDecimals (tokenAddress : string) : W Js.number :=
  this <- get ;;
  match mapGet (decimalsCache this) tokenAddress with
  | Some cached => ret cached
  | None =>
      try_catch
        (value <- call (Read_decimals tokenAddress)
                       (decimals C tokenAddress) ;;
         this <- get ;;
         put {| address := address this;
                decimalsCache :=
                  mapSet (decimalsCache this) tokenAddress value |} ;;;
         ret value)
        (fun _ => ret 18%float)
  end.

Definition getBalance (tokenAddress : string) : W Js.number :=
  this <- get ;;
  balance <- call (Read_balanceOf tokenAddress (address this))
                  (balanceOf C tokenAddress (address this)) ;;
  decimals <- getTokenDecimals tokenAddress ;;
  ret (parseFloat rt (formatUnits L balance decimals)).

Definition getAllowance (tokenAddress spender : string) : W Js.number :=
  this <- get ;;
  allowance <- call (Read_allowance tokenAddress (address this) spender)
                    (allowance C tokenAddress (address this) spender) ;;
  decimals <- getTokenDecimals tokenAddress ;;
  ret (parseFloat rt (formatUnits L allowance decimals)).

Definition approveToken (tokenAddress spender : string) (amount : Js.number)
  (waitForReceipt : bool) : W string :=
  decimals <- getTokenDecimals tokenAddress ;;
  amountWei <- lift (parseUnits L (String_of_number rt amount) decimals) ;;
  hash <- call (Write_approve tokenAddress spender amountWei)
               (approve C tokenAddress spender amountWei) ;;
  (if waitForReceipt then
     receipt <- call (WaitForTransactionReceipt hash) (receipt C hash) ;;
     if String.eqb (receipt_status receipt) "reverted" then
       throw (Js.newTransactionFailedException
                "Approval transaction reverted" (Some hash))
     else ret tt
   else ret tt) ;;;
  ret hash.

Definition transferToken (toAddress tokenAddress : string)
  (amount : Js.number) (waitForReceipt : bool) : W string :=
  balance <- getBalance tokenAddress ;;
  if PrimFloat.ltb balance amount then
    throw (Js.new Js.InsufficientBalanceException
             ("Insufficient " ++ tokenAddress ++ " balance: required "
                ++ String_of_number rt amount ++ ", available "
                ++ String_of_number rt balance))
  else
    decimals <- getTokenDecimals tokenAddress ;;
    amountWei <- lift (parseUnits L (String_of_number rt amount) decimals) ;;
    gasLimit <-
      try_catch
        (estimate <- call (Estimate_transfer tokenAddress toAddress amountWei)
                          (estimateTransfer C tokenAddress toAddress
                             amountWei) ;;
         lift (BigInt_of_number L
                 (ceil L (Number_of_bigint rt estimate
                          * GAS_BUFFER_MULTIPLIER)%float)))
        (fun _ => ret DEFAULT_GAS_LIMIT) ;;
    hash <- call (Write_transfer tokenAddress toAddress amountWei gasLimit)
                 (transfer C tokenAddress toAddress amountWei gasLimit) ;;
    (if waitForReceipt then
       receipt <- call (WaitForTransactionReceipt hash) (receipt C hash) ;;
       if String.eqb (receipt_status receipt) "reverted" then
         throw (Js.newTransactionFailedException "Transaction reverted"
                  (Some hash))
       else ret tt
     else ret tt) ;;;
    ret hash.

Definition isConnected : W bool :=
  try_catch (call GetChainId (chainId C) ;;; ret true) (fun _ => ret false).

End Helper.

(** ** Vocabulary *)

(** [c] submits a transaction. *)
Definition isWrite (c : Call) : bool :=
  match c with
  | Write_transfer _ _ _ _ | Write_approve _ _ _ => true
  | _ => false
  end.

(** The decimals [getTokenDecimals] answers for the token: the cached
    value, else what the contract says, else 18. *)
Definition decimalsOf (C : Chain) (this : Web3Helper) (token : string)
  : Js.number :=
  match mapGet (decimalsCache this) token with
  | Some cached => cached
  | None =>
      match decimals C token with
      | Ok value => value
      | Throw _ => 18%float
      end
  end.

(** The helper after [getTokenDecimals] for the token, and the call it
    made, if any. *)
Definition remembering (C : Chain) (this : Web3Helper) (token : string)
  : Web3Helper :=
  match mapGet (decimalsCache this) token with
  | Some _ => this
  | None =>
      match decimals C token with
      | Ok value =>
          {| address := address this;
             decimalsCache := mapSet (decimalsCache this) token value |}
      | Throw _ => this
      end
  end.

Definition decimalsCalls (this : Web3Helper) (token : string) : list Call :=
  match mapGet (decimalsCache this) token with
  | Some _ => []
  | None => [Read_decimals token]
  end.

(** The gas limit [transferToken] settles on. *)
Definition gasLimitOf (rt : Runtime) (L : Lib) (C : Chain)
  (token to : string) (amountWei : Z) : Z :=
  match estimateTransfer C token to amountWei with
  | Ok estimate =>
      match BigInt_of_number L
              (ceil L (Number_of_bigint rt estimate
                       * GAS_BUFFER_MULTIPLIER)%float) with
      | Ok gas => gas
      | Throw _ => DEFAULT_GAS_LIMIT
      end
  | Throw _ => DEFAULT_GAS_LIMIT
  end.

End Web3.

Module Web3Scenario.
Import Web3.
Local Open Scope float_scope.

(** The engine and viem on the values of the scenarios: USDC has 6
    decimals. *)
Definition runtime : Runtime :=
  {| parseFloat := fun s =>
       if String.eqb s "100" then 100
       else if String.eqb s "40" then 40
       else nan;
     parseInt := fun _ => nan;
     BigInt := fun s =>
       Throw (Js.new Js.SyntaxError
                ("Cannot convert " ++ s ++ " to a BigInt"));
     Number_of_bigint := fun z => PrimFloat.of_uint63 (Uint63.of_Z z);
     pow := fun _ _ => nan;
     String_of_number := fun x =>
       if PrimFloat.eqb x 100 then "100"
       else if PrimFloat.eqb x 40 then "40"
       else "?";
     toFixed := fun x _ => x;
     now := 1700000000000%Z |}.

Definition lib : Lib :=
  {| formatUnits := fun wei _ =>
       if (wei =? 100000000)%Z then "100"
       else if (wei =? 40000000)%Z then "40"
       else "0";
     parseUnits := fun text _ =>
       if String.eqb text "100" then Ok 100000000%Z
       else if String.eqb text "40" then Ok 40000000%Z
       else Throw (Js.new Js.Error "Number is not a valid decimal number");
     (* the products of the scenarios are whole numbers *)
     ceil := fun x => x;
     BigInt_of_number := fun x =>
       if PrimFloat.eqb x 60000 then Ok 60000%Z
       else Throw (Js.new Js.Error "The number is not an integer") |}.

Definition helper : Web3Helper :=
  {| address := "0xWallet"; decimalsCache := [] |}.

(** The wallet holds [wei] of every token; gas is estimated at 50000; a
    transfer gets the hash [0xabc123] and its receipt says [outcome]. *)
Definition chain (wei : Z) (outcome : string) : Chain :=
  {| balanceOf := fun _ _ => Ok wei;
     allowance := fun _ _ _ => Ok 0%Z;
     decimals := fun _ => Ok 6;
     estimateTransfer := fun _ _ _ => Ok 50000%Z;
     transfer := fun _ _ _ _ => Ok "0xabc123";
     approve := fun _ _ _ => Ok "0xdef456";
     receipt := fun _ =>
       Ok {| receipt_status := outcome; blockNumber := 1 |};
     chainId := Ok 137%Z |}.

End Web3Scenario.

(* ================================================================== *)
(** * The Market Maker contract client
      ([packages/market-maker-sdk/src/marketMakerWeb3/client.ts]) *)
(* ================================================================== *)

Module MarketMakerWeb3.
Local Open Scope js_scope.

Definition ZERO_ADDRESS : string :=
  "0x0000000000000000000000000000000000000000".

(** The fields of a [MarketMakerWeb3Client] that its methods read or
    write. *)
Record MarketMakerWeb3Client : Type := mkMarketMakerWeb3Client {
  network : Network;
  address : string;
  contractAddress : option string
}.

(** Calls that leave the client: the remote configuration and the two
    viem clients. *)
Inductive Call : Type :=
| Config_getMarketMakerManagerAddress (chainId : Z)
| Read_allowance (token owner spender : string)
| Write_approve (token spender : string) (amount : Z)
| Write_takeOfferFixed
    (contract : string) (offerId withdrawalAmountPaid : Z)
    (affiliate : string)
| Write_takeOfferDynamic
    (contract : string)
    (offerId withdrawalAmountPaid maximumDepositToWithdrawalRate : Z)
    (affiliate : string)
| Write_cancelOffer (contract : string) (offerId : Z)
| WaitForTransactionReceipt (hash : string).

Record Chain : Type := mkChain {
  managerAddress : Z -> outcome string;
  (** viem's [getAddress], which throws on a text that is not an address *)
  getAddress : string -> outcome string;
  allowance : string -> string -> string -> outcome Z;
  approve : string -> string -> Z -> outcome string;
  offerFixed : string -> Z -> Z -> string -> outcome string;
  offerDynamic : string -> Z -> Z -> Z -> string -> outcome string;
  offerCancelled : string -> Z -> outcome string;
  (** the [status] of the receipt *)
  receiptStatus : string -> outcome string
}.

Section Client.
Variable rt : Runtime.
Variable C : Chain.

Definition W : Type -> Type := M MarketMakerWeb3Client Call.

Definition ensureContractLoaded : W string :=
  this <- get ;;
  if Js.truthy_string (contractAddress this) then
    ret (Js.template (contractAddress this))
  else
    manager <- call (Config_getMarketMakerManagerAddress
                       (chainId (network this)))
                    (managerAddress C (chainId (network this))) ;;
    if negb (Js.truthy_string (Some manager))
       || String.eqb manager ZERO_ADDRESS
    then
      throw (Js.new Js.MarketMakerWeb3Exception
               ("Market Maker Manager contract not deployed on network "
                  ++ MarketMaker.getNetworkName (network this)))
    else
      checksummed <- lift (getAddress C manager) ;;
      this <- get ;;
      put {| network := network this; address := address this;
             contractAddress := Some checksummed |} ;;;
      ret checksummed.

Definition approveTokenIfNeeded (tokenAddress spender : string) (amount : Z)
  : W unit :=
  this <- get ;;
  allowance <- call (Read_allowance tokenAddress (address this) spender)
                    (allowance C tokenAddress (address this) spender) ;;
  if (amount <=? allowance)%Z then ret tt
  else
    hash <- call (Write_approve tokenAddress spender amount)
                 (approve C tokenAddress spender amount) ;;
    status <- call (WaitForTransactionReceipt hash) (receiptStatus C hash) ;;
    if String.eqb status "reverted" then
      throw (Js.new Js.MarketMakerWeb3Exception
               "Approval transaction reverted")
    else ret tt.

(** What [handleContractError(error, operation)] throws. *)
Definition handleContractError (error : Js.error) (operation : string)
  : Js.error :=
  let message := Js.message error in
  if Js.includes "OfferNotFound" message
     || Js.includes "offer does not exist" message
  then Js.new Js.OfferNotFoundError
         ("Offer not found during " ++ operation)
  else if Js.includes "OfferInactive" message
          || Js.includes "offer is not active" message
  then Js.new Js.OfferInactiveError
         ("Offer is inactive during " ++ operation)
  else if Js.includes "InsufficientBalance" message
          || Js.includes "insufficient balance" message
  then Js.new Js.InsufficientOfferBalanceError
         ("Insufficient balance during " ++ operation)
  else if Js.includes "OfferExpired" message
          || Js.includes "offer has expired" message
  then Js.new Js.OfferExpiredError ("Offer expired during " ++ operation)
  else if Js.includes "Unauthorized" message
          || Js.includes "not authorized" message
  then Js.new Js.UnauthorizedError ("Unauthorized for " ++ operation)
  else Js.new Js.MarketMakerWeb3Exception
         ("Failed to " ++ operation ++ ": " ++ message).

Definition affiliateOr (affiliate : option string) : string :=
  match affiliate with Some a => a | None => ZERO_ADDRESS end.

Definition takeOfferFixed (offerId withdrawalToken : string)
  (withdrawalAmountPaid : Z) (affiliate : option string) : W string :=
  try_catch
    (contractAddress <- ensureContractLoaded ;;
     offerIdBigInt <- lift (BigInt rt offerId) ;;
     let affiliateAddress := affiliateOr affiliate in
     approveTokenIfNeeded withdrawalToken contractAddress
       withdrawalAmountPaid ;;;
     hash <- call (Write_takeOfferFixed contractAddress offerIdBigInt
                     withdrawalAmountPaid affiliateAddress)
                  (offerFixed C contractAddress offerIdBigInt
                     withdrawalAmountPaid affiliateAddress) ;;
     status <- call (WaitForTransactionReceipt hash)
                    (receiptStatus C hash) ;;
     if String.eqb status "reverted" then
       throw (Js.new Js.MarketMakerWeb3Exception "Transaction reverted")
     else ret hash)
    (fun error =>
       if Js.instanceof error Js.MarketMakerWeb3Exception then throw error
       else throw (handleContractError error "take fixed offer")).

Definition takeOfferDynamic (offerId withdrawalToken : string)
  (withdrawalAmountPaid maximumDepositToWithdrawalRate : Z)
  (affiliate : option string) : W string :=
  try_catch
    (contractAddress <- ensureContractLoaded ;;
     offerIdBigInt <- lift (BigInt rt offerId) ;;
     let affiliateAddress := affiliateOr affiliate in
     approveTokenIfNeeded withdrawalToken contractAddress
       withdrawalAmountPaid ;;;
     hash <- call (Write_takeOfferDynamic contractAddress offerIdBigInt
                     withdrawalAmountPaid maximumDepositToWithdrawalRate
                     affiliateAddress)
                  (offerDynamic C contractAddress offerIdBigInt
                     withdrawalAmountPaid maximumDepositToWithdrawalRate
                     affiliateAddress) ;;
     status <- call (WaitForTransactionReceipt hash)
                    (receiptStatus C hash) ;;
     if String.eqb status "reverted" then
       throw (Js.new Js.MarketMakerWeb3Exception "Transaction reverted")
     else ret hash)
    (fun error =>
       if Js.instanceof error Js.MarketMakerWeb3Exception then throw error
       else throw (handleContractError error "take dynamic offer")).

Definition cancelOffer (offerId : string) : W string :=
  try_catch
    (contractAddress <- ensureContractLoaded ;;
     offerIdBigInt <- lift (BigInt rt offerId) ;;
     hash <- call (Write_cancelOffer contractAddress offerIdBigInt)
                  (offerCancelled C contractAddress offerIdBigInt) ;;
     status <- call (WaitForTransactionReceipt hash)
                    (receiptStatus C hash) ;;
     if String.eqb status "reverted" then
       throw (Js.new Js.MarketMakerWeb3Exception "Transaction reverted")
     else ret hash)
    (fun error =>
       if Js.instanceof error Js.MarketMakerWeb3Exception then throw error
       else throw (Js.new Js.MarketMakerWeb3Exception
                     ("Failed to cancel offer: " ++ Js.toString error))).

End Client.

(** ** Vocabulary *)

Definition isApproval (c : Call) : bool :=
  match c with Write_approve _ _ _ => true | _ => false end.

(** The contract may spend [amount] of the token: the allowance [allowed]
    covers it, or the approval of [amount] went through and its receipt
    does not say it reverted. *)
Definition maySpend (C : Chain) (token spender : string)
  (amount allowed : Z) : bool :=
  (amount <=? allowed)%Z
  || match approve C token spender amount with
     | Ok hash =>
         match receiptStatus C hash with
         | Ok status => negb (String.eqb status "reverted")
         | Throw _ => false
         end
     | Throw _ => false
     end.

(** [c] takes or cancels an offer. *)
Definition isOfferWrite (c : Call) : bool :=
  match c with
  | Write_takeOfferFixed _ _ _ _ | Write_takeOfferDynamic _ _ _ _ _
  | Write_cancelOffer _ _ => true
  | _ => false
  end.

End MarketMakerWeb3.

Module MarketMakerWeb3Scenario.
Import MarketMakerWeb3.

Definition taker : MarketMakerWeb3Client :=
  {| network := POLYGON; address := "0xWallet";
     contractAddress := Some "0xManager" |}.

(** The contract has no allowance; the approval is mined with the status
    [approval]; offers are taken with the hash [0xfeed]. *)
Definition chain (approval : string) : Chain :=
  {| managerAddress := fun _ => Ok "0xManager";
     getAddress := fun a => Ok a;
     allowance := fun _ _ _ => Ok 0%Z;
     approve := fun _ _ _ => Ok "0xapprove";
     offerFixed := fun _ _ _ _ => Ok "0xfeed";
     offerDynamic := fun _ _ _ _ _ => Ok "0xbeef";
     offerCancelled := fun _ _ => Ok "0xdead";
     receiptStatus := fun hash =>
       if String.eqb hash "0xapprove" then Ok approval else Ok "success" |}.

End MarketMakerWeb3Scenario.

(* ================================================================== *)
(** * The remote configuration
      ([packages/shared/src/remoteConfig], [packages/shared/src/config.ts]) *)
(* ================================================================== *)

Module RemoteConfig.
Local Open Scope js_scope.

(** The parts of the configuration file that the SDKs read. *)
Record RemoteConfig : Type := mkRemoteConfig {
  version : option string;
  (** [topup_addresses?.cross_chain_access_escrow] *)
  cross_chain_access_escrow : option string;
  dotc_manager_addresses : option (list (string * string))
}.

Record Response : Type := mkResponse {
  ok : bool;
  status : Z;
  (** [await response.json()], an object, or the error of a body that is
      not JSON *)
  json : outcome RemoteConfig
}.

Record RemoteConfigFetcher : Type := mkRemoteConfigFetcher {
  isDev : bool;
  configUrl : string;
  cache : option RemoteConfig;
  lastFetch : option Date
}.

(** The two module variables that hold the singletons. *)
Record Globals : Type := mkGlobals {
  prodFetcher : option RemoteConfigFetcher;
  devFetcher : option RemoteConfigFetcher
}.

Inductive Call : Type :=
| Fetch (url : string).

Record Web : Type := mkWeb {
  respond : string -> outcome Response
}.

Definition devUrl : string :=
  "https://swarm-sdk-configurations.s3.eu-central-1.amazonaws.com/config.dev.json".
Definition prodUrl : string :=
  "https://swarm-sdk-configurations.s3.eu-central-1.amazonaws.com/config.prod.json".

(** [new RemoteConfigFetcher(isDev)]. *)
Definition constructor (isDev : bool) : RemoteConfigFetcher :=
  {| isDev := isDev;
     configUrl := if isDev then devUrl else prodUrl;
     cache := None;
     lastFetch := None |}.

(** The variable that holds the fetcher of a mode. *)
Definition fetcherOf (g : Globals) (dev : bool)
  : option RemoteConfigFetcher :=
  if dev then devFetcher g else prodFetcher g.

Definition setFetcher (g : Globals) (dev : bool)
  (f : option RemoteConfigFetcher) : Globals :=
  if dev then {| prodFetcher := prodFetcher g; devFetcher := f |}
  else {| prodFetcher := f; devFetcher := devFetcher g |}.

Definition notLoaded : Js.error :=
  Js.new Js.Error "Configuration not loaded. Call initialize() first.".

(** [fetcher.getTopupAddress()]. *)
Definition getTopupAddress (this : RemoteConfigFetcher) : outcome string :=
  match cache this with
  | None => Throw notLoaded
  | Some config =>
      if negb (Js.truthy_string (cross_chain_access_escrow config)) then
        Throw (Js.new Js.Error "Topup address not found in configuration")
      else Ok (Js.template (cross_chain_access_escrow config))
  end.

(** [fetcher.getMarketMakerManagerAddress(chainId)]. *)
Definition getMarketMakerManagerAddress (this : RemoteConfigFetcher)
  (chainId : Z) : outcome string :=
  match cache this with
  | None => Throw notLoaded
  | Some config =>
      let found :=
        match dotc_manager_addresses config with
        | Some addresses =>
            Web3.mapGet addresses (Js.string_of_Z chainId)
        | None => None
        end in
      if negb (Js.truthy_string found) then
        Throw (Js.new Js.Error
                 ("Market Maker Manager address not found for chain ID "
                    ++ Js.string_of_Z chainId))
      else Ok (Js.template found)
  end.

Definition getConfigVersion (this : RemoteConfigFetcher) : string :=
  match cache this with
  | Some config =>
      match version config with Some v => v | None => "unknown" end
  | None => "unknown"
  end.

Section Fetcher.
Variable rt : Runtime.
Variable W : Web.

(** Methods run on the fetcher, functions of the module on the two
    variables. *)
Definition F : Type -> Type := M RemoteConfigFetcher Call.
Definition G : Type -> Type := M Globals Call.

Definition doFetch : F bool :=
  try_catch
    (this <- get ;;
     response <- call (Fetch (configUrl this))
                      (respond W (configUrl this)) ;;
     if negb (ok response) then ret false
     else
       config <- lift (json response) ;;
       this <- get ;;
       put {| isDev := isDev this; configUrl := configUrl this;
              cache := Some config; lastFetch := Some (now rt) |} ;;;
       ret true)
    (fun _ => ret false).

(** [fetchConfig] keeps the promise of a fetch in flight aside for calls
    that overlap with it; between two calls there is none. *)
Definition fetchConfig : F bool := doFetch.

Definition initialize : F unit :=
  fetchConfig ;;;
  this <- get ;;
  if negb (Js.defined (cache this)) then
    throw (Js.new Js.Error
             ("Failed to load configuration from remote: "
                ++ configUrl this))
  else ret tt.

(** [m] run on the object [fetcher] that the variable of mode [dev] has
    just been given: what [m] does to the object is seen through the
    variable, also when [m] throws. *)
Definition onNew {A} (dev : bool) (fetcher : RemoteConfigFetcher)
  (m : F A) : G A :=
  fun w =>
    let '(r, (fetcher', log)) := m (fetcher, snd w) in
    (r, (setFetcher (fst w) dev (Some fetcher'), log)).

(** [getConfigFetcher(isDev)]. *)
Definition getConfigFetcher (dev : bool) : G RemoteConfigFetcher :=
  g <- get ;;
  match fetcherOf g dev with
  | Some fetcher => ret fetcher
  | None => onNew dev (constructor dev) (initialize ;;; get)
  end.

Definition closeConfigFetchers : G unit :=
  put {| prodFetcher := None; devFetcher := None |}.

(** [getTopupAddress()] and [getDotcManagerAddress(chainId)] of
    [config.ts]; [dev] is what [getIsDev()] answers. *)
Definition config_getTopupAddress (dev : bool) : G string :=
  fetcher <- getConfigFetcher dev ;;
  lift (getTopupAddress fetcher).

Definition config_getDotcManagerAddress (dev : bool) (chainId : Z)
  : G string :=
  fetcher <- getConfigFetcher dev ;;
  lift (getMarketMakerManagerAddress fetcher chainId).

End Fetcher.

(** ** Vocabulary *)

Definition noFetchers : Globals :=
  {| prodFetcher := None; devFetcher := None |}.

(** The configuration that the request of a mode yields, if it yields
    one. *)
Definition loaded (W : Web) (dev : bool) : option RemoteConfig :=
  match respond W (configUrl (constructor dev)) with
  | Ok response =>
      if ok response then
        match json response with
        | Ok config => Some config
        | Throw _ => None
        end
      else None
  | Throw _ => None
  end.

(** The fetcher of a mode after its first and only request. *)
Definition fetched (rt : Runtime) (W : Web) (dev : bool)
  : RemoteConfigFetcher :=
  match loaded W dev with
  | Some config =>
      {| isDev := dev; configUrl := configUrl (constructor dev);
         cache := Some config; lastFetch := Some (now rt) |}
  | None => constructor dev
  end.

Definition loadFailed (dev : bool) : Js.error :=
  Js.new Js.Error
    ("Failed to load configuration from remote: "
       ++ configUrl (constructor dev)).

End RemoteConfig.

Module RemoteConfigScenario.
Import RemoteConfig.

(** The configuration service answers 503. *)
Definition down : Web :=
  {| respond := fun _ =>
       Ok {| ok := false; status := 503;
             json := Throw (Js.new Js.SyntaxError
                              "Unexpected token < in JSON at position 0") |}
  |}.

End RemoteConfigScenario.

(* ================================================================== *)
(** * Routing: properties of [Router.selectPlatform] *)
(* ================================================================== *)

Module RoutingFacts.
Import Routing.

Lemma getEffectiveRate_rateOf (o : PlatformOption) :
  getEffectiveRate o = rateOf (quote o).
Proof. reflexivity. Qed.

(** The five members of the enum are pairwise distinct strings, so each
    strategy reaches its own block. *)
Ltac strategies :=
  repeat match goal with
         | |- context [String.eqb ?a ?b] =>
             let E := fresh "E" in destruct (String.eqb a b) eqn:E
         end.

Ltac options cca mm :=
  destruct cca as [pc [qc|] [|] ec]; destruct mm as [pm [qm|] [|] em];
  cbn [usable available quote Js.defined andb negb orb].

(** C9. Whatever the two options, the strategy string and the direction,
    [selectPlatform] either throws a [NoLiquidityException] or returns an
    option whose [available] flag is set and whose quote is present; this
    includes the last [return], reached by a string outside the enum. *)
Theorem selectPlatform_available
  (cca mm : PlatformOption) (strategy : RoutingStrategy) (isBuy : bool) :
  match selectPlatform cca mm strategy isBuy with
  | Ok o => available o = true /\ Js.defined (quote o) = true
  | Throw e => Js.cls e = Js.NoLiquidityException
  end.
Proof.
  unfold selectPlatform.
  options cca mm; strategies; cbn [andb negb];
    repeat match goal with
           | |- context [if ?b then _ else _] => destruct b
           end;
    cbn; auto.
Qed.

(** C6. Under [CROSS_CHAIN_ACCESS_ONLY] the router returns its first
    argument when that option is available with a quote and throws a
    [NoLiquidityException] otherwise; under [MARKET_MAKER_ONLY] the same
    holds of its second argument.  The other venue's option is never the
    result, whatever its quote. *)
Theorem selectPlatform_only
  (cca mm : PlatformOption) (isBuy : bool) :
  match selectPlatform cca mm CROSS_CHAIN_ACCESS_ONLY isBuy with
  | Ok o => o = cca /\ usable cca = true
  | Throw e => Js.cls e = Js.NoLiquidityException /\ usable cca = false
  end
  /\
  match selectPlatform cca mm MARKET_MAKER_ONLY isBuy with
  | Ok o => o = mm /\ usable mm = true
  | Throw e => Js.cls e = Js.NoLiquidityException /\ usable mm = false
  end.
Proof.
  unfold selectPlatform.
  options cca mm; cbn; auto.
Qed.

(** With both venues quoting, [BEST_PRICE] is decided by the comparison of
    the two rates. *)
Lemma best_price_both (cca mm : PlatformOption) (isBuy : bool) :
  usable cca = true -> usable mm = true ->
  selectPlatform cca mm BEST_PRICE isBuy =
    Ok (if crossChainAccessWins isBuy
             (rateOf (quote cca)) (rateOf (quote mm))
        then cca else mm).
Proof.
  unfold selectPlatform, crossChainAccessWins, getEffectiveRate, rateOf.
  options cca mm; intros; try discriminate; cbn;
    destruct isBuy; cbn [andb orb negb];
    repeat match goal with
           | |- context [if ?b then _ else _] => destruct b; cbn [andb orb]
           end;
    reflexivity.
Qed.

(** C3. Under [BEST_PRICE]: when exactly one option is available with a
    quote it is returned; when both are, the Cross-Chain Access option is
    returned exactly when (buy and ccaRate <= mmRate) or (sell and
    ccaRate >= mmRate), and the Market Maker option otherwise, the rates
    being buyAmount / sellAmount of each quote (0 for sellAmount = 0). *)
Theorem selectPlatform_best_price
  (cca mm : PlatformOption) (isBuy : bool) :
  (usable cca = true -> usable mm = false ->
   selectPlatform cca mm BEST_PRICE isBuy = Ok cca)
  /\
  (usable cca = false -> usable mm = true ->
   selectPlatform cca mm BEST_PRICE isBuy = Ok mm)
  /\
  (usable cca = true -> usable mm = true ->
   selectPlatform cca mm BEST_PRICE isBuy =
     Ok (if crossChainAccessWins isBuy
              (rateOf (quote cca)) (rateOf (quote mm))
         then cca else mm)).
Proof.
  split; [|split; [|apply best_price_both]].
  - unfold selectPlatform. options cca mm; intros; try discriminate;
      reflexivity.
  - unfold selectPlatform. options cca mm; intros; try discriminate;
      reflexivity.
Qed.

End RoutingFacts.

(* ================================================================== *)
(** * Orchestration: properties of [TradingClient.trade] *)
(* ================================================================== *)

Module TradingFacts.
Import Routing Trading.

(** Unfolding the monad and the helpers of the client. *)
Ltac unfold_client :=
  unfold run, trade, initialize, getMarketMakerOption,
    getCrossChainAccessOption, executeOn, executeMarketMakerTrade,
    executeCrossChainAccessTrade, bind, try_catch, call, get, put, ret,
    throw, calls in *;
  cbn [fst snd app] in *.

(** ** The phases of [trade] *)

Section Phases.
Variable V : Venues.
Variable options : TradeOptions.

Lemma bind_ok {St C A B} (m : M St C A) (k : A -> M St C B) w a w' :
  m w = (Ok a, w') -> bind m k w = k a w'.
Proof. unfold bind. intros ->. reflexivity. Qed.

(** Quoting never throws: each answer becomes an option. *)
Lemma marketMakerOption_run this log :
  getMarketMakerOption V (fromToken options) (toToken options)
    (fromAmount options) (toAmount options) (this, log)
  = (Ok (marketMakerOptionOf V options),
     (this, log ++ [MarketMaker_getQuote (fromToken options)
                      (toToken options) (fromAmount options)
                      (toAmount options)])%list).
Proof.
  unfold marketMakerOptionOf. unfold_client.
  destruct (mm_getQuote V _ _ _ _); reflexivity.
Qed.

Lemma crossChainAccessOption_run this log :
  (if Js.truthy_string (toTokenSymbol options) then
     getCrossChainAccessOption V (toTokenSymbol options)
       (fromAmount options) (toAmount options)
   else
     ret (createPlatformOption cross_chain_access
            (mkInit None (Some false) (Some "Symbol not provided"))))
    (this, log)
  = (Ok (crossChainAccessOptionOf V options),
     (this, log ++ tl (quoteCalls options))%list).
Proof.
  unfold crossChainAccessOptionOf, quoteCalls. unfold_client.
  destruct (toTokenSymbol options) as [symbol|]; cbn -[Js.instanceof];
    [destruct (String.eqb symbol "") eqn:E; cbn -[Js.instanceof]|];
    rewrite ?app_nil_r; try reflexivity.
  destruct (cca_getQuote V symbol); cbn -[Js.instanceof]; [reflexivity|].
  destruct (Js.instanceof e Js.MarketClosedException); reflexivity.
Qed.

Lemma executeOn_run p this log :
  executeOn V p options (this, log)
  = (executionAnswer V options p,
     (this, log ++ [executionCall options p])%list).
Proof.
  unfold executionAnswer, executionCall. unfold_client.
  destruct p; cbn; [destruct (fromAmount options)|]; reflexivity.
Qed.

Lemma initialize_run this log :
  initialize V (this, log)
  = if initialized this then (Ok tt, (this, log))
    else
      match mm_initialize V with
      | Throw e => (Throw e, (this, log ++ [MarketMaker_initialize])%list)
      | Ok _ =>
          match cca_initialize V with
          | Throw e =>
              (Throw e,
               (this, log ++ [MarketMaker_initialize;
                              CrossChainAccess_initialize])%list)
          | Ok _ =>
              (Ok tt,
               ({| routingStrategy := routingStrategy this;
                   initialized := true |},
                log ++ [MarketMaker_initialize;
                        CrossChainAccess_initialize])%list)
          end
      end.
Proof.
  unfold_client. destruct (initialized this); cbn; [reflexivity|].
  destruct (mm_initialize V) as [[]|]; cbn; [|reflexivity].
  destruct (cca_initialize V) as [[]|]; cbn; rewrite <- app_assoc;
    reflexivity.
Qed.

End Phases.

(** The steps of [trade] after initialization, one phase at a time. *)
Ltac settle_phase selected :=
  unfold try_catch at 1; rewrite executeOn_run;
  destruct (executionAnswer _ _ (platform selected)) as [|error];
    [reflexivity|];
  replace (if Platform_eqb (platform selected) cross_chain_access
           then market_maker else cross_chain_access)
    with (other (platform selected)) by (destruct (platform selected);
                                         reflexivity);
  match goal with
  | |- context [available (if Platform_eqb (platform selected) _
                           then ?m else ?c)] =>
      replace (if Platform_eqb (platform selected) cross_chain_access
               then m else c)
        with (match platform selected with
              | cross_chain_access => m
              | market_maker => c
              end) by (destruct (platform selected); reflexivity)
  end;
  match goal with
  | |- context [allowsFallback ?s && available ?o] =>
      destruct (allowsFallback s && available o); [|reflexivity]
  end;
  unfold try_catch; rewrite executeOn_run, <- app_assoc;
  destruct (executionAnswer _ _ (other (platform selected)));
  reflexivity.

Ltac after_initialization :=
  erewrite bind_ok by apply marketMakerOption_run;
  erewrite bind_ok by apply crossChainAccessOption_run;
  unfold routeAndSettle, settle, strategyOf, quoteCalls, bind at 1, call at 1;
  cbn [fst snd routingStrategy app tl];
  rewrite <- ?app_assoc; cbn [app];
  repeat match goal with
         | H : Js.defined _ = _ |- _ => rewrite H
         end;
  match goal with
  | |- context [selectPlatform ?c ?m ?s ?b] =>
      let selected := fresh "selected" in
      destruct (selectPlatform c m s b) as [selected|];
      [settle_phase selected|reflexivity]
  end.

(** [trade] computes [tradeRun]. *)
Lemma trade_run (V : Venues) (options : TradeOptions) (this : TradingClient) :
  run (trade V options) this = tradeRun V options this.
Proof.
  unfold tradeRun, run, trade, oneAmount.
  destruct (Js.defined (fromAmount options)) eqn:Ef,
           (Js.defined (toAmount options)) eqn:Et;
    cbn [xorb negb andb orb]; try reflexivity.
  all: unfold bind at 1, get at 1; cbn [fst snd].
  all: destruct this as [rs [|]]; cbn [initialized negb].
  all: unfold bind at 1.
  all: try (unfold ret at 1; after_initialization).
  all: rewrite initialize_run; cbn [initialized app routingStrategy].
  all: destruct (mm_initialize V) as [[]|e1]; [|reflexivity].
  all: destruct (cca_initialize V) as [[]|e2]; [|reflexivity].
  all: after_initialization.
Qed.

(** ** The log of a run *)

Lemma tradeRun_routed (V : Venues) (options : TradeOptions)
  (this : TradingClient) :
  oneAmount options = true -> initializes V this = true ->
  exists before executions,
    snd (tradeRun V options this)
    = ({| routingStrategy := routingStrategy this; initialized := true |},
       before ++ quoteCalls options
         ++ Router_selectPlatform (crossChainAccessOptionOf V options)
              (marketMakerOptionOf V options) (strategyOf this options)
              (Js.defined (fromAmount options))
         :: executions)%list
    /\ existsb isExecution before = false
    /\ match selectPlatform (crossChainAccessOptionOf V options)
               (marketMakerOptionOf V options) (strategyOf this options)
               (Js.defined (fromAmount options)) with
       | Ok selected =>
           (fst (tradeRun V options this), executions)
           = settle V options (strategyOf this options)
               (crossChainAccessOptionOf V options)
               (marketMakerOptionOf V options) selected
       | Throw e =>
           fst (tradeRun V options this) = Throw e /\ executions = []
       end.
Proof.
  intros Hone Hinit. unfold tradeRun, initializes in *. rewrite Hone.
  cbn [negb]. destruct this as [rs [|]]; cbn [initialized orb] in *.
  - exists [].
    unfold routeAndSettle. cbn [app].
    destruct (selectPlatform _ _ _ _) as [selected|e].
    + destruct (settle _ _ _ _ _ _) as [r executions].
      exists executions. cbn [fst snd]. rewrite <- ?app_assoc.
      repeat split.
    + exists []. cbn [fst snd]. rewrite <- ?app_assoc. repeat split.
  - destruct (mm_initialize V) as [[]|]; [|discriminate].
    destruct (cca_initialize V) as [[]|]; [|discriminate].
    exists [MarketMaker_initialize; CrossChainAccess_initialize].
    unfold routeAndSettle.
    change (strategyOf {| routingStrategy := rs; initialized := true |}
              options)
      with (strategyOf {| routingStrategy := rs; initialized := false |}
              options).
    destruct (selectPlatform _ _ _ _) as [selected|e].
    + destruct (settle _ _ _ _ _ _) as [r executions].
      exists executions. cbn [fst snd]. rewrite <- ?app_assoc.
      repeat split.
    + exists []. cbn [fst snd]. rewrite <- ?app_assoc. repeat split.
Qed.

Lemma quoteCalls_not_executions (options : TradeOptions) :
  existsb isExecution (quoteCalls options) = false.
Proof.
  unfold quoteCalls. destruct (toTokenSymbol options) as [symbol|];
    [destruct (String.eqb symbol "")|]; reflexivity.
Qed.

Lemma isExecutionOn_executionCall (options : TradeOptions) (p q : Platform) :
  isExecutionOn p (executionCall options q) = Platform_eqb p q.
Proof.
  unfold executionCall.
  destruct p, q; cbn; try destruct (fromAmount options); reflexivity.
Qed.

Lemma existsb_isExecutionOn_weaken (p : Platform) (l : list Call) :
  existsb isExecution l = false -> existsb (isExecutionOn p) l = false.
Proof.
  induction l as [|c l IH]; cbn; [reflexivity|].
  intros H. apply orb_false_iff in H as [Hc Hl].
  rewrite (IH Hl), orb_false_r.
  unfold isExecution in Hc. apply orb_false_iff in Hc as [Hm Hc].
  destruct p; assumption.
Qed.

Lemma prefix_append (n b : string) : String.prefix n (n ++ b) = true.
Proof.
  induction n as [|c n IH]; cbn; [destruct b; reflexivity|].
  destruct (Ascii.ascii_dec c c); [exact IH|congruence].
Qed.

Lemma prefix_refl (n : string) : String.prefix n n = true.
Proof.
  induction n as [|c n IH]; cbn; [reflexivity|].
  destruct (Ascii.ascii_dec c c); [exact IH|congruence].
Qed.

Lemma includes_unfold (n h : string) :
  Js.includes n h
  = String.prefix n h
    || match h with
       | EmptyString => false
       | String _ rest => Js.includes n rest
       end.
Proof. destruct h; reflexivity. Qed.

Lemma includes_head (n b : string) : Js.includes n (n ++ b) = true.
Proof. rewrite includes_unfold, prefix_append. reflexivity. Qed.

Lemma includes_refl (n : string) : Js.includes n n = true.
Proof. rewrite includes_unfold, prefix_refl. reflexivity. Qed.

Lemma includes_tail (n a h : string) :
  Js.includes n h = true -> Js.includes n (a ++ h) = true.
Proof.
  intros H. induction a as [|c a IH]; [exact H|].
  rewrite includes_unfold. cbn [append]. rewrite IH. apply orb_true_r.
Qed.

(** The message of [AllPlatformsFailedException] spells out both errors. *)
Lemma allPlatformsFailed_carries
  (p : Platform) (error fallbackError : Js.error) :
  Js.includes (Js.toString error)
    (Js.message (allPlatformsFailed p error fallbackError)) = true
  /\ Js.includes (Js.toString fallbackError)
       (Js.message (allPlatformsFailed p error fallbackError)) = true.
Proof.
  unfold allPlatformsFailed. cbn [Js.message Js.new]. split.
  - do 3 apply includes_tail. apply includes_head.
  - do 7 apply includes_tail. apply includes_refl.
Qed.

(** C4. A request with both amounts or with neither fails with the
    validation error before anything else happens: no call is made (no
    initialization, no quote, no execution) and the client is unchanged.
    A request with exactly one amount passes validation: the client goes on
    to its first call, the initialization of the Market Maker client or,
    when it is initialized already, the Market Maker quote. *)
Theorem trade_validates_amounts
  (V : Venues) (options : TradeOptions) (this : TradingClient)
  (log : list Call) :
  (oneAmount options = false ->
   trade V options (this, log) = (Throw validationError, (this, log)))
  /\
  (oneAmount options = true ->
   exists rest,
     calls (snd (run (trade V options) this)) =
       (if initialized this
        then MarketMaker_getQuote (fromToken options) (toToken options)
               (fromAmount options) (toAmount options)
        else MarketMaker_initialize) :: rest).
Proof.
  split; intros H.
  - unfold oneAmount in H. unfold trade.
    destruct (Js.defined (fromAmount options)),
             (Js.defined (toAmount options)); try discriminate H;
      reflexivity.
  - rewrite trade_run. unfold tradeRun, routeAndSettle, calls. rewrite H.
    cbn [negb]. destruct (initialized this).
    + destruct (selectPlatform _ _ _ _);
        [destruct (settle _ _ _ _ _ _)|]; cbn [snd app quoteCalls];
        eexists; reflexivity.
    + destruct (mm_initialize V); [|eexists; reflexivity].
      destruct (cca_initialize V); [|eexists; reflexivity].
      destruct (selectPlatform _ _ _ _);
        [destruct (settle _ _ _ _ _ _)|]; cbn [snd app];
        eexists; reflexivity.
Qed.

(** C5. Let the router select [selected] and let the execution on its
    venue fail with [error].  Then an execution on the alternate venue is
    attempted exactly when the strategy is [BEST_PRICE],
    [CROSS_CHAIN_ACCESS_FIRST] or [MARKET_MAKER_FIRST] and the alternate
    option is available.  If that second execution fails too, [trade]
    throws an [AllPlatformsFailedException] whose message spells out both
    errors; if there is no second execution, and in particular under the
    two venue-only strategies, [trade] throws a [TradingException] that
    wraps the first error. *)
Theorem trade_fallback
  (V : Venues) (options : TradeOptions) (this : TradingClient)
  (selected : PlatformOption) (error : Js.error) :
  let cca := crossChainAccessOptionOf V options in
  let mm := marketMakerOptionOf V options in
  let strategy := strategyOf this options in
  let alternate := other (platform selected) in
  let alternateOption :=
    match alternate with cross_chain_access => cca | market_maker => mm end in
  let attempted :=
    existsb (isExecutionOn alternate)
      (calls (snd (run (trade V options) this))) in
  let result := fst (run (trade V options) this) in
  oneAmount options = true ->
  initializes V this = true ->
  selectPlatform cca mm strategy (Js.defined (fromAmount options))
    = Ok selected ->
  executionAnswer V options (platform selected) = Throw error ->
  (attempted = true <->
   (strategy = BEST_PRICE \/ strategy = CROSS_CHAIN_ACCESS_FIRST
    \/ strategy = MARKET_MAKER_FIRST)
   /\ available alternateOption = true)
  /\
  (attempted = true ->
   forall fallbackError,
     executionAnswer V options alternate = Throw fallbackError ->
     result = Throw (allPlatformsFailed (platform selected) error
                       fallbackError)
     /\ Js.cls (allPlatformsFailed (platform selected) error fallbackError)
        = Js.AllPlatformsFailedException
     /\ Js.includes (Js.toString error)
          (Js.message (allPlatformsFailed (platform selected) error
                         fallbackError)) = true
     /\ Js.includes (Js.toString fallbackError)
          (Js.message (allPlatformsFailed (platform selected) error
                         fallbackError)) = true)
  /\
  (attempted = false ->
   result = Throw (Js.new Js.TradingException
                     ("Trade failed: " ++ Js.toString error)))
  /\
  (strategy = CROSS_CHAIN_ACCESS_ONLY \/ strategy = MARKET_MAKER_ONLY ->
   attempted = false).
Proof.
  intros cca mm strategy alternate alternateOption attempted result
    Hone Hinit Hsel Hexec.
  assert (Hallows : allowsFallback strategy = true <->
            strategy = BEST_PRICE \/ strategy = CROSS_CHAIN_ACCESS_FIRST
            \/ strategy = MARKET_MAKER_FIRST).
  { unfold allowsFallback. rewrite !orb_true_iff, !String.eqb_eq. tauto. }
  assert (Hatt : attempted = allowsFallback strategy
                             && available alternateOption
                 /\ result =
                    if allowsFallback strategy && available alternateOption
                    then match executionAnswer V options alternate with
                         | Ok r => Ok r
                         | Throw fallbackError =>
                             Throw (allPlatformsFailed (platform selected)
                                      error fallbackError)
                         end
                    else Throw (tradeFailed error)).
  { subst attempted result. rewrite trade_run.
    destruct (tradeRun_routed V options this Hone Hinit)
      as (before & executions & Hlog & Hbefore & Hrun).
    fold cca mm strategy in Hrun, Hlog. rewrite Hsel in Hrun.
    rewrite Hlog. unfold calls. cbn [snd].
    rewrite !existsb_app, (existsb_isExecutionOn_weaken _ _ Hbefore),
      (existsb_isExecutionOn_weaken _ _ (quoteCalls_not_executions options)).
    cbn [existsb isExecutionOn orb].
    unfold settle in Hrun. rewrite Hexec in Hrun.
    fold alternate in Hrun.
    replace (match platform selected with
             | cross_chain_access => mm
             | market_maker => cca
             end) with alternateOption in Hrun
      by (subst alternateOption alternate; destruct (platform selected);
          reflexivity).
    destruct (allowsFallback strategy && available alternateOption);
      injection Hrun as -> ->; cbn [existsb fst];
      rewrite !isExecutionOn_executionCall; subst alternate;
      destruct (platform selected); split; reflexivity. }
  destruct Hatt as [-> ->].
  split; [|split; [|split]].
  - rewrite andb_true_iff, Hallows. reflexivity.
  - intros Hyes fallbackError Hfallback. rewrite Hyes, Hfallback.
    split; [reflexivity|]. split; [reflexivity|].
    apply allPlatformsFailed_carries.
  - intros ->. reflexivity.
  - intros [H|H]; rewrite H; reflexivity.
Qed.





(** C8. Whatever the two quote requests answer, both are made (the
    Cross-Chain Access one when a symbol is given) and the router is called
    on the pair of options they yield.  A quote that throws yields an
    option with [available = false], no quote and the reason recorded (the
    text of the error; ["Market closed"] for a [MarketClosedException]);
    a quote that answers yields an available option holding it.  So a
    failure on one side leaves the other side's option as it is. *)
Theorem quote_failures_are_isolated
  (V : Venues) (options : TradeOptions) (this : TradingClient) :
  let log := calls (snd (run (trade V options) this)) in
  let ccaOption := crossChainAccessOptionOf V options in
  let mmOption := marketMakerOptionOf V options in
  oneAmount options = true ->
  initializes V this = true ->
  In (MarketMaker_getQuote (fromToken options) (toToken options)
        (fromAmount options) (toAmount options)) log
  /\ (forall symbol,
        toTokenSymbol options = Some symbol -> symbol <> "" ->
        In (CrossChainAccess_getQuote symbol) log)
  /\ In (Router_selectPlatform ccaOption mmOption (strategyOf this options)
           (Js.defined (fromAmount options))) log
  /\ (forall e,
        mm_getQuote V (fromToken options) (toToken options)
          (fromAmount options) (toAmount options) = Throw e ->
        mmOption = {| platform := market_maker; quote := None;
                      available := false;
                      error := Some (Js.toString e) |})
  /\ (forall q,
        mm_getQuote V (fromToken options) (toToken options)
          (fromAmount options) (toAmount options) = Ok q ->
        mmOption = {| platform := market_maker; quote := Some q;
                      available := true; error := None |})
  /\ (forall symbol e,
        toTokenSymbol options = Some symbol -> symbol <> "" ->
        cca_getQuote V symbol = Throw e ->
        ccaOption = {| platform := cross_chain_access; quote := None;
                       available := false;
                       error := Some
                         (if Js.instanceof e Js.MarketClosedException
                          then "Market closed" else Js.toString e) |})
  /\ (forall symbol q,
        toTokenSymbol options = Some symbol -> symbol <> "" ->
        cca_getQuote V symbol = Ok q ->
        ccaOption = {| platform := cross_chain_access; quote := Some q;
                       available := true; error := None |}).
Proof.
  intros log ccaOption mmOption Hone Hinit. subst log.
  rewrite trade_run.
  destruct (tradeRun_routed V options this Hone Hinit)
    as (before & executions & -> & _ & _).
  unfold calls. cbn [snd]. fold ccaOption mmOption.
  split; [|split; [|split; [|split; [|split; [|split]]]]].
  - rewrite !in_app_iff. right. left. left. reflexivity.
  - intros symbol Hsym Hne. rewrite !in_app_iff. right. left.
    unfold quoteCalls. rewrite Hsym.
    apply String.eqb_neq in Hne. rewrite Hne. right. left. reflexivity.
  - rewrite !in_app_iff. right. right. left. reflexivity.
  - intros e He. subst mmOption. unfold marketMakerOptionOf.
    rewrite He. reflexivity.
  - intros q Hq. subst mmOption. unfold marketMakerOptionOf.
    rewrite Hq. reflexivity.
  - intros symbol e Hsym Hne He. subst ccaOption.
    unfold crossChainAccessOptionOf. rewrite Hsym.
    apply String.eqb_neq in Hne. rewrite Hne, He. reflexivity.
  - intros symbol q Hsym Hne Hq. subst ccaOption.
    unfold crossChainAccessOptionOf. rewrite Hsym.
    apply String.eqb_neq in Hne. rewrite Hne, Hq. reflexivity.
Qed.


End TradingFacts.

(* ================================================================== *)
(** * The Market Maker venue: properties of [MarketMakerClient] *)
(* ================================================================== *)

Module MarketMakerFacts.
Import MarketMaker.

Ltac unfold_client :=
  unfold run, trade, getQuote, rpq_getQuote, requestQuote, getBestOffers,
    initialize, bind, try_catch, call, lift, get, put, ret, throw, calls in *;
  cbn [fst snd app] in *.

Section Trade.
Variable rt : Runtime.
Variable S : Services.
Variable this : MarketMakerClient.
Variables fromToken toToken : string.
Variables fromAmount toAmount : option Js.number.
Variable affiliate : option string.
Variable offer : SelectedOffer.
Variable amount : Z.
Hypothesis Hselects :
  selects rt S this fromToken toToken fromAmount toAmount offer.
Hypothesis Hamount : BigInt rt (withdrawalAmountPaid offer) = Ok amount.

(** Runs [trade] up to the pricing branch on [offer]. *)
Ltac reach_branch :=
  destruct Hselects
    as (Hinit & Hone & api & r & rest & Hbest & Hres & Hoffers);
  unfold bestOffersQuery in Hbest;
  destruct this as [n pk ak [|]]; unfold_client;
  cbn [fst snd initialized negb privateKey network] in *;
  [|destruct Hinit as [Hinit|Hinit]; [discriminate Hinit|];
    rewrite Hinit; cbn [fst snd app initialized negb network]];
  (destruct (Js.truthy_string (amountText rt fromAmount)),
            (Js.truthy_string (amountText rt toAmount));
   try discriminate Hone; cbn [andb negb fst snd]);
  rewrite Hbest;
  rewrite Hres, Hoffers; cbn [selectedOffers result];
  rewrite Hamount.

(** C7. Let the RPQ service select [offer] first and let its amount be a
    valid integer.  If the offer is dynamic and carries no
    [depositToWithdrawalRate] (the field is missing or empty), [trade]
    throws a [MarketMakerWeb3Exception] and submits no transaction.  If it
    is dynamic with a rate, the one transaction submitted is
    [takeOfferDynamic(id, fromToken, amount, maxRate, affiliate)].  For any
    other pricing type the one transaction submitted is
    [takeOfferFixed(id, fromToken, amount, affiliate)]. *)
Theorem trade_pricing_branch :
  let r := run (trade rt S fromToken toToken fromAmount toAmount affiliate)
             this in
  (pricingType offer = DYNAMIC_PRICING ->
   Js.truthy_string (depositToWithdrawalRate offer) = false ->
   (exists e, fst r = Throw e /\ Js.cls e = Js.MarketMakerWeb3Exception)
   /\ existsb isTransaction (calls (snd r)) = false)
  /\
  (pricingType offer = DYNAMIC_PRICING ->
   forall rate maxRate,
     depositToWithdrawalRate offer = Some rate -> rate <> "" ->
     BigInt rt rate = Ok maxRate ->
     filter isTransaction (calls (snd r))
     = [Web3_takeOfferDynamic (id offer) fromToken amount maxRate
          affiliate])
  /\
  (pricingType offer <> DYNAMIC_PRICING ->
   filter isTransaction (calls (snd r))
   = [Web3_takeOfferFixed (id offer) fromToken amount affiliate]).
Proof.
  intros r. subst r. split; [|split].
  - intros Hdyn Hrate. reach_branch.
    all: rewrite Hdyn; cbn; rewrite Hrate; cbn.
    all: split; [eexists; split; reflexivity|reflexivity].
  - intros Hdyn rate maxRate Hrate Hne Hmax. reach_branch.
    all: rewrite Hdyn, Hrate; cbn [Js.truthy_string Js.template].
    all: apply String.eqb_neq in Hne; rewrite Hne; cbn; rewrite Hmax; cbn.
    all: destruct (takeOfferDynamic _ _ _ _ _ _); cbn; try reflexivity.
    all: match goal with |- context [if ?b then _ else _] => destruct b end;
      reflexivity.
  - intros Hfix. reach_branch.
    all: apply String.eqb_neq in Hfix; rewrite Hfix; cbn.
    all: destruct (takeOfferFixed _ _ _ _ _); cbn; try reflexivity.
    all: match goal with |- context [if ?b then _ else _] => destruct b end;
      reflexivity.
Qed.

End Trade.

(** Case analysis on the next thing a run in hypothesis [H] waits for,
    dropping the branches that throw. *)
Ltac invert_run H :=
  repeat match type of H with
         | context [match ?x with _ => _ end] =>
             lazymatch x with
             | context [match _ with _ => _ end] => fail
             | _ => destruct x eqn:?; cbn [fst snd] in H;
                    try discriminate H
             end
         end.

Section Results.
Variable rt : Runtime.
Variable S : Services.
Variable this : MarketMakerClient.

(** A quote of the Market Maker venue carries [buyAmount / sellAmount] as
    its rate when [sellAmount > 0], and [0] otherwise. *)
Lemma getQuote_rate fromToken toToken fromAmount toAmount q w :
  run (getQuote rt S fromToken toToken fromAmount toAmount) this = (Ok q, w) ->
  rate q = if Js.gtb (sellAmount q) 0%float
           then (buyAmount q / sellAmount q)%float else 0%float.
Proof.
  intros H. unfold_client. invert_run H.
  all: injection H as <- _; cbn [rate sellAmount buyAmount].
  all: repeat match goal with
              | Hb : ?b = _ |- context [if ?b then _ else _] => rewrite Hb
              end; reflexivity.
Qed.

(** A trade of the Market Maker venue reports the offer's price as its
    rate, and [sellAmount / rate] as the amount bought. *)
Lemma trade_rate fromToken toToken fromAmount toAmount affiliate r w :
  run (trade rt S fromToken toToken fromAmount toAmount affiliate) this
  = (Ok r, w) ->
  TradeResult.buyAmount r
  = if Js.gtb (TradeResult.rate r) 0%float
    then (TradeResult.sellAmount r / TradeResult.rate r)%float
    else 0%float.
Proof.
  intros H. unfold_client. invert_run H.
  all: injection H as <- _;
    cbn [createTradeResult TradeResult.rate TradeResult.sellAmount
           TradeResult.buyAmount].
  all: repeat match goal with
              | Hb : ?b = _ |- context [if ?b then _ else _] => rewrite Hb
              end; reflexivity.
Qed.

(** A trade of the Market Maker venue is settled on the first offer that
    the RPQ service selects: the rate it reports is that offer's
    [pricePerUnit], and the amount bought is [sellAmount / rate]. *)
Lemma trade_price fromToken toToken fromAmount toAmount affiliate r w :
  run (trade rt S fromToken toToken fromAmount toAmount affiliate) this
  = (Ok r, w) ->
  exists apiResponse resultData offer rest,
    get_best S
      (bestOffersQuery rt this fromToken toToken fromAmount toAmount)
    = Ok apiResponse
    /\ api_result apiResponse = Some resultData
    /\ api_selectedOffers resultData = Some (offer :: rest)
    /\ TradeResult.rate r = parseFloat rt (pricePerUnit offer)
    /\ TradeResult.buyAmount r
       = if Js.gtb (TradeResult.rate r) 0%float
         then (TradeResult.sellAmount r / TradeResult.rate r)%float
         else 0%float.
Proof.
  intros H. unfold bestOffersQuery. unfold_client. invert_run H.
  all: injection H as <- _;
    cbn [createTradeResult TradeResult.rate TradeResult.sellAmount
           TradeResult.buyAmount].
  all: cbn [selectedOffers result network] in *; subst.
  all: do 4 eexists.
  all: (split; [first [reflexivity|eassumption]|]); (split; [eassumption|]);
    (split; [eassumption|]); (split; [reflexivity|]).
  all: repeat match goal with
              | Hb : ?b = _ |- context [if ?b then _ else _] => rewrite Hb
              end; reflexivity.
Qed.

End Results.
End MarketMakerFacts.

(* ================================================================== *)
(** * The Cross-Chain Access venue: properties of [CrossChainAccessClient] *)
(* ================================================================== *)

Module CrossChainAccessFacts.
Import CrossChainAccess.

Ltac unfold_monad :=
  unfold bind, try_catch, call, lift, get, put, ret, throw in *;
  cbn [fst snd] in *.

Lemma bind_run {St C A B} (m : M St C A) (k : A -> M St C B) w r w1 :
  m w = (r, w1) ->
  bind m k w = match r with
               | Ok a => k a w1
               | Throw e => (Throw e, w1)
               end.
Proof. unfold bind. intros ->. reflexivity. Qed.

Lemma bind_get {St C B} (k : St -> M St C B) w :
  bind get k w = k (fst w) w.
Proof. reflexivity. Qed.

Lemma quiet_app (l1 l2 : list Call) :
  quiet (l1 ++ l2) = quiet l1 && quiet l2.
Proof. unfold quiet. rewrite existsb_app, negb_orb. reflexivity. Qed.

Section Steps.
Variable rt : Runtime.
Variable S : Services.

Lemma authenticate_steps :
  steps (authenticate S) (fun _ _ _ => True).
Proof.
  intros this log. unfold authenticate. unfold_monad.
  destruct (auth_verify S (privateKey this));
    do 3 eexists; repeat split; reflexivity.
Qed.

Lemma loadTopupAddress_steps :
  steps (loadTopupAddress S)
    (fun this _ this' => authToken this' = authToken this).
Proof.
  intros this log. unfold loadTopupAddress. unfold_monad.
  destruct (Js.truthy_string (topupAddress this)); cbn [negb].
  - exists (Ok tt), this, []. rewrite app_nil_r. repeat split.
  - destruct (config_topupAddress S);
      do 3 eexists; repeat split; reflexivity.
Qed.

Lemma initialize_steps :
  steps (initialize S) (fun _ _ _ => True).
Proof.
  intros this log. unfold initialize.
  rewrite bind_get. cbn [fst].
  destruct (initialized this); cbn [negb].
  - exists (Ok tt), this, []. rewrite app_nil_r. repeat split.
  - destruct (authenticate_steps this log) as (r1 & this1 & l1 & E1 & Q1 & _).
    rewrite (bind_run _ _ _ _ _ E1).
    destruct r1 as [[]|e]; [|do 3 eexists; repeat split; eassumption].
    destruct (loadTopupAddress_steps this1 (log ++ l1)%list)
      as (r2 & this2 & l2 & E2 & Q2 & _).
    rewrite (bind_run _ _ _ _ _ E2). rewrite <- app_assoc in *.
    destruct r2 as [[]|e];
      [|exists (Throw e), this2, (l1 ++ l2)%list; rewrite quiet_app, Q1, Q2;
        repeat split].
    unfold_monad.
    exists (Ok tt), (set_initialized this2), (l1 ++ l2)%list.
    rewrite quiet_app, Q1, Q2. repeat split.
Qed.

Lemma getAccountStatus_steps :
  steps (getAccountStatus S)
    (fun this r this' =>
       this' = this
       /\ (forall status, r = Ok status ->
           Js.truthy_string (authToken this) = true)).
Proof.
  intros this log. unfold getAccountStatus. rewrite bind_get. cbn [fst].
  destruct (Js.truthy_string (authToken this)); cbn [negb]; unfold_monad.
  - do 3 eexists. repeat split; reflexivity.
  - exists (Throw (Js.newAPIException
              "Authentication token required for getting account status"
              401)), this, [].
    rewrite app_nil_r. repeat split. discriminate.
Qed.

Lemma getAccountFunds_steps :
  steps (getAccountFunds S) (fun this _ this' => this' = this).
Proof.
  intros this log. unfold getAccountFunds. rewrite bind_get. cbn [fst].
  destruct (Js.truthy_string (authToken this)); cbn [negb]; unfold_monad.
  - do 3 eexists. repeat split; reflexivity.
  - exists (Throw (Js.newAPIException
              "Authentication token required for getting account funds"
              401)), this, [].
    rewrite app_nil_r. repeat split.
Qed.

Lemma getAssetQuote_steps symbol :
  steps (getAssetQuote S symbol)
    (fun this r this' =>
       this' = this
       /\ (forall quote, r = Ok quote ->
           api_assetQuote S (Js.toUpperCase symbol) = Ok quote)).
Proof.
  intros this log. unfold getAssetQuote. unfold_monad.
  destruct (api_assetQuote S (Js.toUpperCase symbol)) as [quote|e].
  - do 3 eexists. repeat split; try reflexivity. intros q [= ->]. reflexivity.
  - repeat match goal with
           | |- context [if ?b then _ else _] => destruct b
           end;
      do 3 eexists; repeat split; try reflexivity; discriminate.
Qed.

Lemma ensure_initialized_steps (b : bool) :
  steps (if b then initialize S else ret tt) (fun _ _ _ => True).
Proof.
  destruct b; [apply initialize_steps|].
  intros t l. exists (Ok tt), t, []. rewrite app_nil_r. repeat split.
Qed.

Lemma createOrder_run wallet txHash assetAddress assetSymbol side price qty
  notional chain userEmail targetChainId this log :
  Js.truthy_string (authToken this) = true ->
  exists attributes r,
    createOrder S wallet txHash assetAddress assetSymbol side price qty
      notional chain userEmail targetChainId (this, log)
    = (r, (this, log ++ [Api_postOrders attributes])%list)
    /\ req_tx_hash attributes = txHash
    /\ match api_orders S attributes with
       | Ok _ => exists response, r = Ok response
       | Throw e => r = Throw (orderFailed e)
       end.
Proof.
  intros Hauth. unfold createOrder. rewrite bind_get. cbn [fst].
  rewrite Hauth. cbn [negb]. unfold_monad.
  match goal with
  | |- context [api_orders S ?a] => exists a; destruct (api_orders S a)
  end.
  - eexists. repeat split. eexists. reflexivity.
  - unfold orderFailed.
    destruct (Js.instanceof e Js.APIException);
      eexists; repeat split; reflexivity.
Qed.

Lemma checkTradingAvailability_steps :
  steps (checkTradingAvailability S)
    (fun _ r this' =>
       forall message, r = Ok (true, message) ->
       Js.truthy_string (authToken this') = true).
Proof.
  intros this log. unfold checkTradingAvailability.
  rewrite bind_get. cbn [fst].
  destruct (ensure_initialized_steps (negb (initialized this)) this log)
    as (r1 & this1 & l1 & E1 & Q1 & _).
  rewrite (bind_run _ _ _ _ _ E1).
  destruct r1 as [[]|e]; [|do 3 eexists; repeat split; try eassumption;
                           discriminate].
  destruct (isOpen (marketStatus S)); cbn [negb].
  2: { unfold ret. do 3 eexists. repeat split; try eassumption.
       discriminate. }
  unfold try_catch.
  destruct (getAccountStatus_steps this1 (log ++ l1)%list)
    as (r2 & this2 & l2 & E2 & Q2 & -> & Hauth).
  rewrite (bind_run _ _ _ _ _ E2). rewrite <- app_assoc.
  destruct r2 as [status|e].
  - destruct (isTradingAllowed status); cbn [negb]; unfold ret.
    all: do 3 eexists; (split; [reflexivity|]);
      rewrite quiet_app, Q1, Q2; split; [reflexivity|].
    + intros _ _. apply (Hauth status eq_refl).
    + discriminate.
  - unfold ret. do 3 eexists. split; [reflexivity|].
    rewrite quiet_app, Q1, Q2. split; [reflexivity|]. discriminate.
Qed.

(** Every run of [executeTrade] ends in one of the three ways. *)
Lemma executeTrade_ends rwaTokenAddress rwaSymbol rwaAmount usdcAmount
  orderSide userEmail targetChainId this log :
  exists r this' l,
    executeTrade rt S rwaTokenAddress rwaSymbol rwaAmount usdcAmount
      orderSide userEmail targetChainId (this, log)
    = (r, (this', log ++ l)%list)
    /\ endsAs S rwaSymbol orderSide r l.
Proof.
  unfold executeTrade. rewrite bind_get. cbn [fst].
  destruct (ensure_initialized_steps (negb (initialized this)) this log)
    as (r1 & this1 & l1 & E1 & Q1 & _).
  rewrite (bind_run _ _ _ _ _ E1).
  destruct r1 as [[]|e].
  2: { do 3 eexists. split; [reflexivity|]. left. eauto. }
  destruct (checkTradingAvailability_steps this1 (log ++ l1)%list)
    as (r2 & this2 & l2 & E2 & Q2 & Hauth).
  rewrite (bind_run _ _ _ _ _ E2). rewrite <- app_assoc.
  assert (Q12 : quiet (l1 ++ l2) = true) by (rewrite quiet_app, Q1, Q2;
                                             reflexivity).
  clear E1 E2 Q1 Q2. revert Q12. generalize (l1 ++ l2)%list. clear l1 l2.
  intros l2 Q2.
  destruct r2 as [[isAvailable message]|e].
  2: { do 3 eexists. split; [reflexivity|]. left. eauto. }
  destruct isAvailable; cbn [negb].
  2: { destruct (_ || _); unfold throw; do 3 eexists;
         (split; [reflexivity|]); left; eauto. }
  specialize (Hauth message eq_refl).
  destruct (getAssetQuote_steps rwaSymbol this2 (log ++ l2)%list)
    as (r3 & this3 & l3 & E3 & Q3 & -> & Hquote).
  rewrite (bind_run _ _ _ _ _ E3). rewrite <- app_assoc.
  assert (Q23 : quiet (l2 ++ l3) = true) by (rewrite quiet_app, Q2, Q3;
                                             reflexivity).
  clear E3 Q2 Q3. revert Q23. generalize (l2 ++ l3)%list. clear l2 l3.
  intros l3 Q3.
  destruct r3 as [quote|e].
  2: { do 3 eexists. split; [reflexivity|]. left. eauto. }
  specialize (Hquote quote eq_refl).
  (* the amounts *)
  assert (Hamounts :
    exists amounts : outcome (Js.number * Js.number),
      match orderSide with
      | BUY | _ =>
          match rwaAmount with
          | Some rwaAmount0 =>
              ret (rwaAmount0,
                   (rwaAmount0 * getPriceForSide quote orderSide)%float)
          | None =>
              match usdcAmount with
              | Some usdcAmount0 =>
                  ret ((usdcAmount0 / getPriceForSide quote orderSide)%float,
                       usdcAmount0)
              | None => throw undefinedAmount
              end
          end
      end (this2, (log ++ l3)%list) = (amounts, (this2, (log ++ l3)%list))).
  { destruct orderSide, rwaAmount, usdcAmount; eexists; reflexivity. }
  destruct Hamounts as (amounts & E4).
  rewrite (bind_run _ _ _ _ _ E4). clear E4.
  destruct amounts as [[finalRwa finalUsdc]|e].
  2: { do 3 eexists. split; [reflexivity|]. left. eauto. }
  (* the funds or balance check *)
  lazymatch goal with
  | |- context [bind ?m _ (this2, (log ++ l3)%list)] =>
      assert (Hcheck : steps m (fun this _ this' => this' = this))
  end.
  { intros t lg. destruct orderSide.
    - destruct (getAccountFunds_steps t lg) as (rf & tf & lf & Ef & Qf & ->).
      rewrite (bind_run _ _ _ _ _ Ef).
      destruct rf as [funds|e]; [|do 3 eexists; repeat split; eassumption].
      destruct (hasSufficientFunds funds _); cbn [negb]; unfold_monad;
        do 3 eexists; repeat split; eassumption.
    - unfold_monad. destruct (web3_balance S rwaTokenAddress) as [balance|e];
        [destruct (PrimFloat.ltb balance _)|];
        do 3 eexists; repeat split; reflexivity. }
  destruct (Hcheck this2 (log ++ l3)%list)
    as (r5 & this5 & l5 & E5 & Q5 & ->).
  rewrite (bind_run _ _ _ _ _ E5). rewrite <- app_assoc.
  assert (Q35 : quiet (l3 ++ l5) = true) by (rewrite quiet_app, Q3, Q5;
                                             reflexivity).
  clear Hcheck E5 Q3 Q5. revert Q35. generalize (l3 ++ l5)%list. clear l3 l5.
  intros l5 Q5.
  destruct r5 as [[transferToken transferAmount]|e].
  2: { do 3 eexists. split; [reflexivity|]. left. eauto. }
  (* the escrow address *)
  rewrite bind_get. cbn [fst].
  assert (Hload : steps (if negb (Js.truthy_string (topupAddress this2))
                         then loadTopupAddress S else ret tt)
                    (fun this _ this' => authToken this' = authToken this)).
  { destruct (negb _); [apply loadTopupAddress_steps|].
    intros t lg. exists (Ok tt), t, []. rewrite app_nil_r. repeat split. }
  destruct (Hload this2 (log ++ l5)%list)
    as (r6 & this6 & l6 & E6 & Q6 & Hsame).
  rewrite (bind_run _ _ _ _ _ E6). rewrite <- app_assoc.
  assert (Q56 : quiet (l5 ++ l6) = true) by (rewrite quiet_app, Q5, Q6;
                                             reflexivity).
  rewrite <- Hsame in Hauth.
  clear Hload E6 Q5 Q6 Hsame. revert Q56. generalize (l5 ++ l6)%list.
  clear l5 l6. intros l6 Q6.
  destruct r6 as [[]|e].
  2: { do 3 eexists. split; [reflexivity|]. left. eauto. }
  (* the transfer *)
  rewrite bind_get. cbn [fst].
  unfold bind at 1, call at 1. cbn [fst snd].
  destruct (web3_transfer S (topupAddress this6) transferToken
              transferAmount) as [h|e] eqn:Etransfer.
  2: { do 3 eexists. rewrite <- app_assoc. split; [reflexivity|].
       right. left. do 5 eexists. eauto. }
  (* the order *)
  destruct (createOrder_run (address this6) h rwaTokenAddress rwaSymbol
              orderSide (getPriceForSide quote orderSide)
              (toFixed rt finalRwa RWA_DECIMALS)
              (toFixed rt finalUsdc USDC_DECIMALS)
              (chainId (network this6)) userEmail targetChainId this6
              ((log ++ l6) ++ [Web3_transferToken (topupAddress this6)
                                 transferToken transferAmount])%list Hauth)
    as (attributes & r7 & E7 & Hhash & Horder).
  rewrite (bind_run _ _ _ _ _ E7). rewrite <- !app_assoc. cbn [app].
  destruct (api_orders S attributes) as [d|e] eqn:Eorder.
  - destruct Horder as (response & ->). unfold ret.
    do 3 eexists. split; [reflexivity|]. right. right.
    exists l6, (topupAddress this6), transferToken, transferAmount, h,
      attributes, quote.
    rewrite Eorder. repeat split; try assumption.
    eexists. repeat split.
  - subst r7. do 3 eexists. split; [reflexivity|]. right. right.
    exists l6, (topupAddress this6), transferToken, transferAmount, h,
      attributes, quote.
    rewrite Eorder. repeat split; assumption.
Qed.

Lemma quiet_In (l : list Call) (c : Call) :
  quiet l = true -> In c l -> isTransfer c = false /\ isOrder c = false.
Proof.
  unfold quiet. intros Hq Hin. apply negb_true_iff in Hq.
  apply orb_false_iff.
  destruct (isTransfer c || isOrder c) eqn:E; [|reflexivity].
  assert (existsb (fun c => isTransfer c || isOrder c) l = true)
    by (apply existsb_exists; eauto).
  congruence.
Qed.

Lemma quiet_filter (l : list Call) :
  quiet l = true -> filter isTransfer l = [] /\ filter isOrder l = [].
Proof.
  induction l as [|c l IH]; [split; reflexivity|].
  unfold quiet in *. cbn [existsb filter]. rewrite negb_orb.
  intros H. apply andb_true_iff in H as [Hc Hl].
  apply negb_true_iff, orb_false_iff in Hc as [-> ->].
  exact (IH Hl).
Qed.

(** A trade that succeeds reports the quoted price of its side as its
    rate: the ask for a buy, the bid for a sell. *)
Lemma executeTrade_rate rwaTokenAddress rwaSymbol rwaAmount usdcAmount
  orderSide userEmail targetChainId this r w :
  run (executeTrade rt S rwaTokenAddress rwaSymbol rwaAmount usdcAmount
         orderSide userEmail targetChainId) this = (Ok r, w) ->
  exists quote,
    api_assetQuote S (Js.toUpperCase rwaSymbol) = Ok quote
    /\ TradeResult.rate r = getPriceForSide quote orderSide.
Proof.
  unfold run. intros H.
  destruct (executeTrade_ends rwaTokenAddress rwaSymbol rwaAmount usdcAmount
              orderSide userEmail targetChainId this [])
    as (r' & this' & l & E & Hends).
  rewrite E in H. injection H as -> _.
  destruct Hends as [(_ & e & He)|[(l1 & t & tok & a & e & _ & _ & _ & He)|
    (l1 & t & tok & a & h & attributes & quote & _ & _ & _ & _ & Hq & Ho)]];
    try discriminate He.
  exists quote. split; [exact Hq|].
  destruct (api_orders S attributes); [|discriminate Ho].
  destruct Ho as (result & [= <-] & Hrate & _). exact Hrate.
Qed.

(** A quote of the venue is for one USDC: it buys [1 / askPrice] and
    carries the ask price as its rate. *)
Lemma getQuote_ask rwaSymbol this q w :
  run (getQuote rt S rwaSymbol) this = (Ok q, w) ->
  exists quote,
    api_assetQuote S (Js.toUpperCase rwaSymbol) = Ok quote
    /\ sellAmount q = 1%float
    /\ buyAmount q = (1 / askPrice quote)%float
    /\ rate q = askPrice quote.
Proof.
  unfold run, getQuote. intros H.
  destruct (getAssetQuote_steps rwaSymbol this [])
    as (r1 & this1 & l1 & E1 & _ & -> & Hquote).
  rewrite (bind_run _ _ _ _ _ E1) in H.
  destruct r1 as [quote|e]; [|discriminate H].
  unfold_monad. injection H as <- _.
  exists quote. repeat split. exact (Hquote quote eq_refl).
Qed.

(** C2, as the code has it.  When the transfer to the escrow address is
    confirmed with hash [h] and the order request then fails with [e],
    [executeTrade] throws the [OrderFailedException] of [createOrder]: its
    message is "Order creation failed: " followed by the text of [e], and
    it has no [txHash] property, so the hash reaches the caller only if the
    service put it in [e].  The hash was sent in the order request; the
    transfer is made once and not repeated. *)
Theorem executeTrade_order_failure rwaTokenAddress rwaSymbol rwaAmount
  usdcAmount orderSide userEmail targetChainId this r w
  toAddress token amount h e :
  run (executeTrade rt S rwaTokenAddress rwaSymbol rwaAmount usdcAmount
         orderSide userEmail targetChainId) this = (r, w) ->
  In (Web3_transferToken toAddress token amount) (calls w) ->
  web3_transfer S toAddress token amount = Ok h ->
  (forall attributes,
     In (Api_postOrders attributes) (calls w) ->
     api_orders S attributes = Throw e) ->
  r = Throw (orderFailed e)
  /\ Js.cls (orderFailed e) = Js.OrderFailedException
  /\ Js.txHash (orderFailed e) = None
  /\ Js.message (orderFailed e)
     = "Order creation failed: "
         ++ (if Js.instanceof e Js.APIException
             then Js.message e else Js.toString e)
  /\ filter isTransfer (calls w)
     = [Web3_transferToken toAddress token amount]
  /\ exists attributes,
       filter isOrder (calls w) = [Api_postOrders attributes]
       /\ req_tx_hash attributes = h.
Proof.
  unfold run, calls. intros H Hin Hok Hfail.
  destruct (executeTrade_ends rwaTokenAddress rwaSymbol rwaAmount usdcAmount
              orderSide userEmail targetChainId this [])
    as (r' & this' & l & E & Hends).
  rewrite E in H. injection H as -> <-. cbn [snd app] in *.
  destruct Hends as [(Hq & _)|[(l1 & t & tok & a & e' & -> & Hq & Hthrow & _)|
    (l1 & t & tok & a & h' & attributes & quote
       & -> & Hq & Hh & Hhash & _ & Ho)]].
  - destruct (quiet_In _ _ Hq Hin) as [Habs _]. discriminate Habs.
  - apply in_app_or in Hin as [Hin|[Hin|[]]].
    + destruct (quiet_In _ _ Hq Hin) as [Habs _]. discriminate Habs.
    + injection Hin as -> -> ->. congruence.
  - apply in_app_or in Hin as [Hin|[Hin|[Hin|[]]]].
    + destruct (quiet_In _ _ Hq Hin) as [Habs _]. discriminate Habs.
    + injection Hin as -> -> ->.
      rewrite Hfail in Ho
        by (apply in_or_app; right; right; left; reflexivity).
      rewrite Hok in Hh. injection Hh as <-.
      destruct (quiet_filter _ Hq) as [Ht Hord].
      repeat split; try assumption.
      * rewrite filter_app, Ht. reflexivity.
      * exists attributes. rewrite filter_app, Hord. split; [reflexivity|].
        exact Hhash.
    + discriminate Hin.
Qed.

End Steps.
End CrossChainAccessFacts.

(* ================================================================== *)
(** * The rate a venue reports *)
(* ================================================================== *)

Module RateFacts.

(** C1, as the code has it by design.  A quote of the Market Maker venue
    carries [buyAmount / sellAmount] as its rate when [sellAmount > 0] and
    [0] otherwise.  A successful trade reports the price it was executed
    at: on the Market Maker venue the rate is the [pricePerUnit] of the
    first offer that the RPQ service selected, and the amount bought is
    [sellAmount / rate] ([0] when the rate is not positive); on the
    Cross-Chain Access venue the rate is the quoted price of the side, the
    ask for a buy and the bid for a sell.  Nothing is stated of the rate of
    a Cross-Chain Access quote, which the code sets to the ask price
    against the documentation of [Quote.rate]. *)
Theorem rate_reported (rt : Runtime) :
  (forall S this fromToken toToken fromAmount toAmount q w,
     MarketMaker.run
       (MarketMaker.getQuote rt S fromToken toToken fromAmount toAmount) this
     = (Ok q, w) ->
     rate q = if Js.gtb (sellAmount q) 0%float
              then (buyAmount q / sellAmount q)%float else 0%float)
  /\
  (forall S this fromToken toToken fromAmount toAmount affiliate r w,
     MarketMaker.run
       (MarketMaker.trade rt S fromToken toToken fromAmount toAmount
          affiliate) this
     = (Ok r, w) ->
     exists apiResponse resultData offer rest,
       MarketMaker.get_best S
         (MarketMaker.bestOffersQuery rt this fromToken toToken fromAmount
            toAmount)
       = Ok apiResponse
       /\ MarketMaker.api_result apiResponse = Some resultData
       /\ MarketMaker.api_selectedOffers resultData = Some (offer :: rest)
       /\ TradeResult.rate r
          = parseFloat rt (MarketMaker.pricePerUnit offer)
       /\ TradeResult.buyAmount r
          = if Js.gtb (TradeResult.rate r) 0%float
            then (TradeResult.sellAmount r / TradeResult.rate r)%float
            else 0%float)
  /\
  (forall S this rwaTokenAddress rwaSymbol rwaAmount usdcAmount orderSide
          userEmail targetChainId r w,
     CrossChainAccess.run
       (CrossChainAccess.executeTrade rt S rwaTokenAddress rwaSymbol
          rwaAmount usdcAmount orderSide userEmail targetChainId) this
     = (Ok r, w) ->
     exists quote,
       CrossChainAccess.api_assetQuote S (Js.toUpperCase rwaSymbol)
       = Ok quote
       /\ TradeResult.rate r
          = CrossChainAccess.getPriceForSide quote orderSide).
Proof.
  split; [|split]; intros.
  - eapply MarketMakerFacts.getQuote_rate; eassumption.
  - eapply MarketMakerFacts.trade_price; eassumption.
  - eapply CrossChainAccessFacts.executeTrade_rate; eassumption.
Qed.

End RateFacts.

(* ================================================================== *)
(** * The statements on the scenarios *)
(* ================================================================== *)

Module ScenarioFacts.
Import Scenario.
Local Open Scope float_scope.

(** ** Routing *)

(** A buy takes the lower rate, a sell the higher one, a tie the first
    venue. *)
Example best_price_buy :
  Routing.selectPlatform ccaOption mmOption Routing.BEST_PRICE true
  = Ok mmOption.
Proof. reflexivity. Qed.

Example best_price_sell :
  Routing.selectPlatform ccaOption mmOption Routing.BEST_PRICE false
  = Ok ccaOption.
Proof. reflexivity. Qed.

Example best_price_tie :
  Routing.selectPlatform ccaOption ccaOption Routing.BEST_PRICE true
  = Ok ccaOption.
Proof. reflexivity. Qed.

Example only_strategy_ignores_price :
  Routing.selectPlatform ccaOption mmDown Routing.MARKET_MAKER_ONLY true
  = Throw (Js.new Js.NoLiquidityException
             "Market Maker not available: RPQServiceException: down").
Proof. reflexivity. Qed.

Lemma selectPlatform_best_price_witness :
  Routing.usable ccaOption = true
  /\ Routing.usable mmOption = true
  /\ Routing.usable mmDown = false
  /\ Routing.selectPlatform ccaOption mmOption Routing.BEST_PRICE true
     = Ok mmOption
  /\ Routing.selectPlatform ccaOption mmDown Routing.BEST_PRICE true
     = Ok ccaOption.
Proof.
  do 3 (split; [reflexivity|]). split.
  - exact (proj2 (proj2 (RoutingFacts.selectPlatform_best_price
                           ccaOption mmOption true)) eq_refl eq_refl).
  - exact (proj1 (RoutingFacts.selectPlatform_best_price
                    ccaOption mmDown true) eq_refl eq_refl).
Defined.

(** ** Orchestration *)

Lemma trade_validates_amounts_witness :
  Trading.oneAmount both100 = false
  /\ Trading.trade failingVenues both100 (client, [])
     = (Throw Trading.validationError, (client, []))
  /\ Trading.oneAmount spend100 = true
  /\ exists rest,
       calls (snd (Trading.run (Trading.trade failingVenues spend100) client))
       = Trading.MarketMaker_initialize :: rest.
Proof.
  split; [reflexivity|]. split.
  - exact (proj1 (TradingFacts.trade_validates_amounts
                    failingVenues both100 client []) eq_refl).
  - split; [reflexivity|].
    exact (proj2 (TradingFacts.trade_validates_amounts
                    failingVenues spend100 client []) eq_refl).
Defined.

(** Best price sends the buy to the Market Maker; its transaction reverts;
    the fallback to Cross-Chain Access meets a closed market. *)
Lemma trade_fallback_witness :
  Trading.oneAmount spend100 = true
  /\ Trading.initializes failingVenues client = true
  /\ Routing.selectPlatform
       (Trading.crossChainAccessOptionOf failingVenues spend100)
       (Trading.marketMakerOptionOf failingVenues spend100)
       (Trading.strategyOf client spend100) true
     = Ok mmOption
  /\ Trading.executionAnswer failingVenues spend100 Routing.market_maker
     = Throw reverted
  /\ Trading.executionAnswer failingVenues spend100
       Routing.cross_chain_access
     = Throw closed
  /\ fst (Trading.run (Trading.trade failingVenues spend100) client)
     = Throw (Trading.allPlatformsFailed Routing.market_maker reverted
                closed).
Proof.
  do 5 (split; [reflexivity|]).
  destruct (TradingFacts.trade_fallback failingVenues spend100 client
              mmOption reverted eq_refl eq_refl eq_refl eq_refl)
    as (Hiff & Hboth & _).
  refine (proj1 (Hboth _ closed eq_refl)).
  apply Hiff. split; [left; reflexivity|reflexivity].
Defined.

Example all_platforms_failed_message :
  Js.message (Trading.allPlatformsFailed Routing.market_maker reverted closed)
  = "Primary (market_maker): MarketMakerWeb3Exception: Transaction reverted. Fallback (cross_chain_access): MarketClosedException: Market is closed".
Proof. reflexivity. Qed.

Lemma quote_failures_are_isolated_witness :
  Trading.oneAmount spend100 = true
  /\ Trading.initializes mmQuoteFails client = true
  /\ In (Trading.CrossChainAccess_getQuote "AAPL")
        (calls (snd (Trading.run (Trading.trade mmQuoteFails spend100)
                       client)))
  /\ In (Trading.Router_selectPlatform ccaOption
           {| Routing.platform := Routing.market_maker;
              Routing.quote := None;
              Routing.available := false;
              Routing.error := Some (Js.toString rpqDown) |}
           Routing.BEST_PRICE true)
        (calls (snd (Trading.run (Trading.trade mmQuoteFails spend100)
                       client))).
Proof.
  do 2 (split; [reflexivity|]).
  destruct (TradingFacts.quote_failures_are_isolated mmQuoteFails spend100
              client eq_refl eq_refl)
    as (_ & Hcca & Hrouted & _).
  split; [|exact Hrouted].
  apply (Hcca "AAPL" eq_refl). discriminate.
Defined.


(** ** Market Maker *)

Lemma rpq_selects (o : MarketMaker.SelectedOffer) :
  MarketMaker.selects runtime (rpq o) marketMaker "0xUSDC" "0xRWA"
    (Some 100) None o.
Proof.
  split; [right; reflexivity|]. split; [reflexivity|].
  do 3 eexists. split; [reflexivity|]. split; reflexivity.
Defined.

(** The three branches: a fixed offer, a dynamic offer with its maximum
    rate, and a dynamic offer without one. *)
Lemma trade_pricing_branch_witness :
  MarketMaker.selects runtime (rpq fixedOffer) marketMaker "0xUSDC" "0xRWA"
    (Some 100) None fixedOffer
  /\ BigInt runtime (MarketMaker.withdrawalAmountPaid fixedOffer)
     = Ok 2000000%Z
  /\ filter MarketMaker.isTransaction
       (calls (snd (MarketMaker.run
                      (MarketMaker.trade runtime (rpq fixedOffer)
                         "0xUSDC" "0xRWA" (Some 100) None None)
                      marketMaker)))
     = [MarketMaker.Web3_takeOfferFixed "42" "0xUSDC" 2000000 None]
  /\ filter MarketMaker.isTransaction
       (calls (snd (MarketMaker.run
                      (MarketMaker.trade runtime (rpq dynamicOffer)
                         "0xUSDC" "0xRWA" (Some 100) None None)
                      marketMaker)))
     = [MarketMaker.Web3_takeOfferDynamic "42" "0xUSDC" 2000000 3900000
          None]
  /\ existsb MarketMaker.isTransaction
       (calls (snd (MarketMaker.run
                      (MarketMaker.trade runtime (rpq dynamicOfferNoRate)
                         "0xUSDC" "0xRWA" (Some 100) None None)
                      marketMaker)))
     = false.
Proof.
  split; [exact (rpq_selects fixedOffer)|]. split; [reflexivity|].
  split; [|split].
  - refine (proj2 (proj2 (MarketMakerFacts.trade_pricing_branch runtime
                            (rpq fixedOffer) marketMaker "0xUSDC" "0xRWA"
                            (Some 100) None None fixedOffer 2000000
                            (rpq_selects fixedOffer) eq_refl)) _).
    discriminate.
  - refine (proj1 (proj2 (MarketMakerFacts.trade_pricing_branch runtime
                            (rpq dynamicOffer) marketMaker "0xUSDC" "0xRWA"
                            (Some 100) None None dynamicOffer 2000000
                            (rpq_selects dynamicOffer) eq_refl))
              eq_refl "3900000"%string 3900000%Z eq_refl _ eq_refl).
    discriminate.
  - exact (proj2 (proj1 (MarketMakerFacts.trade_pricing_branch runtime
                           (rpq dynamicOfferNoRate) marketMaker "0xUSDC"
                           "0xRWA" (Some 100) None None dynamicOfferNoRate
                           2000000 (rpq_selects dynamicOfferNoRate) eq_refl)
                    eq_refl eq_refl)).
Defined.

(** ** The rate *)

(** C1 fails on a Market Maker trade: paying 2 USDC at the price 4 buys 0.5
    token, and the result reports the price 4 as its rate, while
    [buyAmount / sellAmount] is 0.25.  It fails on a Cross-Chain Access
    quote as well: at the ask price 2 one USDC buys 0.5 share, and the
    quote reports 2 as its rate. *)
Lemma rate_is_not_buy_over_sell :
  match fst (MarketMaker.run
               (MarketMaker.trade runtime (rpq fixedOffer) "0xUSDC" "0xRWA"
                  (Some 100) None None) marketMaker) with
  | Ok r =>
      TradeResult.sellAmount r = 2
      /\ TradeResult.buyAmount r = 0.5
      /\ TradeResult.rate r = 4
      /\ buyOverSell (TradeResult.buyAmount r) (TradeResult.sellAmount r)
         = 0.25
      /\ rateIsBuyOverSell 1 (TradeResult.rate r) (TradeResult.buyAmount r)
           (TradeResult.sellAmount r) = false
  | Throw _ => False
  end
  /\
  match fst (CrossChainAccess.run
               (CrossChainAccess.getQuote runtime (bridge orderAccepted)
                  "AAPL") crossChainAccess) with
  | Ok q =>
      sellAmount q = 1 /\ buyAmount q = 0.5 /\ rate q = 2
      /\ buyOverSell (buyAmount q) (sellAmount q) = 0.5
      /\ rateIsBuyOverSell 1 (rate q) (buyAmount q) (sellAmount q) = false
  | Throw _ => False
  end.
Proof. vm_compute. repeat split. Qed.

(** A sell on the Cross-Chain Access venue reports the bid, which is
    [buyAmount / sellAmount]. *)
Example sell_reports_bid_price :
  match fst (CrossChainAccess.run
               (CrossChainAccess.sell runtime (bridge orderAccepted)
                  "0xRWA" "AAPL" "user@example.com" (Some 20) None None)
               crossChainAccess) with
  | Ok r =>
      TradeResult.sellAmount r = 20 /\ TradeResult.buyAmount r = 30
      /\ TradeResult.rate r = 1.5
      /\ rateIsBuyOverSell 0 (TradeResult.rate r) (TradeResult.buyAmount r)
           (TradeResult.sellAmount r) = true
  | Throw _ => False
  end.
Proof. vm_compute. repeat split. Qed.

Lemma rate_reported_witness :
  (exists q w,
     MarketMaker.run
       (MarketMaker.getQuote runtime (rpq fixedOffer) "0xUSDC" "0xRWA"
          (Some 100) None) marketMaker = (Ok q, w)
     /\ rate q = 40 / 100)
  /\ (exists r w,
        MarketMaker.run
          (MarketMaker.trade runtime (rpq fixedOffer) "0xUSDC" "0xRWA"
             (Some 100) None None) marketMaker = (Ok r, w)
        /\ TradeResult.rate r = 4
        /\ TradeResult.buyAmount r = 2 / 4)
  /\ (exists r w,
        CrossChainAccess.run
          (CrossChainAccess.executeTrade runtime (bridge orderAccepted)
             "0xRWA" "AAPL" None (Some 100) CrossChainAccess.BUY
             "user@example.com" None) crossChainAccess = (Ok r, w)
        /\ TradeResult.rate r = 2).
Proof.
  destruct (RateFacts.rate_reported runtime) as (Hquote & Htrade & Hbridge).
  split; [|split].
  - do 2 eexists. split; [vm_compute; reflexivity|].
    exact (Hquote (rpq fixedOffer) marketMaker "0xUSDC"%string
             "0xRWA"%string (Some 100) None _ _ eq_refl).
  - do 2 eexists. split; [vm_compute; reflexivity|].
    destruct (Htrade (rpq fixedOffer) marketMaker "0xUSDC"%string
                "0xRWA"%string (Some 100) None None _ _ eq_refl)
      as (apiResponse & resultData & o & rest & Hbest & Hresult & Hoffers
          & Hrate & Hbuy).
    split; [|exact Hbuy].
    refine (eq_trans Hrate _).
    cbv in Hbest. injection Hbest as <-.
    cbv in Hresult. injection Hresult as <-.
    cbv in Hoffers. injection Hoffers as <- _. reflexivity.
  - do 2 eexists. split; [vm_compute; reflexivity|].
    destruct (Hbridge (bridge orderAccepted) crossChainAccess
                "0xRWA"%string "AAPL"%string None (Some 100)
                CrossChainAccess.BUY "user@example.com"%string None _ _
                eq_refl) as (quote & Hq & Hrate).
    refine (eq_trans Hrate _). cbv in Hq. injection Hq as <-. reflexivity.
Defined.

(** ** Cross-Chain Access *)

(** C2 fails on a buy of 100 USDC: the transfer is confirmed with hash
    [0xabc123], the order request is answered with a server error, and the
    error that reaches the caller has the hash neither as a property nor
    in its message. *)
Lemma order_failure_loses_hash :
  match CrossChainAccess.run
          (CrossChainAccess.buy runtime (bridge (Throw serverError))
             "0xRWA" "AAPL" "user@example.com" None (Some 100) None)
          crossChainAccess with
  | (Throw e, w) =>
      filter CrossChainAccess.isTransfer (calls w)
      = [CrossChainAccess.Web3_transferToken (Some "0xEscrow"%string)
           "0xUSDC" 100]
      /\ CrossChainAccess.web3_transfer (bridge (Throw serverError))
           (Some "0xEscrow"%string) "0xUSDC" 100
         = Ok "0xabc123"%string
      /\ e = Js.new Js.OrderFailedException
               "Order creation failed: Internal server error (status: 500)"
      /\ CrossChainAccess.keepsHash e "0xabc123" = false
  | (Ok _, _) => False
  end.
Proof. vm_compute. repeat split. Qed.

Lemma executeTrade_order_failure_witness :
  let run :=
    CrossChainAccess.run
      (CrossChainAccess.executeTrade runtime (bridge (Throw serverError))
         "0xRWA" "AAPL" None (Some 100) CrossChainAccess.BUY
         "user@example.com" None) crossChainAccess in
  In (CrossChainAccess.Web3_transferToken (Some "0xEscrow"%string) "0xUSDC"
        100) (calls (snd run))
  /\ CrossChainAccess.web3_transfer (bridge (Throw serverError))
       (Some "0xEscrow"%string) "0xUSDC" 100 = Ok "0xabc123"%string
  /\ fst run = Throw (CrossChainAccess.orderFailed serverError)
  /\ filter CrossChainAccess.isTransfer (calls (snd run))
     = [CrossChainAccess.Web3_transferToken (Some "0xEscrow"%string)
          "0xUSDC" 100].
Proof.
  intros run.
  assert (Hin : In (CrossChainAccess.Web3_transferToken
                      (Some "0xEscrow"%string) "0xUSDC" 100)
                   (calls (snd run))).
  { vm_compute. do 5 right. left. reflexivity. }
  split; [exact Hin|]. split; [reflexivity|].
  destruct (CrossChainAccessFacts.executeTrade_order_failure runtime
              (bridge (Throw serverError)) "0xRWA" "AAPL" None (Some 100)
              CrossChainAccess.BUY "user@example.com" None crossChainAccess
              (fst run) (snd run) (Some "0xEscrow"%string) "0xUSDC" 100
              "0xabc123" serverError
              (surjective_pairing run) Hin eq_refl (fun _ _ => eq_refl))
    as (Hr & _ & _ & _ & Hone & _).
  split; [exact Hr|exact Hone].
Defined.

End ScenarioFacts.

(* ================================================================== *)
(** * Stepping through a computation *)
(* ================================================================== *)

Module MonadFacts.

Lemma bind_step {St C A B} (m : M St C A) (k : A -> M St C B) w r w1 :
  m w = (r, w1) ->
  bind m k w = match r with
               | Ok a => k a w1
               | Throw e => (Throw e, w1)
               end.
Proof. unfold bind. intros ->. reflexivity. Qed.

End MonadFacts.

(* ================================================================== *)
(** * Routing: preference order, failures and malformed rates *)
(* ================================================================== *)

Module RoutingOrderFacts.
Import Routing RoutingErrors.

Ltac split_options cca mm :=
  destruct cca as [pc [qc|] [|] ec]; destruct mm as [pm [qm|] [|] em];
  cbn [usable available quote error Js.defined andb negb orb].

(** X1.  Under [CROSS_CHAIN_ACCESS_FIRST] the Cross-Chain Access option is
    returned whenever it can be used, the Market Maker option only when it
    cannot; [MARKET_MAKER_FIRST] is the mirror image.  Neither looks at the
    direction or at the rates. *)
Theorem selectPlatform_first (cca mm : PlatformOption) (isBuy : bool) :
  selectPlatform cca mm CROSS_CHAIN_ACCESS_FIRST isBuy
  = (if usable cca then Ok cca
     else if usable mm then Ok mm else Throw (noPlatforms cca mm))
  /\
  selectPlatform cca mm MARKET_MAKER_FIRST isBuy
  = (if usable mm then Ok mm
     else if usable cca then Ok cca else Throw (noPlatforms cca mm)).
Proof.
  unfold selectPlatform, noPlatforms, reasons.
  split_options cca mm; split; reflexivity.
Qed.

(** With no venue to use, every strategy fails in the same way. *)
Lemma selectPlatform_none_usable
  (cca mm : PlatformOption) (strategy : RoutingStrategy) (isBuy : bool) :
  usable cca = false -> usable mm = false ->
  selectPlatform cca mm strategy isBuy = Throw (noPlatforms cca mm).
Proof.
  unfold selectPlatform, noPlatforms, reasons.
  split_options cca mm; intros; try discriminate; reflexivity.
Qed.

(** X2.  [selectPlatform] throws in two situations only: no venue can be used
    (the error lists the recorded reasons), or a venue-only strategy names a
    venue that cannot be used.  In every other case it returns one of its
    two arguments. *)
Theorem selectPlatform_failures
  (cca mm : PlatformOption) (strategy : RoutingStrategy) (isBuy : bool) :
  match selectPlatform cca mm strategy isBuy with
  | Ok o => fails cca mm strategy = false /\ (o = cca \/ o = mm)
  | Throw e => fails cca mm strategy = true /\ e = failure cca mm strategy
  end.
Proof.
  unfold selectPlatform, fails, failure, noPlatforms, venueDown, reasons.
  split_options cca mm;
    repeat match goal with
           | |- context [String.eqb ?a ?b] =>
               let E := fresh "E" in destruct (String.eqb a b) eqn:E
           end;
    try (exfalso;
         match goal with
         | E1 : String.eqb ?s _ = true, E2 : String.eqb ?s _ = true |- _ =>
             apply String.eqb_eq in E1; apply String.eqb_eq in E2;
             rewrite E1 in E2; discriminate E2
         end);
    cbn [andb negb orb];
    repeat match goal with
           | |- context [if ?b then _ else _] => destruct b
           end;
    cbn [andb negb orb]; auto.
Qed.

(** A NaN compares false with everything. *)
Lemma isNaN_spec (x : Js.number) :
  isNaN x = true -> FloatOps.Prim2SF x = SpecFloat.S754_nan.
Proof.
  unfold isNaN. rewrite FloatAxioms.eqb_spec.
  destruct (FloatOps.Prim2SF x) as [s|s| |s m e]; cbn;
    try reflexivity; try discriminate.
  - destruct s; discriminate.
  - rewrite Z.compare_refl.
    change (PosDef.Pos.compare_cont Eq m m) with (Pos.compare m m).
    rewrite Pos.compare_refl. destruct s; discriminate.
Qed.

Lemma leb_nan (x y : Js.number) :
  isNaN x || isNaN y = true -> PrimFloat.leb x y = false.
Proof.
  intros H. rewrite FloatAxioms.leb_spec. unfold SpecFloat.SFleb.
  apply orb_true_iff in H. destruct H as [H|H];
    apply isNaN_spec in H; rewrite H.
  - reflexivity.
  - destruct (FloatOps.Prim2SF x); reflexivity.
Qed.

(** A quote whose [sellAmount] is NaN has a NaN rate: the test
    [sellAmount === 0] fails and the division yields NaN. *)
Lemma rateOf_nan (q : Quote) :
  isNaN (sellAmount q) = true -> isNaN (rateOf (Some q)) = true.
Proof.
  intros H. unfold rateOf.
  assert (E : PrimFloat.eqb (sellAmount q) 0 = false).
  { rewrite FloatAxioms.eqb_spec, (isNaN_spec _ H). reflexivity. }
  rewrite E. unfold isNaN. rewrite FloatAxioms.eqb_spec.
  rewrite FloatAxioms.div_spec, (isNaN_spec _ H).
  destruct (FloatOps.Prim2SF (buyAmount q)); reflexivity.
Qed.

(** X3.  Under [BEST_PRICE] with both venues quoting, a rate that is NaN (a
    quote with a NaN amount) on either side makes both comparisons fail, so
    the Market Maker option is returned, for buys and for sells alike. *)
Theorem best_price_nan (cca mm : PlatformOption) (isBuy : bool) :
  usable cca = true -> usable mm = true ->
  isNaN (rateOf (quote cca)) || isNaN (rateOf (quote mm)) = true ->
  selectPlatform cca mm BEST_PRICE isBuy = Ok mm.
Proof.
  intros Hc Hm Hnan.
  assert (L1 := leb_nan _ _ Hnan).
  rewrite orb_comm in Hnan. assert (L2 := leb_nan _ _ Hnan).
  revert Hc Hm L1 L2.
  unfold selectPlatform, getEffectiveRate, rateOf, Js.geb.
  split_options cca mm; intros; try discriminate.
  cbn [quote] in *. change (String.eqb _ _) with false at 1 2 3 4 5 6.
  cbn [andb negb orb]. cbn. rewrite L1, L2. destruct isBuy; reflexivity.
Qed.

Lemma best_price_nan_witness :
  selectPlatform RoutingScenario.nanOption Scenario.mmOption BEST_PRICE true
  = Ok Scenario.mmOption
  /\
  selectPlatform RoutingScenario.nanOption Scenario.mmOption BEST_PRICE false
  = Ok Scenario.mmOption.
Proof.
  split.
  - exact (best_price_nan RoutingScenario.nanOption Scenario.mmOption true
             eq_refl eq_refl eq_refl).
  - exact (best_price_nan RoutingScenario.nanOption Scenario.mmOption false
             eq_refl eq_refl eq_refl).
Defined.

End RoutingOrderFacts.

(* ================================================================== *)
(** * The unified client: quotes, liquidity and results *)
(* ================================================================== *)

Module TradingQuotesFacts.
Import Routing Trading TradingQuotes.

(** X4.  [getQuotes] never throws.  It sends the Market Maker request, then the
    Cross-Chain Access request when a symbol is given, and nothing else: no
    initialization, no execution.  A venue whose request fails, or that was
    not asked, is reported as [null]; the client is unchanged. *)
Theorem getQuotes_total (V : Venues) (params : QuoteParams)
  (this : TradingClient) (log : list Call) :
  getQuotes V params (this, log)
  = (Ok {| market_maker :=
             quoteOrNull (mm_getQuote V (fromToken params) (toToken params)
                            (fromAmount params) (toAmount params));
           cross_chain_access :=
             if Js.truthy_string (toTokenSymbol params)
             then quoteOrNull
                    (cca_getQuote V (Js.template (toTokenSymbol params)))
             else None |},
     (this, (log ++ requests params)%list)).
Proof.
  unfold getQuotes, getMarketMakerQuote, getCrossChainAccessQuote, requests,
    quoteOrNull, bind, try_catch, call, ret.
  cbn [fst snd].
  destruct (mm_getQuote V _ _ _ _);
    destruct (Js.truthy_string (toTokenSymbol params)); cbn [fst snd];
    try destruct (cca_getQuote V _);
    rewrite <- ?app_assoc, ?app_nil_r; reflexivity.
Qed.

End TradingQuotesFacts.

Module TradingFlowFacts.
Import Routing RoutingErrors Trading TradingLog.

Lemma filter_none {A} (f : A -> bool) (l : list A) :
  existsb f l = false -> filter f l = [].
Proof.
  induction l as [|a l IH]; cbn; [reflexivity|].
  intros H. apply orb_false_iff in H as [-> H]. auto.
Qed.

Lemma executions_quoteCalls (options : TradeOptions) :
  executions (quoteCalls options) = [].
Proof.
  unfold executions, quoteCalls.
  destruct (toTokenSymbol options) as [symbol|];
    [destruct (String.eqb symbol "")|]; reflexivity.
Qed.

Lemma executions_executionCall (options : TradeOptions) (p : Platform) :
  isExecution (executionCall options p) = true.
Proof.
  unfold executionCall. destruct p; [destruct (fromAmount options)|];
    reflexivity.
Qed.

(** The outcome and the execution requests of the routing phase. *)
Lemma routeAndSettle_executions (V : Venues) (options : TradeOptions)
  (this : TradingClient) (log : list Call) :
  executions log = [] ->
  match selectPlatform (crossChainAccessOptionOf V options)
          (marketMakerOptionOf V options) (strategyOf this options)
          (Js.defined (fromAmount options)) with
  | Throw e =>
      fst (routeAndSettle V options this log) = Throw e
      /\ executions (calls (snd (routeAndSettle V options this log))) = []
  | Ok selected =>
      (fst (routeAndSettle V options this log),
       executions (calls (snd (routeAndSettle V options this log))))
      = settle V options (strategyOf this options)
          (crossChainAccessOptionOf V options)
          (marketMakerOptionOf V options) selected
  end.
Proof.
  intros Hlog. unfold routeAndSettle.
  destruct (selectPlatform _ _ _ _) as [selected|e].
  - destruct (settle _ _ _ _ _ _) as [r ex] eqn:Es. cbn [fst snd calls].
    unfold executions in *. rewrite !filter_app, Hlog.
    fold (executions (quoteCalls options)).
    rewrite executions_quoteCalls.
    cbn [filter isExecution isExecutionOn orb app].
    f_equal. unfold settle in Es.
    destruct (executionAnswer V options (platform selected));
      [|destruct (_ && _)]; injection Es as <- <-; cbn [filter];
      rewrite ?executions_executionCall; reflexivity.
  - cbn [fst snd calls]. split; [reflexivity|].
    unfold executions in *. rewrite !filter_app, Hlog.
    fold (executions (quoteCalls options)).
    rewrite executions_quoteCalls. reflexivity.
Qed.

(** The same for the whole call, when the request is valid and the venue
    clients can be initialized. *)
Lemma trade_executions (V : Venues) (options : TradeOptions)
  (this : TradingClient) :
  oneAmount options = true -> initializes V this = true ->
  match selectPlatform (crossChainAccessOptionOf V options)
          (marketMakerOptionOf V options) (strategyOf this options)
          (Js.defined (fromAmount options)) with
  | Throw e =>
      fst (run (trade V options) this) = Throw e
      /\ executions (calls (snd (run (trade V options) this))) = []
  | Ok selected =>
      (fst (run (trade V options) this),
       executions (calls (snd (run (trade V options) this))))
      = settle V options (strategyOf this options)
          (crossChainAccessOptionOf V options)
          (marketMakerOptionOf V options) selected
  end.
Proof.
  intros Hone Hinit. rewrite TradingFacts.trade_run.
  unfold tradeRun, initializes in *. rewrite Hone. cbn [negb].
  destruct this as [rs [|]]; cbn [initialized orb] in *.
  - apply routeAndSettle_executions. reflexivity.
  - destruct (mm_initialize V) as [[]|]; [|discriminate].
    destruct (cca_initialize V) as [[]|]; [|discriminate].
    apply (routeAndSettle_executions V options
             {| routingStrategy := rs; initialized := true |}).
    reflexivity.
Qed.

(** X5.  When neither venue yields an option that can be used (its quote
    request failed, or no symbol was given for Cross-Chain Access), [trade]
    throws the router's [NoLiquidityException], which lists the recorded
    reasons, and no execution request is sent to any venue. *)
Theorem trade_no_liquidity (V : Venues) (options : TradeOptions)
  (this : TradingClient) :
  oneAmount options = true -> initializes V this = true ->
  usable (crossChainAccessOptionOf V options) = false ->
  usable (marketMakerOptionOf V options) = false ->
  fst (run (trade V options) this)
  = Throw (noPlatforms (crossChainAccessOptionOf V options)
             (marketMakerOptionOf V options))
  /\ Js.cls (noPlatforms (crossChainAccessOptionOf V options)
               (marketMakerOptionOf V options)) = Js.NoLiquidityException
  /\ executions (calls (snd (run (trade V options) this))) = [].
Proof.
  intros Hone Hinit Hc Hm.
  assert (H := trade_executions V options this Hone Hinit).
  rewrite (RoutingOrderFacts.selectPlatform_none_usable _ _ _ _ Hc Hm) in H.
  destruct H as [-> ->]. repeat split.
Qed.

(** A run that stops before the routing sends no execution request. *)
Lemma trade_not_started (V : Venues) (options : TradeOptions)
  (this : TradingClient) :
  oneAmount options && initializes V this = false ->
  executions (calls (snd (run (trade V options) this))) = []
  /\ exists e, fst (run (trade V options) this) = Throw e.
Proof.
  rewrite TradingFacts.trade_run. unfold tradeRun, initializes.
  destruct (oneAmount options); cbn [negb andb].
  2: { intros _. split; [reflexivity|eexists; reflexivity]. }
  destruct (initialized this); cbn [orb]; [discriminate|].
  destruct (mm_initialize V) as [[]|e1].
  2: { intros _. split; [reflexivity|eexists; reflexivity]. }
  destruct (cca_initialize V) as [[]|e2]; [discriminate|].
  intros _. split; [reflexivity|eexists; reflexivity].
Qed.

(** X6.  Every run of [trade] sends no, one or two execution requests.
    With none, [trade] threw.  Two are sent only when the venue asked first
    threw under a strategy that allows the fallback, and then to the two
    different venues, never to one venue twice.  The run succeeds exactly
    when the venue asked last answers, and it hands that answer back
    unchanged. *)
Theorem trade_success (V : Venues) (options : TradeOptions)
  (this : TradingClient) :
  (executions (calls (snd (run (trade V options) this))) = []
   /\ exists e, fst (run (trade V options) this) = Throw e)
  \/
  exists p,
    (executions (calls (snd (run (trade V options) this)))
     = [executionCall options p]
     \/ (executions (calls (snd (run (trade V options) this)))
         = [executionCall options (other p); executionCall options p]
         /\ allowsFallback (strategyOf this options) = true
         /\ exists e, executionAnswer V options (other p) = Throw e))
    /\ match executionAnswer V options p with
       | Ok result => fst (run (trade V options) this) = Ok result
       | Throw _ => exists e, fst (run (trade V options) this) = Throw e
       end.
Proof.
  destruct (oneAmount options && initializes V this) eqn:Estart.
  2: { left. apply trade_not_started. exact Estart. }
  apply andb_true_iff in Estart as [Hone Hinit].
  assert (H := trade_executions V options this Hone Hinit).
  destruct (selectPlatform _ _ _ _) as [selected|e].
  2: { left. destruct H as [H1 H2]. eauto. }
  right. unfold settle in H.
  destruct (executionAnswer V options (platform selected)) as [r|e] eqn:E1.
  - injection H as H1 H2. exists (platform selected).
    rewrite E1. auto.
  - destruct (allowsFallback _ && _) eqn:Ef.
    + exists (other (platform selected)).
      replace (other (other (platform selected))) with (platform selected)
        by (destruct (platform selected); reflexivity).
      apply andb_true_iff in Ef as [Ef _].
      destruct (executionAnswer V options (other (platform selected)))
        as [r|e2]; injection H as H1 H2; eauto 8.
    + exists (platform selected). injection H as H1 H2.
      rewrite E1. eauto.
Qed.

(** X7.  [initialize] does nothing on an initialized client, and running
    it twice in a row does what running it once does.  On a client that is
    not initialized it asks the Market Maker client first and the
    Cross-Chain Access client only after that succeeded: when the first
    throws, the second is not asked; when either throws, the client is left
    exactly as it was, so the next call tries again; when both succeed the
    client is initialized, with its routing strategy unchanged. *)
Theorem initialize_idempotent (V : Venues) (this : TradingClient)
  (log : list Call) :
  bind (initialize V) (fun _ => initialize V) (this, log)
  = initialize V (this, log)
  /\ (initialized this = true ->
      initialize V (this, log) = (Ok tt, (this, log)))
  /\ (initialized this = false ->
      match mm_initialize V with
      | Throw e =>
          initialize V (this, log)
          = (Throw e, (this, (log ++ [MarketMaker_initialize])%list))
      | Ok _ =>
          match cca_initialize V with
          | Throw e =>
              initialize V (this, log)
              = (Throw e,
                 (this, (log ++ [MarketMaker_initialize;
                                 CrossChainAccess_initialize])%list))
          | Ok _ =>
              initialize V (this, log)
              = (Ok tt,
                 ({| routingStrategy := routingStrategy this;
                     initialized := true |},
                  (log ++ [MarketMaker_initialize;
                           CrossChainAccess_initialize])%list))
          end
      end).
Proof.
  unfold initialize, bind, get, put, call, ret. cbn [fst snd].
  destruct this as [rs [|]]; cbn [initialized negb routingStrategy].
  - repeat split. discriminate.
  - destruct (mm_initialize V) as [[]|e1]; cbn [fst snd initialized negb].
    + destruct (cca_initialize V) as [[]|e2];
        cbn [fst snd initialized negb routingStrategy];
        rewrite <- ?app_assoc; repeat split; discriminate.
    + repeat split. discriminate.
Qed.

(** ** Scenarios *)

Lemma trade_no_liquidity_witness :
  fst (run (trade TradingScenario.noQuotes Scenario.spend100)
         Scenario.client)
  = Throw (Js.new Js.NoLiquidityException
             "No platforms available. Cross-Chain Access: Market closed; Market Maker: RPQServiceException: Failed to get quote: TypeError: fetch failed")
  /\ executions
       (calls (snd (run (trade TradingScenario.noQuotes Scenario.spend100)
                      Scenario.client))) = [].
Proof.
  destruct (trade_no_liquidity TradingScenario.noQuotes Scenario.spend100
              Scenario.client eq_refl eq_refl eq_refl eq_refl)
    as (H1 & _ & H2).
  split; [exact H1|exact H2].
Defined.

(** Best price sends the buy to the Market Maker, whose transaction
    reverts; Cross-Chain Access then fills the order, and its result is
    what [trade] returns. *)
Lemma trade_success_witness :
  fst (run (trade TradingScenario.fallbackFills Scenario.spend100)
         Scenario.client)
  = Ok TradingScenario.fill
  /\ executions
       (calls (snd (run (trade TradingScenario.fallbackFills
                           Scenario.spend100) Scenario.client)))
     = [executionCall Scenario.spend100 market_maker;
        executionCall Scenario.spend100 cross_chain_access].
Proof.
  destruct (trade_success TradingScenario.fallbackFills Scenario.spend100
              Scenario.client) as [[Hnone _]|(p & Hcalls & Hanswer)].
  - discriminate Hnone.
  - destruct p.
    + split; [exact Hanswer|].
      destruct Hcalls as [Hone|(Htwo & _)]; [discriminate Hone|exact Htwo].
    + exfalso. destruct Hanswer as [e He]. discriminate He.
Defined.

(** The first initialization of the client contacts both venues, in
    order. *)
Lemma initialize_idempotent_witness :
  initialize TradingScenario.noQuotes (Scenario.client, [])
  = (Ok tt,
     ({| routingStrategy := BEST_PRICE; initialized := true |},
      [MarketMaker_initialize; CrossChainAccess_initialize])).
Proof.
  exact (proj2 (proj2 (initialize_idempotent TradingScenario.noQuotes
                         Scenario.client [])) eq_refl).
Defined.

End TradingFlowFacts.

(* ================================================================== *)
(** * Market hours: the trading window and the waits *)
(* ================================================================== *)

Module MarketHoursFacts.
Import MarketHours.
Local Open Scope Z_scope.

Lemma clock (date : Date) :
  timeInMinutes (getUTCHours date) (getUTCMinutes date)
  = timeOfDay date / msPerMinute.
Proof.
  unfold timeInMinutes, getUTCHours, getUTCMinutes, timeOfDay, msPerHour,
    msPerMinute, msPerDay.
  Z.div_mod_to_equations. lia.
Qed.

Lemma open_window (date : Date) :
  isMarketOpen date
  = negb (isWeekend date)
    && (openingTime <=? timeOfDay date)
    && (timeOfDay date <? closingTime + msPerMinute).
Proof.
  unfold isMarketOpen, isWeekend. rewrite clock.
  destruct ((getUTCDay date =? 0) || (getUTCDay date =? 6)); [reflexivity|].
  cbn [negb andb fst snd MARKET_OPEN_UTC MARKET_CLOSE_UTC].
  unfold timeInMinutes, openingTime, closingTime, msPerMinute.
  assert (0 <= timeOfDay date) by (unfold timeOfDay, msPerDay;
                                   apply Z.mod_pos_bound; lia).
  f_equal.
  - destruct (Z.leb_spec (14 * 60 + 30) (timeOfDay date / 60000)),
             (Z.leb_spec 52200000 (timeOfDay date)); try reflexivity;
      exfalso; Z.div_mod_to_equations; lia.
  - destruct (Z.leb_spec (timeOfDay date / 60000) (21 * 60 + 0)),
             (Z.ltb_spec (timeOfDay date) (75600000 + 60000));
      try reflexivity; exfalso; Z.div_mod_to_equations; lia.
Qed.

Lemma isMarketOpen_true (date : Date) :
  isMarketOpen date = true <->
  1 <= getUTCDay date <= 5
  /\ openingTime <= timeOfDay date < closingTime + msPerMinute.
Proof.
  rewrite open_window. unfold isWeekend.
  rewrite !andb_true_iff, negb_true_iff, orb_false_iff, !Z.eqb_neq,
    Z.leb_le, Z.ltb_lt.
  assert (0 <= getUTCDay date < 7)
    by (unfold getUTCDay; apply Z.mod_pos_bound; lia).
  lia.
Qed.

(** X8.  The market is open from 14:30:00.000 UTC up to, but not including,
    21:01:00.000 UTC on Monday to Friday: the close is compared in whole
    minutes, so the minute that starts at 21:00 still counts as open. *)
Theorem isMarketOpen_window (date : Date) :
  isMarketOpen date
  = negb (isWeekend date)
    && (openingTime <=? timeOfDay date)
    && (timeOfDay date <? closingTime + msPerMinute).
Proof. exact (open_window date). Qed.

Lemma day_parts (date : Date) :
  date = (date / msPerDay) * msPerDay + timeOfDay date
  /\ 0 <= timeOfDay date < msPerDay.
Proof.
  unfold timeOfDay, msPerDay. split.
  - rewrite Z.mul_comm. apply Z.div_mod. lia.
  - apply Z.mod_pos_bound. lia.
Qed.

Lemma daysToAdd_range (date : Date) : 0 <= daysToAdd date <= 3.
Proof.
  unfold daysToAdd.
  repeat match goal with
         | |- context [if ?b then _ else _] => destruct b
         end; lia.
Qed.

(** [timeUntilOpen] of a closed market, with the day arithmetic carried
    out: the wait, unless the next opening is past the last time value. *)
Lemma timeUntilOpen_closed (date : Date) :
  validDate date = true ->
  isMarketOpen date = false ->
  timeUntilOpen date
  = if date + nextOpening date <=? maxTimeValue
    then Some (nextOpening date) else None.
Proof.
  intros Hvalid Hclosed. unfold timeUntilOpen. rewrite Hclosed, clock.
  cbn [fst snd MARKET_OPEN_UTC].
  replace (timeInMinutes 14 30 <=? timeOfDay date / msPerMinute)
    with (openingTime <=? timeOfDay date).
  2: { unfold timeInMinutes, openingTime, msPerMinute.
       destruct (Z.leb_spec 52200000 (timeOfDay date)),
                (Z.leb_spec (14 * 60 + 30) (timeOfDay date / 60000));
         try reflexivity; exfalso; Z.div_mod_to_equations; lia. }
  fold (daysToAdd date). unfold nextOpening.
  assert (Hk := daysToAdd_range date).
  destruct (day_parts date) as [Hdate Hr].
  unfold validDate in Hvalid. apply Z.leb_le in Hvalid.
  assert (Hday : (date + daysToAdd date * msPerDay) mod msPerDay
                 = timeOfDay date)
    by (apply Z.mod_add; unfold msPerDay; lia).
  unfold TimeClip, addUTCDate.
  set (k := daysToAdd date) in *. clearbody k.
  destruct (Z.leb_spec (Z.abs (date + k * msPerDay)) maxTimeValue)
    as [H1|H1].
  - unfold setUTCHours. rewrite Hday.
    unfold openingTime, msPerHour, msPerMinute, msPerDay, maxTimeValue in *.
    destruct (Z.leb_spec
                (Z.abs (date + k * 86400000 - timeOfDay date
                        + 14 * 3600000 + 30 * 60000)) 8640000000000000)
      as [H2|H2];
      destruct (Z.leb_spec
                  (date + (k * 86400000 + 52200000 - timeOfDay date))
                  8640000000000000) as [Hin|Hout];
      try (f_equal; lia); try reflexivity; exfalso; lia.
  - unfold openingTime, msPerHour, msPerMinute, msPerDay, maxTimeValue in *.
    destruct (Z.leb_spec
                (date + (k * 86400000 + 52200000 - timeOfDay date))
                8640000000000000) as [Hin|Hout]; [exfalso|reflexivity].
    unfold timeOfDay, msPerDay in *. Z.div_mod_to_equations. lia.
Qed.

(** While the market is open, [setUTCHours] keeps [targetDate] valid in
    [timeUntilClose]. *)
Lemma closing_in_range (date : Date) :
  validDate date = true ->
  isMarketOpen date = true ->
  TimeClip (setUTCHours date (fst MARKET_CLOSE_UTC) (snd MARKET_CLOSE_UTC))
  = Some (date + timeUntilClose date).
Proof.
  intros Hvalid Hopen. unfold timeUntilClose. rewrite Hopen. cbn [negb].
  apply isMarketOpen_true in Hopen. destruct Hopen as [_ Hr].
  unfold validDate in Hvalid. apply Z.leb_le in Hvalid.
  unfold TimeClip, setUTCHours. cbn [fst snd MARKET_CLOSE_UTC].
  replace (date + (date - date mod msPerDay + 21 * msPerHour
                   + 0 * msPerMinute - date))
    with (date - date mod msPerDay + 21 * msPerHour + 0 * msPerMinute)
    by lia.
  destruct (Z.leb_spec
              (Z.abs (date - date mod msPerDay + 21 * msPerHour
                      + 0 * msPerMinute)) maxTimeValue) as [H|H];
    [reflexivity|exfalso].
  unfold timeOfDay, openingTime, closingTime, msPerMinute, msPerHour,
    msPerDay, maxTimeValue in *.
  Z.div_mod_to_equations. lia.
Qed.

(** X9.  Let [date] be a valid Date at which the market is closed.  The
    next opening comes after a wait that is positive and at most 65 h
    29 min: it is at 14:30:00.000 UTC of a day from Monday to Friday, when
    the market is open, and the market is closed at every instant before
    it.  [timeUntilOpen] is that wait; it is NaN instead when the next
    opening lies past the last time value a Date can hold. *)
Theorem timeUntilOpen_next_opening (date : Date) :
  validDate date = true ->
  isMarketOpen date = false ->
  exists wait,
    0 < wait <= 235740000
    /\ timeOfDay (date + wait) = openingTime
    /\ isMarketOpen (date + wait) = true
    /\ (forall w, 0 <= w < wait -> isMarketOpen (date + w) = false)
    /\ timeUntilOpen date
       = if date + wait <=? maxTimeValue then Some wait else None.
Proof.
  intros Hvalid Hclosed. exists (nextOpening date).
  assert (Hnot : ~ (1 <= getUTCDay date <= 5
                    /\ openingTime <= timeOfDay date
                                   < closingTime + msPerMinute))
    by (rewrite <- isMarketOpen_true, Hclosed; discriminate).
  assert (Hw : 0 <= getUTCDay date < 7)
    by (unfold getUTCDay; apply Z.mod_pos_bound; lia).
  destruct (day_parts date) as [Hdate Hr].
  assert (Hk : (getUTCDay date = 0 /\ daysToAdd date = 1)
               \/ (getUTCDay date = 6 /\ daysToAdd date = 2)
               \/ (getUTCDay date = 5 /\ daysToAdd date = 3
                   /\ closingTime + msPerMinute <= timeOfDay date)
               \/ (1 <= getUTCDay date <= 4 /\ daysToAdd date = 1
                   /\ closingTime + msPerMinute <= timeOfDay date)
               \/ (1 <= getUTCDay date <= 5 /\ daysToAdd date = 0
                   /\ timeOfDay date < openingTime)).
  { unfold daysToAdd.
    destruct (Z.eqb_spec (getUTCDay date) 0); [auto|].
    destruct (Z.eqb_spec (getUTCDay date) 6); [auto|].
    destruct (Z.leb_spec openingTime (timeOfDay date)).
    - destruct (Z.eqb_spec (getUTCDay date) 5).
      + right. right. left. lia.
      + right. right. right. left. lia.
    - right. right. right. right. lia. }
  assert (Hopen : forall t, isMarketOpen t = false <->
            ~ (1 <= getUTCDay t <= 5
               /\ openingTime <= timeOfDay t < closingTime + msPerMinute)).
  { intros t. rewrite <- isMarketOpen_true.
    destruct (isMarketOpen t); split; congruence. }
  split; [|split; [|split; [|split]]].
  - unfold nextOpening.
    unfold openingTime, closingTime, msPerMinute, msPerDay in *. lia.
  - unfold nextOpening, timeOfDay, getUTCDay, openingTime, closingTime,
      msPerMinute, msPerDay in *.
    Z.div_mod_to_equations. lia.
  - apply isMarketOpen_true.
    unfold nextOpening, timeOfDay, getUTCDay, openingTime, closingTime,
      msPerMinute, msPerDay in *.
    Z.div_mod_to_equations. lia.
  - intros w Hwait. apply Hopen.
    unfold nextOpening, timeOfDay, getUTCDay, openingTime, closingTime,
      msPerMinute, msPerDay in *.
    Z.div_mod_to_equations. lia.
  - exact (timeUntilOpen_closed date Hvalid Hclosed).
Qed.

(** X10.  While the market is open, [timeUntilClose] is the time to 21:00:00.000
    UTC of the same day.  It is at most six and a half hours, and it is
    negative during the last minute the market counts as open. *)
Theorem timeUntilClose_closing (date : Date) :
  isMarketOpen date = true ->
  timeOfDay (date + timeUntilClose date) = closingTime
  /\ date / msPerDay = (date + timeUntilClose date) / msPerDay
  /\ - msPerMinute < timeUntilClose date <= 23400000
  /\ (timeUntilClose date < 0 <-> closingTime < timeOfDay date).
Proof.
  intros Hopen. unfold timeUntilClose. rewrite Hopen. cbn [negb].
  apply isMarketOpen_true in Hopen. destruct Hopen as [_ Hr].
  unfold setUTCHours. cbn [fst snd MARKET_CLOSE_UTC].
  unfold timeOfDay, openingTime, closingTime, msPerMinute, msPerHour,
    msPerDay in *.
  repeat split; Z.div_mod_to_equations; lia.
Qed.

(** ** Scenarios: Friday 2 January 1970 *)

(** At 21:01:00.000 the market has just closed for the week. *)
Lemma timeUntilOpen_next_opening_witness :
  exists wait,
    0 < wait <= 235740000
    /\ isMarketOpen (162060000 + wait) = true
    /\ timeUntilOpen 162060000 = Some wait.
Proof.
  destruct (timeUntilOpen_next_opening 162060000 eq_refl eq_refl)
    as (wait & Hwait & _ & Hopen & _ & Hrun).
  exists wait. split; [exact Hwait|]. split; [exact Hopen|].
  rewrite Hrun.
  destruct (Z.leb_spec (162060000 + wait) maxTimeValue) as [_|Hout];
    [reflexivity|].
  exfalso. unfold maxTimeValue in Hout. lia.
Defined.

(** On Saturday 13 September 275760 the Date range ends before Monday. *)
Example no_opening_left :
  validDate 8640000000000000 = true
  /\ isMarketOpen 8640000000000000 = false
  /\ timeUntilOpen 8640000000000000 = None
  /\ getMarketStatus 8640000000000000
     = {| CrossChainAccess.isOpen := false;
          CrossChainAccess.status_message :=
            "Market is closed. Opens in NaNh NaNm" |}.
Proof. repeat split. Qed.

(** At 21:00:30.000 the market still counts as open, half a minute after
    the close. *)
Lemma timeUntilClose_closing_witness :
  isMarketOpen 162030000 = true
  /\ timeOfDay (162030000 + timeUntilClose 162030000) = closingTime
  /\ timeUntilClose 162030000 = -30000.
Proof.
  split; [reflexivity|].
  split; [exact (proj1 (timeUntilClose_closing 162030000 eq_refl))|].
  reflexivity.
Defined.

Example last_minute_message :
  getMarketStatus 162030000
  = {| CrossChainAccess.isOpen := true;
       CrossChainAccess.status_message :=
         "Market is open. Closes in -1h -1m" |}.
Proof. reflexivity. Qed.

Example weekend_message :
  getMarketStatus 162060000
  = {| CrossChainAccess.isOpen := false;
       CrossChainAccess.status_message :=
         "Market is closed. Opens in 65h 29m" |}.
Proof. reflexivity. Qed.

End MarketHoursFacts.

(* ================================================================== *)
(** * The Cross-Chain Access venue: checks before funds move *)
(* ================================================================== *)

Module CrossChainAccessCheckFacts.
Import CrossChainAccess CrossChainAccessRuns.

Ltac run_monad :=
  cbv beta iota delta
    [bind try_catch call lift get put ret throw fst snd negb].

Section Checks.
Variable rt : Runtime.
Variable S : Services.

(** ** Initialization *)

(** X11.  [initialize] authenticates first and asks the configuration for the
    escrow address afterwards, and only when the client does not know one
    yet.  When it succeeds the client is initialized and holds the token the
    authentication returned; when authentication fails nothing else is asked
    and the client is unchanged; in every failure the client stays
    uninitialized, so that the next call starts again.  Running it twice in a
    row does what running it once does. *)
Theorem initialize_sequence (this : CrossChainAccessClient)
  (log : list Call) :
  bind (initialize S) (fun _ => initialize S) (this, log)
  = initialize S (this, log)
  /\
  (initialized this = true -> initialize S (this, log) = (Ok tt, (this, log)))
  /\
  (initialized this = false ->
   match auth_verify S (privateKey this) with
   | Throw e =>
       initialize S (this, log)
       = (Throw e, (this, (log ++ [Auth_verify (privateKey this)])%list))
   | Ok token =>
       if Js.truthy_string (topupAddress this) then
         initialize S (this, log)
         = (Ok tt,
            (set_initialized (set_authToken this token),
             (log ++ [Auth_verify (privateKey this)])%list))
       else
         match config_topupAddress S with
         | Throw e =>
             initialize S (this, log)
             = (Throw e,
                (set_authToken this token,
                 (log ++ [Auth_verify (privateKey this);
                          Config_getTopupAddress])%list))
         | Ok escrow =>
             initialize S (this, log)
             = (Ok tt,
                (set_initialized
                   (set_topupAddress (set_authToken this token) escrow),
                 (log ++ [Auth_verify (privateKey this);
                          Config_getTopupAddress])%list))
         end
   end).
Proof.
  unfold initialize, authenticate, loadTopupAddress. run_monad.
  destruct this as [n u k a t p [|]];
    cbn [initialized privateKey topupAddress set_authToken set_initialized
         set_topupAddress].
  - repeat split. discriminate.
  - destruct (auth_verify S k) as [token|e]; run_monad;
      cbn [initialized privateKey topupAddress set_authToken
           set_initialized set_topupAddress].
    2: { repeat split. discriminate. }
    destruct (Js.truthy_string p); run_monad;
      cbn [initialized privateKey topupAddress set_authToken
           set_initialized set_topupAddress].
    + repeat split. discriminate.
    + destruct (config_topupAddress S) as [escrow|e]; run_monad;
        cbn [initialized privateKey topupAddress set_authToken
             set_initialized set_topupAddress];
        rewrite <- ?app_assoc; repeat split; discriminate.
Qed.

(** ** The asset quote *)

(** X12.  [getAssetQuote] sends one request, for the symbol in upper case.  When
    the request fails, whatever the cause, the error that surfaces is a
    [CrossChainAccessException]: an [InvalidSymbolException] for an
    [APIException] with status 404, and a [QuoteUnavailableException] for
    every other failure; both name the symbol as the caller wrote it. *)
Theorem getAssetQuote_errors (symbol : string)
  (this : CrossChainAccessClient) (log : list Call) :
  snd (getAssetQuote S symbol (this, log))
  = (this, (log ++ [Api_getAssetQuote (Js.toUpperCase symbol)])%list)
  /\
  match api_assetQuote S (Js.toUpperCase symbol) with
  | Ok quote => fst (getAssetQuote S symbol (this, log)) = Ok quote
  | Throw cause =>
      exists e,
        fst (getAssetQuote S symbol (this, log)) = Throw e
        /\ Js.instanceof e Js.CrossChainAccessException = true
        /\ Js.includes symbol (Js.message e) = true
        /\ Js.cls e
           = if Js.instanceof cause Js.APIException
                && (Js.statusCode cause =? 404)%Z
             then Js.InvalidSymbolException
             else Js.CcaQuoteUnavailableException
  end.
Proof.
  unfold getAssetQuote. run_monad.
  destruct (api_assetQuote S (Js.toUpperCase symbol)) as [quote|cause];
    [split; reflexivity|].
  cbn [fst snd].
  destruct (Js.instanceof cause Js.APIException); cbn [andb].
  - destruct (Js.statusCode cause =? 404)%Z.
    + split; [reflexivity|]. eexists. repeat split.
      apply (TradingFacts.includes_tail symbol "Invalid trading symbol: ").
      apply TradingFacts.includes_refl.
    + destruct (Js.statusCode cause =? 400)%Z;
        (split; [reflexivity|]); eexists; repeat split.
      * apply (TradingFacts.includes_tail symbol "Quote unavailable for ").
        apply TradingFacts.includes_head.
      * apply (TradingFacts.includes_tail symbol "Failed to get quote for ").
        apply TradingFacts.includes_head.
  - split; [reflexivity|]. eexists. repeat split.
    apply (TradingFacts.includes_tail symbol "Failed to get quote for ").
    apply TradingFacts.includes_head.
Qed.

(** ** Availability *)

(** The availability check of an initialized client, in closed form. *)
Lemma checkTradingAvailability_run (this : CrossChainAccessClient)
  (log : list Call) :
  initialized this = true ->
  checkTradingAvailability S (this, log)
  = if negb (isOpen (marketStatus S)) then
      (Ok (false, status_message (marketStatus S)), (this, log))
    else if negb (Js.truthy_string (authToken this)) then
      (Ok (false,
           "Failed to check account status: "
             ++ Js.toString
                  (Js.newAPIException
                     "Authentication token required for getting account status"
                     401)),
       (this, log))
    else
      (Ok match api_status S with
          | Ok status =>
              if isTradingAllowed status then (true, "Trading is available")
              else (false,
                    "Trading not available: "
                      ++ Js.join ", " (blockReasons status))
          | Throw e =>
              (false, "Failed to check account status: " ++ Js.toString e)
          end,
       (this, (log ++ [Api_getStatus])%list)).
Proof.
  intros Hinit. unfold checkTradingAvailability, getAccountStatus.
  run_monad. rewrite Hinit. run_monad.
  destruct (isOpen (marketStatus S)); run_monad; [|reflexivity].
  destruct (Js.truthy_string (authToken this)); run_monad; [|reflexivity].
  destruct (api_status S) as [status|e]; [|reflexivity].
  unfold blockReasons.
  destruct (isTradingAllowed status); reflexivity.
Qed.

(** X13.  Once the client is initialized, [checkTradingAvailability] never
    throws: a failure of the status request is reported as unavailability.
    It answers [true] exactly when the market hours say open, the client
    holds a token, and the account status allows trading; and when the
    market hours say closed it makes no request at all. *)
Theorem checkTradingAvailability_total (this : CrossChainAccessClient)
  (log : list Call) :
  initialized this = true ->
  exists available message log',
    checkTradingAvailability S (this, log)
    = (Ok (available, message), (this, log'))
    /\ (available = true <->
        isOpen (marketStatus S) = true
        /\ Js.truthy_string (authToken this) = true
        /\ exists status,
             api_status S = Ok status /\ isTradingAllowed status = true)
    /\ (available = true -> message = "Trading is available")
    /\ (isOpen (marketStatus S) = false ->
        log' = log /\ message = status_message (marketStatus S)).
Proof.
  intros Hinit. rewrite (checkTradingAvailability_run this log Hinit).
  destruct (isOpen (marketStatus S)); cbn [negb].
  2: { do 3 eexists. split; [reflexivity|].
       repeat split; try discriminate; intros (H & _); discriminate. }
  destruct (Js.truthy_string (authToken this)); cbn [negb].
  2: { do 3 eexists. split; [reflexivity|].
       repeat split; try discriminate; intros (_ & H & _); discriminate. }
  destruct (api_status S) as [status|e].
  - destruct (isTradingAllowed status) eqn:Eallowed.
    + do 3 eexists. split; [reflexivity|]. repeat split; try discriminate.
      exists status. auto.
    + do 3 eexists. split; [reflexivity|].
      repeat split; try discriminate.
      intros (_ & _ & status' & [= <-] & H). congruence.
  - do 3 eexists. split; [reflexivity|]. repeat split; try discriminate.
    intros (_ & _ & status' & H & _). discriminate.
Qed.

(** ** Refusals *)

(** What [executeTrade] does with a negative availability answer. *)
Lemma executeTrade_refused
  (rwaTokenAddress rwaSymbol : string)
  (rwaAmount usdcAmount : option Js.number) (orderSide : OrderSide)
  (userEmail : string) (targetChainId : option Z)
  (this : CrossChainAccessClient) (log log' : list Call) (message : string) :
  initialized this = true ->
  checkTradingAvailability S (this, log)
  = (Ok (false, message), (this, log')) ->
  executeTrade rt S rwaTokenAddress rwaSymbol rwaAmount usdcAmount orderSide
    userEmail targetChainId (this, log)
  = (Throw (unavailable message), (this, log')).
Proof.
  intros Hinit Hcheck. unfold executeTrade.
  unfold bind at 1, get at 1. cbn [fst snd]. rewrite Hinit. cbn [negb].
  unfold bind at 1, ret at 1.
  rewrite (MonadFacts.bind_step _ _ _ _ _ Hcheck). cbn [negb].
  unfold unavailable.
  destruct (_ || _); reflexivity.
Qed.

(** X14.  Outside the market hours, which the client reads off its own clock, an
    initialized client refuses to trade with a [MarketClosedException] that
    tells when the market opens, and it contacts nobody: no status request,
    no quote, no transfer, no order. *)
Theorem executeTrade_outside_market_hours
  (rwaTokenAddress rwaSymbol : string)
  (rwaAmount usdcAmount : option Js.number) (orderSide : OrderSide)
  (userEmail : string) (targetChainId : option Z)
  (this : CrossChainAccessClient) (log : list Call) (date : Date) :
  initialized this = true ->
  marketStatus S = MarketHours.getMarketStatus date ->
  MarketHours.isMarketOpen date = false ->
  executeTrade rt S rwaTokenAddress rwaSymbol rwaAmount usdcAmount orderSide
    userEmail targetChainId (this, log)
  = (Throw (Js.new Js.MarketClosedException
              ("Market is closed. Opens in "
                 ++ MarketHours.formatDuration
                      (MarketHours.timeUntilOpen date))),
     (this, log)).
Proof.
  intros Hinit Hclock Hclosed.
  erewrite executeTrade_refused; [|assumption|].
  2: { rewrite (checkTradingAvailability_run this log Hinit), Hclock.
       unfold MarketHours.getMarketStatus. rewrite Hclosed.
       cbn [isOpen status_message negb]. reflexivity. }
  reflexivity.
Qed.

(** The reasons of a status that does not allow trading are never empty,
    and only the reason [market closed] mentions the market. *)
Lemma blockReasons_classified (status : AccountStatus) :
  isTradingAllowed status = false ->
  blockReasons status <> []
  /\ unavailable ("Trading not available: "
                    ++ Js.join ", " (blockReasons status))
     = Js.new (if marketOpen status then Js.AccountBlockedException
               else Js.MarketClosedException)
         ("Trading not available: " ++ Js.join ", " (blockReasons status)).
Proof.
  destruct status as [[|] [|] [|] [|] [|] name]; cbn; intros H;
    try discriminate H; split; try discriminate; reflexivity.
Qed.

(** X15.  When the account status does not allow trading, an initialized client
    stops after the status request: it asks for no quote and moves no funds.
    The error is a [MarketClosedException] when the status reports the
    market as closed, whatever else it reports, and an
    [AccountBlockedException] otherwise; its message lists every reason. *)
Theorem executeTrade_account_not_allowed
  (rwaTokenAddress rwaSymbol : string)
  (rwaAmount usdcAmount : option Js.number) (orderSide : OrderSide)
  (userEmail : string) (targetChainId : option Z)
  (this : CrossChainAccessClient) (log : list Call)
  (status : AccountStatus) :
  initialized this = true ->
  Js.truthy_string (authToken this) = true ->
  isOpen (marketStatus S) = true ->
  api_status S = Ok status ->
  isTradingAllowed status = false ->
  executeTrade rt S rwaTokenAddress rwaSymbol rwaAmount usdcAmount orderSide
    userEmail targetChainId (this, log)
  = (Throw (Js.new (if marketOpen status then Js.AccountBlockedException
                    else Js.MarketClosedException)
              ("Trading not available: "
                 ++ Js.join ", " (blockReasons status))),
     (this, (log ++ [Api_getStatus])%list))
  /\ blockReasons status <> [].
Proof.
  intros Hinit Htoken Hopen Hstatus Hallowed.
  destruct (blockReasons_classified status Hallowed) as [Hne Hclass].
  split; [|exact Hne].
  erewrite executeTrade_refused; [|assumption|].
  2: { rewrite (checkTradingAvailability_run this log Hinit), Hopen, Htoken,
         Hstatus, Hallowed. cbn [negb]. reflexivity. }
  rewrite Hclass. reflexivity.
Qed.

(** ** Funds *)

Section Trade.
Variables rwaTokenAddress rwaSymbol userEmail : string.
Variables rwaAmount usdcAmount : option Js.number.
Variable targetChainId : option Z.
Variable this : CrossChainAccessClient.
Variable log : list Call.
Variable status : AccountStatus.
Variable quote : CrossChainAccessQuote.
Variable orderSide : OrderSide.
Variables rwa usdc : Js.number.

(** The client is ready, trading is available, the asset quotes, and one
    amount is given. *)
Hypothesis Hready : ready this = true.
Hypothesis Hopen : isOpen (marketStatus S) = true.
Hypothesis Hstatus : api_status S = Ok status.
Hypothesis Hallowed : isTradingAllowed status = true.
Hypothesis Hquote : api_assetQuote S (Js.toUpperCase rwaSymbol) = Ok quote.
Hypothesis Hamounts :
  amountsOf (getPriceForSide quote orderSide) rwaAmount usdcAmount
  = Some (rwa, usdc).

Lemma available_run :
  initialized this = true ->
  Js.truthy_string (authToken this) = true ->
  checkTradingAvailability S (this, log)
  = (Ok (true, "Trading is available"),
     (this, (log ++ [Api_getStatus])%list)).
Proof.
  intros Hinit Htoken.
  rewrite (checkTradingAvailability_run this log Hinit), Hopen, Htoken,
    Hstatus, Hallowed.
  reflexivity.
Qed.

Ltac reach_check :=
  let Hinit := fresh "Hinit" in
  let Htoken := fresh "Htoken" in
  let Htopup := fresh "Htopup" in
  unfold ready in Hready;
  apply andb_true_iff in Hready as [Hready Htopup];
  apply andb_true_iff in Hready as [Hinit Htoken];
  unfold executeTrade;
  unfold bind at 1, get at 1; cbn [fst snd]; rewrite Hinit; cbn [negb];
  unfold bind at 1, ret at 1;
  rewrite (MonadFacts.bind_step _ _ _ _ _ (available_run Hinit Htoken));
  cbn [negb];
  unfold bind at 1, getAssetQuote at 1, try_catch at 1, call at 1;
  cbn [fst snd]; rewrite Hquote;
  unfold amountsOf in Hamounts.

(** X16.  A trade that the account cannot pay for stops at the check of the
    means: for a buy the buying power is compared with the rounded notional,
    for a sell the wallet's balance of the token with the rounded quantity.
    The client throws an [InsufficientFundsException] naming both numbers,
    and neither transfers anything nor posts an order. *)
Theorem executeTrade_insufficient_funds (have : Js.number) :
  means S orderSide rwaTokenAddress = Ok have ->
  suffices orderSide have
    (needed orderSide (toFixed rt rwa RWA_DECIMALS)
       (toFixed rt usdc USDC_DECIMALS)) = false ->
  executeTrade rt S rwaTokenAddress rwaSymbol rwaAmount usdcAmount orderSide
    userEmail targetChainId (this, log)
  = (Throw (insufficient rt orderSide
              (needed orderSide (toFixed rt rwa RWA_DECIMALS)
                 (toFixed rt usdc USDC_DECIMALS)) have),
     (this,
      (log ++ [Api_getStatus; Api_getAssetQuote (Js.toUpperCase rwaSymbol);
               meansCall orderSide rwaTokenAddress])%list)).
Proof.
  intros Hmeans Hshort. reach_check.
  destruct orderSide;
    cbn [means suffices needed insufficient meansCall getPriceForSide] in *;
    destruct rwaAmount as [r|], usdcAmount as [u|];
    try discriminate Hamounts; injection Hamounts as <- <-; run_monad.
  all: unfold getAccountFunds; run_monad; try rewrite Htoken; run_monad.
  all: try (destruct (api_funds S) as [funds|]; [|discriminate Hmeans];
            injection Hmeans as <-; unfold hasSufficientFunds;
            rewrite Hshort; rewrite <- !app_assoc; reflexivity).
  all: rewrite Hmeans; apply negb_false_iff in Hshort; rewrite Hshort;
    rewrite <- !app_assoc; reflexivity.
Qed.

(** X17.  A trade that passes every check makes five requests in this order:
    account status, asset quote, means, transfer, order.  The transfer sends
    to the escrow address exactly what was checked (the rounded notional in
    USDC for a buy, the rounded quantity of the asset for a sell); the order
    carries the hash of that transfer, the quoted price of the side (ask for
    a buy, bid for a sell), the rounded quantity and notional, the wallet in
    lower case and the symbol in upper case; and the result reports what was
    paid and what is received at that price. *)
Theorem executeTrade_settles (have : Js.number) (h : string)
  (data : OrderData) :
  means S orderSide rwaTokenAddress = Ok have ->
  suffices orderSide have
    (needed orderSide (toFixed rt rwa RWA_DECIMALS)
       (toFixed rt usdc USDC_DECIMALS)) = true ->
  web3_transfer S (topupAddress this)
    (paidToken this orderSide rwaTokenAddress)
    (needed orderSide (toFixed rt rwa RWA_DECIMALS)
       (toFixed rt usdc USDC_DECIMALS)) = Ok h ->
  api_orders S
    (orderOf this rwaTokenAddress rwaSymbol orderSide
       (getPriceForSide quote orderSide) (toFixed rt rwa RWA_DECIMALS)
       (toFixed rt usdc USDC_DECIMALS) userEmail targetChainId h)
  = Ok data ->
  executeTrade rt S rwaTokenAddress rwaSymbol rwaAmount usdcAmount orderSide
    userEmail targetChainId (this, log)
  = (Ok (createTradeResult h (Some (orderIdOf data))
           (paidToken this orderSide rwaTokenAddress)
           (needed orderSide (toFixed rt rwa RWA_DECIMALS)
              (toFixed rt usdc USDC_DECIMALS))
           (receivedToken this orderSide rwaTokenAddress)
           (received orderSide (toFixed rt rwa RWA_DECIMALS)
              (toFixed rt usdc USDC_DECIMALS))
           (getPriceForSide quote orderSide) "cross_chain_access" (now rt)
           (network this) None),
     (this,
      (log ++ [Api_getStatus; Api_getAssetQuote (Js.toUpperCase rwaSymbol);
               meansCall orderSide rwaTokenAddress;
               Web3_transferToken (topupAddress this)
                 (paidToken this orderSide rwaTokenAddress)
                 (needed orderSide (toFixed rt rwa RWA_DECIMALS)
                    (toFixed rt usdc USDC_DECIMALS));
               Api_postOrders
                 (orderOf this rwaTokenAddress rwaSymbol orderSide
                    (getPriceForSide quote orderSide)
                    (toFixed rt rwa RWA_DECIMALS)
                    (toFixed rt usdc USDC_DECIMALS) userEmail targetChainId
                    h)])%list)).
Proof.
  intros Hmeans Henough Htransfer Horder. reach_check.
  unfold orderOf, orderIdOf in *.
  destruct orderSide;
    cbn [means suffices needed received paidToken receivedToken meansCall
         getPriceForSide] in *;
    destruct rwaAmount as [r|], usdcAmount as [u|];
    try discriminate Hamounts; injection Hamounts as <- <-; run_monad.
  all: unfold getAccountFunds, createOrder; run_monad;
    try rewrite Htoken; run_monad.
  all: try (destruct (api_funds S) as [funds|]; [|discriminate Hmeans];
            injection Hmeans as <-; unfold hasSufficientFunds;
            rewrite Henough).
  all: try (rewrite Hmeans; apply negb_true_iff in Henough;
            rewrite Henough).
  all: rewrite Htopup, Htransfer, Htoken, Horder; rewrite <- !app_assoc;
    reflexivity.
Qed.

End Trade.
End Checks.

(** ** Scenarios *)

Import CrossChainAccessScenario.

(** On Friday night the client refuses without contacting anyone. *)
Lemma executeTrade_outside_market_hours_witness :
  executeTrade Scenario.runtime
    (services fridayNight (activeAccount true) 1000%float)
    "0xRWA" "aapl" None (Some 100%float) BUY "user@example.com" None
    (readyClient, [])
  = (Throw (Js.new Js.MarketClosedException
              "Market is closed. Opens in 65h 29m"),
     (readyClient, [])).
Proof.
  exact (executeTrade_outside_market_hours Scenario.runtime
           (services fridayNight (activeAccount true) 1000%float)
           "0xRWA" "aapl" None (Some 100%float) BUY "user@example.com" None
           readyClient [] fridayNight eq_refl eq_refl eq_refl).
Defined.

Lemma checkTradingAvailability_total_witness :
  exists available message log',
    checkTradingAvailability
      (services fridayAfternoon (activeAccount true) 1000%float)
      (readyClient, [])
    = (Ok (available, message), (readyClient, log'))
    /\ available = true.
Proof.
  destruct (checkTradingAvailability_total
              (services fridayAfternoon (activeAccount true) 1000%float)
              readyClient [] eq_refl)
    as (available & message & log' & Hrun & Hiff & _).
  exists available, message, log'. split; [exact Hrun|].
  apply Hiff. split; [reflexivity|]. split; [reflexivity|].
  exists (activeAccount true). split; reflexivity.
Defined.

(** Blocked trading and transfers during market hours: an
    [AccountBlockedException]. *)
Lemma executeTrade_account_not_allowed_witness :
  executeTrade Scenario.runtime
    (services fridayAfternoon blockedAccount 1000%float)
    "0xRWA" "aapl" None (Some 100%float) BUY "user@example.com" None
    (readyClient, [])
  = (Throw (Js.new Js.AccountBlockedException
              "Trading not available: trading blocked, transfers blocked"),
     (readyClient, [Api_getStatus])).
Proof.
  exact (proj1 (executeTrade_account_not_allowed Scenario.runtime
                  (services fridayAfternoon blockedAccount 1000%float)
                  "0xRWA" "aapl" None (Some 100%float) BUY
                  "user@example.com" None readyClient [] blockedAccount
                  eq_refl eq_refl eq_refl eq_refl eq_refl)).
Defined.

(** The account reports the market as closed while the clock says open: a
    [MarketClosedException]. *)
Example account_reports_market_closed :
  fst (executeTrade Scenario.runtime
         (services fridayAfternoon (activeAccount false) 1000%float)
         "0xRWA" "aapl" None (Some 100%float) BUY "user@example.com" None
         (readyClient, []))
  = Throw (Js.new Js.MarketClosedException
             "Trading not available: market closed").
Proof. reflexivity. Qed.

(** Buying for 100 USDC with a buying power of 10. *)
Lemma executeTrade_insufficient_funds_witness :
  executeTrade Scenario.runtime
    (services fridayAfternoon (activeAccount true) 10%float)
    "0xRWA" "aapl" None (Some 100%float) BUY "user@example.com" None
    (readyClient, [])
  = (Throw (Js.new Js.InsufficientFundsException
              "Insufficient buying power: need $100, have $10"),
     (readyClient, [Api_getStatus; Api_getAssetQuote "AAPL"; Api_getFunds])).
Proof.
  exact (executeTrade_insufficient_funds Scenario.runtime
           (services fridayAfternoon (activeAccount true) 10%float)
           "0xRWA" "aapl" "user@example.com" None (Some 100%float) None
           readyClient [] (activeAccount true) aapl BUY
           (100 / 2)%float 100%float
           eq_refl eq_refl eq_refl eq_refl eq_refl eq_refl
           10%float eq_refl eq_refl).
Defined.

(** Selling 20 tokens at the bid price 1.5: the tokens go to the escrow
    address and the order is for a notional of 30. *)
Lemma executeTrade_settles_witness :
  executeTrade Scenario.runtime
    (services fridayAfternoon (activeAccount true) 1000%float)
    "0xRWA" "aapl" (Some 20%float) None SELL "user@example.com" None
    (readyClient, [])
  = (Ok (createTradeResult "0xabc123" (Some "order-1") "0xRWA" 20%float
           "0xUSDC" 30%float 1.5%float "cross_chain_access"
           1700000000000%Z POLYGON None),
     (readyClient,
      [Api_getStatus; Api_getAssetQuote "AAPL"; Web3_getBalance "0xRWA";
       Web3_transferToken (Some "0xEscrow") "0xRWA" 20%float;
       Api_postOrders
         {| req_wallet := "0xwallet"; req_tx_hash := "0xabc123";
            req_asset := "0xRWA"; req_asset_symbol := "AAPL";
            req_side := SELL; req_price := 1.5%float;
            req_qty := 20%float; req_notional := 30%float;
            req_chain_id := 137; req_target_chain_id := 137;
            req_user_email := "user@example.com" |}])).
Proof.
  exact (executeTrade_settles Scenario.runtime
           (services fridayAfternoon (activeAccount true) 1000%float)
           "0xRWA" "aapl" "user@example.com" (Some 20%float) None None
           readyClient [] (activeAccount true) aapl SELL
           20%float (20 * 1.5)%float
           eq_refl eq_refl eq_refl eq_refl eq_refl eq_refl
           100%float "0xabc123"
           {| data_id := Some "order-1"; data_symbol := Some "AAPL";
              data_side := Some "buy"; data_qty := Some 50%float;
              data_filled_qty := None; data_status := Some "pending" |}
           eq_refl eq_refl eq_refl eq_refl).
Defined.

End CrossChainAccessCheckFacts.

(* ================================================================== *)
(** * The Market Maker venue: what its errors are, and missing amounts *)
(* ================================================================== *)

Module MarketMakerErrorFacts.
Import MarketMaker MarketMakerRuns.

Ltac run_monad :=
  cbv beta iota delta
    [bind try_catch call lift get put ret throw fst snd negb].

Section Errors.
Variable rt : Runtime.
Variable S : Services.

(** The handler of [trade]: rethrow the two classes, wrap the rest. *)
Lemma trade_handler_classes {A} (body : M MarketMakerClient Call A) w e :
  fst (try_catch body
         (fun error =>
            if Js.instanceof error Js.NoOffersAvailableException
               || Js.instanceof error Js.MarketMakerWeb3Exception
            then throw error
            else throw (Js.new Js.MarketMakerWeb3Exception
                          ("Trade execution failed: "
                             ++ Js.toString error))) w) = Throw e ->
  Js.instanceof e Js.NoOffersAvailableException
  || Js.instanceof e Js.MarketMakerWeb3Exception = true.
Proof.
  unfold try_catch. destruct (body w) as [[a|cause] w']; cbn [fst];
    [discriminate|].
  destruct (_ || _) eqn:E; unfold throw; cbn [fst]; intros [= <-];
    [exact E|reflexivity].
Qed.

(** The step [if (!this.initialized) await this.initialize()]. *)
Lemma ensure_initialized_run (this : MarketMakerClient) (log : list Call) :
  (if negb (initialized this) then initialize S else ret tt) (this, log)
  = if initialized this then (Ok tt, (this, log))
    else match auth_verify S (privateKey this) with
         | Ok _ =>
             (Ok tt,
              (authenticated this,
               (log ++ [Auth_verify (privateKey this)])%list))
         | Throw e =>
             (Throw e, (this, (log ++ [Auth_verify (privateKey this)])%list))
         end.
Proof.
  unfold initialize, authenticated. run_monad.
  destruct (initialized this) eqn:E; [reflexivity|]. run_monad.
  rewrite E. destruct (auth_verify S (privateKey this)) as [[]|]; reflexivity.
Qed.

(** X18.  Whatever goes wrong in [trade] once the client is authenticated (the
    RPQ service, a malformed offer, the chain), the error that reaches the
    caller is a [NoOffersAvailableException] or a
    [MarketMakerWeb3Exception].  The only other error is the one of a failed
    authentication, which [trade] lets through as it is. *)
Theorem trade_errors_classified
  (fromToken toToken : string) (fromAmount toAmount : option Js.number)
  (affiliate : option string) (this : MarketMakerClient) (log : list Call)
  (e : Js.error) :
  fst (trade rt S fromToken toToken fromAmount toAmount affiliate
         (this, log)) = Throw e ->
  (initialized this = false /\ auth_verify S (privateKey this) = Throw e)
  \/ Js.instanceof e Js.NoOffersAvailableException
     || Js.instanceof e Js.MarketMakerWeb3Exception = true.
Proof.
  unfold trade. unfold bind at 1, get at 1. cbn [fst snd].
  unfold bind at 1. rewrite ensure_initialized_run.
  destruct (initialized this) eqn:Einit.
  - intros H. right. exact (trade_handler_classes _ _ _ H).
  - destruct (auth_verify S (privateKey this)) as [[]|cause].
    + intros H. right. exact (trade_handler_classes _ _ _ H).
    + cbn [fst]. intros [= <-]. left. auto.
Qed.

(** X19.  An amount that is [undefined], [0] or NaN counts as not given.  With
    no amount given, [trade] fails on the validation of the best-offers
    request, wrapped in a [MarketMakerWeb3Exception], before any request is
    sent and without submitting a transaction. *)
Theorem trade_without_amount
  (fromToken toToken : string) (fromAmount toAmount : option Js.number)
  (affiliate : option string) (this : MarketMakerClient) (log : list Call) :
  initialized this = true ->
  Js.truthy_number fromAmount = false ->
  Js.truthy_number toAmount = false ->
  trade rt S fromToken toToken fromAmount toAmount affiliate (this, log)
  = (Throw (tradeFailed
              (Js.new Js.Error
                 "Must specify either targetSellAmount OR targetBuyAmount")),
     (this, log)).
Proof.
  intros Hinit Hfrom Hto.
  assert (Tf : amountText rt fromAmount = None)
    by (unfold amountText; destruct fromAmount; [rewrite Hfrom|]; reflexivity).
  assert (Tt : amountText rt toAmount = None)
    by (unfold amountText; destruct toAmount; [rewrite Hto|]; reflexivity).
  unfold trade, getBestOffers. rewrite Tf, Tt. run_monad.
  rewrite Hinit. reflexivity.
Qed.

(** X20.  When the RPQ service has nothing for the pair (its answer carries no
    result, or a result that selects no offer), [trade] throws a
    [NoOffersAvailableException] after that one request and submits no
    transaction. *)
Theorem trade_no_offers
  (fromToken toToken : string) (fromAmount toAmount : option Js.number)
  (affiliate : option string) (this : MarketMakerClient) (log : list Call)
  (response : BestOffersAPIResponse) :
  initialized this = true ->
  xorb (Js.truthy_string (amountText rt fromAmount))
       (Js.truthy_string (amountText rt toAmount)) = true ->
  get_best S (bestOffersQuery rt this fromToken toToken fromAmount toAmount)
  = Ok response ->
  match api_result response with
  | None => True
  | Some resultData =>
      api_selectedOffers resultData = None
      \/ api_selectedOffers resultData = Some []
  end ->
  trade rt S fromToken toToken fromAmount toAmount affiliate (this, log)
  = (Throw (Js.new Js.NoOffersAvailableException
              match api_result response with
              | None =>
                  "No offers available for " ++ fromToken ++ " -> "
                    ++ toToken
              | Some _ => "No suitable offers found for this trade"
              end),
     (this,
      (log ++ [Http_get "/dotc_offers/best"
                 (bestOffersQuery rt this fromToken toToken fromAmount
                    toAmount)])%list)).
Proof.
  intros Hinit Hone Hbest Hempty. unfold bestOffersQuery in Hbest.
  unfold trade, getBestOffers, bestOffersQuery. run_monad. rewrite Hinit.
  run_monad.
  destruct (Js.truthy_string (amountText rt fromAmount)),
           (Js.truthy_string (amountText rt toAmount));
    try discriminate Hone; cbn [andb negb]; run_monad; rewrite Hbest;
    destruct (api_result response) as [resultData|]; try reflexivity;
    cbn [result selectedOffers];
    destruct Hempty as [-> | ->]; reflexivity.
Qed.

(** X21.  [getBestOffers] wants exactly one target amount.  With both or with
    none it throws a plain [Error] before any request, the one error of the
    RPQ client that is not an [RPQServiceException].  With one amount it
    sends one request, needs no API key, and every error it throws is an
    [RPQServiceException]: a [NoOffersAvailableException] when the answer
    carries no result, and a wrapped cause otherwise. *)
Theorem getBestOffers_errors
  (buyAssetAddress sellAssetAddress : string)
  (targetSellAmount targetBuyAmount : option string)
  (this : MarketMakerClient) (log : list Call) :
  if xorb (Js.truthy_string targetSellAmount)
          (Js.truthy_string targetBuyAmount)
  then
    snd (getBestOffers S buyAssetAddress sellAssetAddress targetSellAmount
           targetBuyAmount (this, log))
    = (this,
       (log ++ [Http_get "/dotc_offers/best"
                  ([("network", getNetworkName (network this));
                    ("buyAssetAddress", buyAssetAddress);
                    ("sellAssetAddress", sellAssetAddress)]
                   ++ param "targetSellAmount" targetSellAmount
                   ++ param "targetBuyAmount" targetBuyAmount)])%list)
    /\ match fst (getBestOffers S buyAssetAddress sellAssetAddress
                    targetSellAmount targetBuyAmount (this, log)) with
       | Ok response => True
       | Throw e => Js.instanceof e Js.RPQServiceException = true
       end
  else
    getBestOffers S buyAssetAddress sellAssetAddress targetSellAmount
      targetBuyAmount (this, log)
    = (Throw (Js.new Js.Error
                (if Js.truthy_string targetSellAmount
                 then "Specify either targetSellAmount OR targetBuyAmount, not both"
                 else "Must specify either targetSellAmount OR targetBuyAmount")),
       (this, log)).
Proof.
  unfold getBestOffers. run_monad.
  destruct (Js.truthy_string targetSellAmount),
           (Js.truthy_string targetBuyAmount);
    cbn [xorb andb]; try reflexivity.
  all: destruct (get_best S _) as [response|cause]; run_monad;
    [destruct (api_result response); split; reflexivity|].
  all: destruct (Js.instanceof cause Js.APIException
                 && (Js.statusCode cause =? 400)%Z);
    [split; reflexivity|].
  all: destruct (Js.instanceof cause Js.NoOffersAvailableException) eqn:E;
    (split; [reflexivity|]); cbn [fst]; try reflexivity.
  all: revert E; unfold Js.instanceof; destruct (Js.cls cause);
    cbn; congruence.
Qed.

(** X22.  [getQuote] needs no authentication and sends at most the one quote
    request; without an API key it sends nothing.  Every error it throws
    is an [RPQServiceException]: a 400 becomes a
    [QuoteUnavailableException], and anything else, a request with both
    amounts included, is reported under that class too. *)
Theorem getQuote_errors
  (fromToken toToken : string) (fromAmount toAmount : option Js.number)
  (this : MarketMakerClient) (log : list Call) :
  (snd (getQuote rt S fromToken toToken fromAmount toAmount (this, log))
   = (this, log)
   \/ snd (getQuote rt S fromToken toToken fromAmount toAmount (this, log))
      = (this,
         (log ++ [Http_get "/dotc_offers/quote"
                    (quoteQuery rt this fromToken toToken fromAmount
                       toAmount)])%list))
  /\
  (Js.truthy_string (apiKey this) = false ->
   getQuote rt S fromToken toToken fromAmount toAmount (this, log)
   = (Throw (Js.new Js.RPQServiceException
               "API key is required for get_quote endpoint"),
      (this, log)))
  /\
  match fst (getQuote rt S fromToken toToken fromAmount toAmount
               (this, log)) with
  | Ok quote => source quote = "Market Maker RPQ"
  | Throw e => Js.instanceof e Js.RPQServiceException = true
  end.
Proof.
  unfold getQuote, rpq_getQuote, requestQuote, quoteQuery. run_monad.
  destruct (Js.truthy_string (apiKey this)); run_monad.
  2: { split; [left; reflexivity|]. split; reflexivity. }
  destruct (Js.truthy_string (amountText rt fromAmount)
            && Js.truthy_string (amountText rt toAmount)); run_monad.
  { split; [left; reflexivity|]. split; [discriminate|]. reflexivity. }
  destruct (get_quote S _) as [q|cause]; run_monad.
  { split; [right; reflexivity|]. split; [discriminate|]. reflexivity. }
  repeat match goal with
         | |- context [if ?b then _ else _] => destruct b
         end;
    (split; [right; reflexivity|]); (split; [discriminate|]); reflexivity.
Qed.

End Errors.

(** ** Scenarios *)

Import MarketMakerScenario.

(** A dynamic offer without its rate: the error is raised by [trade]
    itself. *)
Lemma trade_errors_classified_witness :
  fst (trade Scenario.runtime (Scenario.rpq Scenario.dynamicOfferNoRate)
         "0xUSDC" "0xRWA" (Some 100%float) None None
         (Scenario.marketMaker, []))
  = Throw (Js.new Js.MarketMakerWeb3Exception
             "Dynamic offer 42 missing depositToWithdrawalRate")
  /\ Js.instanceof
       (Js.new Js.MarketMakerWeb3Exception
          "Dynamic offer 42 missing depositToWithdrawalRate")
       Js.MarketMakerWeb3Exception = true.
Proof.
  split; [reflexivity|].
  destruct (trade_errors_classified Scenario.runtime
              (Scenario.rpq Scenario.dynamicOfferNoRate)
              "0xUSDC" "0xRWA" (Some 100%float) None None
              Scenario.marketMaker [] _ eq_refl) as [[_ H]|H].
  - discriminate H.
  - reflexivity.
Defined.

(** Selling an amount of 0. *)
Lemma trade_without_amount_witness :
  trade Scenario.runtime (Scenario.rpq Scenario.fixedOffer)
    "0xUSDC" "0xRWA" (Some 0%float) None None (readyMaker, [])
  = (Throw (Js.new Js.MarketMakerWeb3Exception
              "Trade execution failed: Error: Must specify either targetSellAmount OR targetBuyAmount"),
     (readyMaker, [])).
Proof.
  exact (trade_without_amount Scenario.runtime
           (Scenario.rpq Scenario.fixedOffer)
           "0xUSDC" "0xRWA" (Some 0%float) None None readyMaker []
           eq_refl eq_refl eq_refl).
Defined.

Lemma trade_no_offers_witness :
  trade Scenario.runtime noOffers "0xUSDC" "0xRWA" (Some 100%float) None
    None (readyMaker, [])
  = (Throw (Js.new Js.NoOffersAvailableException
              "No suitable offers found for this trade"),
     (readyMaker,
      [Http_get "/dotc_offers/best"
         [("network", "polygon"); ("buyAssetAddress", "0xRWA");
          ("sellAssetAddress", "0xUSDC"); ("targetSellAmount", "100")]])).
Proof.
  exact (trade_no_offers Scenario.runtime noOffers "0xUSDC" "0xRWA"
           (Some 100%float) None None readyMaker [] _
           eq_refl eq_refl eq_refl (or_intror eq_refl)).
Defined.

End MarketMakerErrorFacts.

(* ================================================================== *)
(** * The HTTP client: retries and pauses *)
(* ================================================================== *)

Module BaseClientFacts.
Import BaseClient.

Ltac run_monad :=
  cbv beta iota delta
    [bind try_catch call lift get put ret throw fst snd negb].

(** ** Comparisons of numbers *)

Lemma ltb_leb (x y : Js.number) :
  PrimFloat.ltb x y = true -> PrimFloat.leb x y = true.
Proof.
  rewrite FloatAxioms.ltb_spec, FloatAxioms.leb_spec.
  unfold SpecFloat.SFltb, SpecFloat.SFleb.
  destruct (SpecFloat.SFcompare _ _) as [[]|]; congruence.
Qed.

Lemma eqb_leb (x y : Js.number) :
  PrimFloat.eqb x y = true -> PrimFloat.leb x y = true.
Proof.
  rewrite FloatAxioms.eqb_spec, FloatAxioms.leb_spec.
  unfold SpecFloat.SFeqb, SpecFloat.SFleb.
  destruct (SpecFloat.SFcompare _ _) as [[]|]; congruence.
Qed.

(** A number that compares with another is not NaN, and is at most
    itself. *)
Lemma compared_leb_refl (x y : Js.number) :
  PrimFloat.ltb x y || PrimFloat.eqb y x = true ->
  PrimFloat.leb x x = true.
Proof.
  intros H. apply eqb_leb.
  destruct (PrimFloat.eqb x x) eqn:E; [reflexivity|exfalso].
  assert (Hnan : FloatOps.Prim2SF x = SpecFloat.S754_nan)
    by (apply RoutingOrderFacts.isNaN_spec;
        unfold RoutingErrors.isNaN; rewrite E; reflexivity).
  revert H. rewrite FloatAxioms.ltb_spec, FloatAxioms.eqb_spec, Hnan.
  unfold SpecFloat.SFltb, SpecFloat.SFeqb.
  destruct (FloatOps.Prim2SF y); discriminate.
Qed.

(** [Math.min] never exceeds its second argument. *)
Lemma Math_min_capped (x y : Js.number) :
  PrimFloat.leb (Math_min x y) y = true
  \/ PrimFloat.is_nan (Math_min x y) = true.
Proof.
  unfold Math_min.
  destruct (PrimFloat.ltb x y) eqn:Exy; [left; apply ltb_leb; exact Exy|].
  destruct (PrimFloat.ltb y x) eqn:Eyx.
  { left. apply (compared_leb_refl y x). rewrite Eyx. reflexivity. }
  destruct (PrimFloat.eqb x y) eqn:Eeq; [|right; reflexivity].
  left. destruct (PrimFloat.get_sign x); [apply eqb_leb; exact Eeq|].
  apply (compared_leb_refl y x). rewrite Eeq. apply orb_true_r.
Qed.

Section Retries.
Context {T D : Type}.
Variable rt : Runtime.
Variable E : Engine D.
Variable N : Network T.
Variables method url : string.
Variable data : option D.

(** One pass of the loop, in closed form. *)
Lemma pass_run (n : nat) (this : BaseAPIClient) (log : list Call) :
  pass rt E N (count n) method url data (this, log)
  = match passOutcome E N method data n with
    | Ok responseData =>
        (Ok (Return responseData),
         (this, (log ++ sends E this method url data)%list))
    | Throw e =>
        if retried E N this method data n then
          (Ok (Continue e),
           (this,
            (log ++ sends E this method url data
                 ++ [Sleep (calculateDelay rt (count n)
                              (retryOptions this))])%list))
        else (Throw e, (this, (log ++ sends E this method url data)%list))
    end.
Proof.
  unfold pass, retried, passOutcome, sends, bodyOf, attemptOutcome.
  destruct data as [d|]; [destruct (JSON_stringify E d) as [text|e]|];
    run_monad.
  2: { destruct (_ && _); cbn [app]; rewrite ?app_nil_r; reflexivity. }
  all: destruct (fetch N (count n)) as [response|e]; run_monad;
    [destruct (ok response); run_monad;
     [destruct (json response) as [j|e]; run_monad; [reflexivity|]|]|].
  all: destruct (_ && _); run_monad; rewrite <- ?app_assoc; reflexivity.
Qed.

(** The loop from pass number [m] on, when the pass that settles the
    request is [n] passes later. *)
Lemma attempts_run (n : nat) :
  forall (m fuel : nat) (lastError : option Js.error)
    (this : BaseAPIClient) (log : list Call),
  (forall j, (j <= n)%nat -> admitted this (m + j) = true) ->
  (forall j, (j < n)%nat -> retried E N this method data (m + j) = true) ->
  retried E N this method data (m + n) = false ->
  (n < fuel)%nat ->
  attempts rt E N fuel (count m) lastError method url data (this, log)
  = Some (passOutcome E N method data (m + n),
          (this,
           (log ++ trace rt this (sends E this method url data) n
                     (count m))%list)).
Proof.
  induction n as [|n IH]; intros m fuel lastError this log Hin Hbefore
    Hlast Hfuel.
  - destruct fuel as [|fuel]; [lia|].
    assert (Hm := Hin 0%nat (Nat.le_refl _)).
    rewrite Nat.add_0_r in *. unfold admitted in Hm.
    cbn [attempts trace fst]. rewrite Hm, pass_run, Hlast.
    destruct (passOutcome E N method data m); reflexivity.
  - destruct fuel as [|fuel]; [lia|].
    assert (Hm := Hin 0%nat (Nat.le_0_l _)).
    assert (Hretry := Hbefore 0%nat (Nat.lt_0_succ _)).
    rewrite Nat.add_0_r in *. unfold admitted in Hm.
    cbn [attempts trace fst]. rewrite Hm, pass_run, Hretry.
    destruct (passOutcome E N method data m) as [d|e] eqn:Eout.
    { unfold retried in Hretry. rewrite Eout, andb_false_r in Hretry.
      discriminate Hretry. }
    change (count m + 1)%float with (count (S m)).
    rewrite (IH (S m) fuel (Some e) this).
    + rewrite <- Nat.add_succ_comm, <- !app_assoc. reflexivity.
    + intros j Hj. rewrite Nat.add_succ_comm. apply Hin. lia.
    + intros j Hj. rewrite Nat.add_succ_comm. apply Hbefore. lia.
    + rewrite Nat.add_succ_comm. exact Hlast.
    + lia.
Qed.

(** What a run of [n + 1] passes sends, and how long it pauses. *)
Lemma trace_fetches (this : BaseAPIClient) (sent : list Call) (n : nat) :
  forallb isFetch sent = true ->
  forall attempt,
    length (filter isFetch (trace rt this sent n attempt))
    = (S n * length sent)%nat
    /\ pausesWithin (maxDelayMs (retryOptions this))
         (trace rt this sent n attempt).
Proof.
  intros Hsent.
  assert (Hfilter : filter isFetch sent = sent).
  { clear -Hsent. induction sent as [|c l IH]; [reflexivity|].
    cbn in *. apply andb_true_iff in Hsent as [-> Hl].
    rewrite (IH Hl). reflexivity. }
  assert (Hquiet : pausesWithin (maxDelayMs (retryOptions this)) sent).
  { clear -Hsent. unfold pausesWithin.
    induction sent as [|c l IH]; [constructor|].
    cbn in Hsent. apply andb_true_iff in Hsent as [Hc Hl].
    constructor; [destruct c; [exact I|discriminate Hc]|exact (IH Hl)]. }
  unfold pausesWithin in *.
  induction n as [|n IH]; intros attempt; cbn [trace].
  - rewrite Hfilter. split; [cbn; lia|exact Hquiet].
  - destruct (IH (attempt + 1)%float) as [Hlen Hp].
    rewrite filter_app. cbn [filter isFetch].
    rewrite Hfilter, length_app, Hlen. split; [lia|].
    apply Forall_app. split; [exact Hquiet|].
    constructor; [|exact Hp].
    unfold calculateDelay. apply Math_min_capped.
Qed.

End Retries.

(** X23.  [makeRequest] builds the URL first: when [new URL] throws, it
    throws that error and sends nothing.  When [maxAttempts] is not above
    0 (it is 0, negative or NaN), it sends nothing and throws an
    [APIException] of its own.  Otherwise let pass [n] of the loop be the
    first that is not retried, the passes before it having failed with a
    retryable error (a [TypeError], a 429 or a status of 500 and more)
    while [attempt < maxAttempts - 1].  Then the caller gets what pass [n]
    came to, its body or its error as it is; the same request was sent
    [n + 1] times (not at all when the data cannot be serialized), with a
    pause after each pass but the last, and every pause is at most
    [maxDelayMs], or NaN. *)
Theorem makeRequest_retries {T D} (rt : Runtime) (E : Engine D)
  (N : Network T) (method endpoint : string) (data : option D)
  (params : option (list (string * option string)))
  (this : BaseAPIClient) (log : list Call) (fuel : nat) :
  match newURL E (baseUrl this ++ "/" ++ stripSlash endpoint) with
  | Throw e =>
      makeRequest rt E N fuel method endpoint data params (this, log)
      = Some (Throw e, (this, log))
  | Ok url =>
      (admitted this 0 = false ->
       makeRequest rt E N fuel method endpoint data params (this, log)
       = Some (Throw (Js.new Js.APIException "Max retries exceeded"),
               (this, log)))
      /\
      (forall n : nat,
         (forall j, (j <= n)%nat -> admitted this j = true) ->
         (forall j, (j < n)%nat ->
            retried E N this method data j = true) ->
         retried E N this method data n = false ->
         (n < fuel)%nat ->
         makeRequest rt E N fuel method endpoint data params (this, log)
         = Some (passOutcome E N method data n,
                 (this,
                  (log ++ trace rt this
                            (sends E this method (withParams E url params)
                               data) n 0%float)%list))
         /\ length
              (filter isFetch
                 (trace rt this
                    (sends E this method (withParams E url params) data)
                    n 0%float))
            = (S n * length (sends E this method (withParams E url params)
                               data))%nat
         /\ pausesWithin (maxDelayMs (retryOptions this))
              (trace rt this
                 (sends E this method (withParams E url params) data)
                 n 0%float))
  end.
Proof.
  unfold makeRequest. cbn [fst].
  destruct (newURL E _) as [url|e]; [|reflexivity].
  split.
  - unfold admitted. cbn [count]. intros Hnone.
    destruct fuel; cbn [attempts fst]; rewrite Hnone; reflexivity.
  - intros n Hin Hbefore Hlast Hfuel. split.
    + exact (attempts_run rt E N method (withParams E url params) data n
               0 fuel None this log Hin Hbefore Hlast Hfuel).
    + apply trace_fetches. unfold sends.
      destruct (bodyOf E method data); reflexivity.
Qed.

(** ** Scenarios *)

Import BaseClientScenario.

(** The service is overloaded twice and then answers. *)
Example recovering_request :
  makeRequest runtime engine recovering 3 "GET" "/status" None None
    (client, [])
  = Some
      (Ok "account",
       (client,
        [Fetch "GET" "https://api.example.com/status"
           [("Content-Type", "application/json")] None;
         Sleep 2000%float;
         Fetch "GET" "https://api.example.com/status"
           [("Content-Type", "application/json")] None;
         Sleep 4000%float;
         Fetch "GET" "https://api.example.com/status"
           [("Content-Type", "application/json")] None])).
Proof. reflexivity. Qed.

(** A missing resource is asked for once. *)
Example missing_request :
  makeRequest runtime engine missing 1 "GET" "/status" None None
    (client, [])
  = Some
      (Throw (Js.newAPIException "Not Found" 404),
       (client,
        [Fetch "GET" "https://api.example.com/status"
           [("Content-Type", "application/json")] None])).
Proof. reflexivity. Qed.

(** A base URL without its scheme: nothing is sent, at any fuel. *)
Example misconfigured_request (fuel : nat) :
  makeRequest runtime engine recovering fuel "GET" "/status" None None
    (misconfigured, [])
  = Some (Throw (Js.new Js.TypeError "Invalid URL"), (misconfigured, [])).
Proof. reflexivity. Qed.

(** With [maxAttempts] 2.5 the request is sent three times. *)
Example fractional_attempts :
  makeRequest runtime engine recovering 3 "GET" "/status" None None
    ({| baseUrl := "https://api.example.com";
        authToken := None;
        headers := [];
        retryOptions :=
          {| maxAttempts := 2.5%float; initialDelayMs := 2000%float;
             maxDelayMs := 10000%float; multiplier := 2%float |} |}, [])
  = Some
      (Ok "account",
       ({| baseUrl := "https://api.example.com";
           authToken := None;
           headers := [];
           retryOptions :=
             {| maxAttempts := 2.5%float; initialDelayMs := 2000%float;
                maxDelayMs := 10000%float; multiplier := 2%float |} |},
        [Fetch "GET" "https://api.example.com/status" [] None;
         Sleep 2000%float;
         Fetch "GET" "https://api.example.com/status" [] None;
         Sleep 4000%float;
         Fetch "GET" "https://api.example.com/status" [] None])).
Proof. reflexivity. Qed.

Lemma makeRequest_retries_witness :
  makeRequest runtime engine recovering 3 "GET" "/status" None None
    (client, [])
  = Some (passOutcome engine recovering "GET" None 2,
          (client,
           trace runtime client
             (sends engine client "GET" "https://api.example.com/status"
                None) 2 0%float)).
Proof.
  refine (proj1 (proj2 (makeRequest_retries runtime engine recovering "GET"
                          "/status" None None client [] 3) 2%nat _ _ _ _)).
  - intros [|[|[|j]]] Hj; [reflexivity|reflexivity|reflexivity|lia].
  - intros [|[|j]] Hj; [reflexivity|reflexivity|lia].
  - reflexivity.
  - lia.
Defined.

End BaseClientFacts.

(* ================================================================== *)
(** * The Web3 helper: decimals, balance check and receipts *)
(* ================================================================== *)

Module Web3Facts.
Import Web3.

Ltac run_monad :=
  cbv beta iota delta
    [bind try_catch call lift get put ret throw fst snd negb].

Lemma mapGet_mapSet {V} (m : list (string * V)) (key : string) (value : V) :
  mapGet (mapSet m key value) key = Some value
  /\ forall other, other <> key ->
       mapGet (mapSet m key value) other = mapGet m other.
Proof.
  induction m as [|[k v] m [IHsame IHother]]; cbn [mapSet mapGet].
  - rewrite String.eqb_refl. split; [reflexivity|].
    intros other H. apply not_eq_sym in H.
    apply String.eqb_neq in H. rewrite H. reflexivity.
  - destruct (String.eqb_spec k key) as [->|Hk]; cbn [mapGet].
    + rewrite String.eqb_refl. split; [reflexivity|].
      intros other H. apply not_eq_sym in H.
      apply String.eqb_neq in H. rewrite H. reflexivity.
    + apply String.eqb_neq in Hk. rewrite Hk. split; [exact IHsame|].
      intros other H. destruct (String.eqb k other); [reflexivity|].
      apply IHother. exact H.
Qed.

Section Helper.
Variable rt : Runtime.
Variable L : Lib.
Variable C : Chain.

Lemma getTokenDecimals_run (token : string) (this : Web3Helper)
  (log : list Call) :
  getTokenDecimals C token (this, log)
  = (Ok (decimalsOf C this token),
     (remembering C this token, (log ++ decimalsCalls this token)%list)).
Proof.
  unfold getTokenDecimals, decimalsOf, remembering, decimalsCalls.
  run_monad.
  destruct (mapGet (decimalsCache this) token) as [cached|]; run_monad.
  - rewrite app_nil_r. reflexivity.
  - destruct (decimals C token); reflexivity.
Qed.

(** X25.  [getTokenDecimals] never throws: it answers the cached value, else
    what the contract says, else 18.  A value read from the contract is
    remembered, so asking again for the same token makes no call and gives
    the same answer, and what is remembered for other tokens is untouched.
    The default 18 is not remembered: after a failed read the helper is
    unchanged and the next call asks the contract again. *)
Theorem getTokenDecimals_cached (token : string) (this : Web3Helper)
  (log : list Call) :
  fst (getTokenDecimals C token (this, log)) = Ok (decimalsOf C this token)
  /\
  (forall other, other <> token ->
     mapGet (decimalsCache
               (fst (snd (getTokenDecimals C token (this, log))))) other
     = mapGet (decimalsCache this) other)
  /\
  match mapGet (decimalsCache this) token, decimals C token with
  | None, Throw _ =>
      decimalsOf C this token = 18%float
      /\ snd (getTokenDecimals C token (this, log))
         = (this, (log ++ [Read_decimals token])%list)
  | _, _ =>
      getTokenDecimals C token (snd (getTokenDecimals C token (this, log)))
      = (Ok (decimalsOf C this token),
         snd (getTokenDecimals C token (this, log)))
  end.
Proof.
  rewrite !getTokenDecimals_run. cbn [fst snd].
  unfold decimalsOf, remembering, decimalsCalls.
  destruct (mapGet (decimalsCache this) token) as [cached|] eqn:Ecache.
  - split; [reflexivity|]. split; [reflexivity|].
    rewrite getTokenDecimals_run. unfold decimalsOf, remembering,
      decimalsCalls. rewrite Ecache, app_nil_r. reflexivity.
  - destruct (decimals C token) as [value|e] eqn:Eread.
    + split; [reflexivity|]. cbn [decimalsCache].
      destruct (mapGet_mapSet (decimalsCache this) token value)
        as [Hsame Hother].
      split; [exact Hother|].
      rewrite getTokenDecimals_run. unfold decimalsOf, remembering,
        decimalsCalls. cbn [decimalsCache]. rewrite Hsame, app_nil_r.
      reflexivity.
    + repeat split.
Qed.

Lemma getBalance_run (token : string) (this : Web3Helper) (log : list Call)
  (wei : Z) :
  balanceOf C token (address this) = Ok wei ->
  getBalance rt L C token (this, log)
  = (Ok (parseFloat rt (formatUnits L wei (decimalsOf C this token))),
     (remembering C this token,
      (log ++ Read_balanceOf token (address this)
           :: decimalsCalls this token)%list)).
Proof.
  intros Hwei. unfold getBalance.
  unfold bind at 1, get at 1. cbn [fst snd].
  unfold bind at 1, call at 1. cbn [fst snd]. rewrite Hwei.
  rewrite (MonadFacts.bind_step _ _ _ _ _ (getTokenDecimals_run token this _)).
  unfold ret. rewrite <- app_assoc. reflexivity.
Qed.

(** X26.  [transferToken] reads the balance first.  When the wallet holds less
    than the amount it throws an [InsufficientBalanceException] that names
    the token and both numbers; it has then estimated no gas and submitted
    no transaction. *)
Theorem transferToken_insufficient_balance
  (toAddress token : string) (amount : Js.number) (waitForReceipt : bool)
  (this : Web3Helper) (log : list Call) (wei : Z) :
  balanceOf C token (address this) = Ok wei ->
  PrimFloat.ltb
    (parseFloat rt (formatUnits L wei (decimalsOf C this token))) amount
  = true ->
  transferToken rt L C toAddress token amount waitForReceipt (this, log)
  = (Throw (Js.new Js.InsufficientBalanceException
              ("Insufficient " ++ token ++ " balance: required "
                 ++ String_of_number rt amount ++ ", available "
                 ++ String_of_number rt
                      (parseFloat rt
                         (formatUnits L wei (decimalsOf C this token))))),
     (remembering C this token,
      (log ++ Read_balanceOf token (address this)
           :: decimalsCalls this token)%list))
  /\ filter isWrite
       (calls (snd (transferToken rt L C toAddress token amount
                      waitForReceipt (this, log))))
     = filter isWrite log.
Proof.
  intros Hwei Hshort.
  assert (Hrun :
    transferToken rt L C toAddress token amount waitForReceipt (this, log)
    = (Throw (Js.new Js.InsufficientBalanceException
                ("Insufficient " ++ token ++ " balance: required "
                   ++ String_of_number rt amount ++ ", available "
                   ++ String_of_number rt
                        (parseFloat rt
                           (formatUnits L wei (decimalsOf C this token))))),
       (remembering C this token,
        (log ++ Read_balanceOf token (address this)
             :: decimalsCalls this token)%list))).
  { unfold transferToken.
    rewrite (MonadFacts.bind_step _ _ _ _ _
               (getBalance_run token this log wei Hwei)).
    rewrite Hshort. reflexivity. }
  rewrite Hrun. split; [reflexivity|].
  unfold calls. cbn [snd]. rewrite filter_app. cbn [filter isWrite].
  unfold decimalsCalls.
  destruct (mapGet (decimalsCache this) token); cbn [filter isWrite];
    apply app_nil_r.
Qed.

(** X27.  When the balance suffices, [transferToken] submits the transfer once,
    with the estimated gas raised by a fifth, or with the default limit of
    100000 when the estimation fails in any way.  Asked not to wait, it
    returns the hash at once.  Asked to wait, it returns the hash when the
    receipt is good, and throws a [TransactionFailedException] that
    carries the hash when the receipt says [reverted]. *)
Theorem transferToken_sent
  (toAddress token : string) (amount : Js.number) (waitForReceipt : bool)
  (this : Web3Helper) (log : list Call) (wei amountWei : Z) (hash : string) :
  balanceOf C token (address this) = Ok wei ->
  PrimFloat.ltb
    (parseFloat rt (formatUnits L wei (decimalsOf C this token))) amount
  = false ->
  parseUnits L (String_of_number rt amount)
    (decimalsOf C (remembering C this token) token) = Ok amountWei ->
  transfer C token toAddress amountWei
    (gasLimitOf rt L C token toAddress amountWei) = Ok hash ->
  transferToken rt L C toAddress token amount waitForReceipt (this, log)
  = (if waitForReceipt then
       match receipt C hash with
       | Ok r =>
           if String.eqb (receipt_status r) "reverted"
           then Throw (Js.newTransactionFailedException
                         "Transaction reverted" (Some hash))
           else Ok hash
       | Throw e => Throw e
       end
     else Ok hash,
     (remembering C (remembering C this token) token,
      (log ++ Read_balanceOf token (address this)
           :: decimalsCalls this token
           ++ decimalsCalls (remembering C this token) token
           ++ [Estimate_transfer token toAddress amountWei;
               Write_transfer token toAddress amountWei
                 (gasLimitOf rt L C token toAddress amountWei)]
           ++ (if waitForReceipt then [WaitForTransactionReceipt hash]
               else []))%list))
  /\ Js.txHash (Js.newTransactionFailedException "Transaction reverted"
                  (Some hash)) = Some hash.
Proof.
  intros Hwei Henough Hparse Hsent. split; [|reflexivity].
  unfold transferToken.
  rewrite (MonadFacts.bind_step _ _ _ _ _
             (getBalance_run token this log wei Hwei)).
  rewrite Henough.
  rewrite (MonadFacts.bind_step _ _ _ _ _ (getTokenDecimals_run token _ _)).
  unfold bind at 1, lift at 1. rewrite Hparse.
  unfold gasLimitOf in *. run_monad.
  destruct (estimateTransfer C token toAddress amountWei) as [estimate|e];
    [destruct (BigInt_of_number L _) as [gas|e]|];
    rewrite Hsent; destruct waitForReceipt;
    try (destruct (receipt C hash) as [r|failure];
         [destruct (String.eqb (receipt_status r) "reverted")|]);
    rewrite <- ?app_assoc; cbn [app]; rewrite <- ?app_assoc;
    try reflexivity.
Qed.

End Helper.

(** ** Scenarios *)

Import Web3Scenario.

(** Sending 100 USDC from a wallet that holds 40. *)
Lemma transferToken_insufficient_balance_witness :
  transferToken runtime lib (chain 40000000 "success") "0xEscrow" "0xUSDC"
    100%float true (helper, [])
  = (Throw (Js.new Js.InsufficientBalanceException
              "Insufficient 0xUSDC balance: required 100, available 40"),
     ({| address := "0xWallet"; decimalsCache := [("0xUSDC", 6%float)] |},
      [Read_balanceOf "0xUSDC" "0xWallet"; Read_decimals "0xUSDC"])).
Proof.
  exact (proj1 (transferToken_insufficient_balance runtime lib
                  (chain 40000000 "success") "0xEscrow" "0xUSDC" 100%float
                  true helper [] 40000000 eq_refl eq_refl)).
Defined.

(** Sending 100 USDC from a wallet that holds 100; the transaction is
    mined and reverts.  The decimals are read once. *)
Lemma transferToken_sent_witness :
  transferToken runtime lib (chain 100000000 "reverted") "0xEscrow" "0xUSDC"
    100%float true (helper, [])
  = (Throw {| Js.cls := Js.TransactionFailedException;
              Js.message := "Transaction reverted (tx: 0xabc123)";
              Js.statusCode := 0;
              Js.txHash := Some "0xabc123" |},
     ({| address := "0xWallet"; decimalsCache := [("0xUSDC", 6%float)] |},
      [Read_balanceOf "0xUSDC" "0xWallet"; Read_decimals "0xUSDC";
       Estimate_transfer "0xUSDC" "0xEscrow" 100000000;
       Write_transfer "0xUSDC" "0xEscrow" 100000000 60000;
       WaitForTransactionReceipt "0xabc123"])).
Proof.
  exact (proj1 (transferToken_sent runtime lib (chain 100000000 "reverted")
                  "0xEscrow" "0xUSDC" 100%float true helper [] 100000000
                  100000000 "0xabc123" eq_refl eq_refl eq_refl eq_refl)).
Defined.

End Web3Facts.

(* ================================================================== *)
(** * The Market Maker contract client: errors and approvals *)
(* ================================================================== *)

Module MarketMakerWeb3Facts.
Import MarketMakerWeb3.

Ltac run_monad :=
  cbv beta iota delta
    [bind try_catch call lift get put ret throw fst snd negb].

Section Client.
Variable rt : Runtime.
Variable C : Chain.

(** Whatever the cause, [handleContractError] throws a
    [MarketMakerWeb3Exception] or one of its subclasses. *)
Lemma handleContractError_class (error : Js.error) (operation : string) :
  Js.instanceof (handleContractError error operation)
    Js.MarketMakerWeb3Exception = true.
Proof.
  unfold handleContractError.
  repeat match goal with
         | |- context [if ?b then _ else _] => destruct b
         end; reflexivity.
Qed.

(** A [try] whose handler rethrows a [MarketMakerWeb3Exception] and
    replaces every other error by one lets nothing else escape. *)
Lemma guarded {A} (body : M MarketMakerWeb3Client Call A)
  (replace : Js.error -> Js.error) w e :
  (forall cause,
     Js.instanceof (replace cause) Js.MarketMakerWeb3Exception = true) ->
  fst (try_catch body
         (fun error =>
            if Js.instanceof error Js.MarketMakerWeb3Exception
            then throw error else throw (replace error)) w) = Throw e ->
  Js.instanceof e Js.MarketMakerWeb3Exception = true.
Proof.
  intros Hreplace. unfold try_catch.
  destruct (body w) as [[a|cause] w']; cbn [fst]; [discriminate|].
  destruct (Js.instanceof cause Js.MarketMakerWeb3Exception) eqn:E;
    unfold throw; cbn [fst]; intros [= <-]; [exact E|apply Hreplace].
Qed.

(** X28.  Every error that [takeOfferFixed], [takeOfferDynamic] or [cancelOffer]
    throws is a [MarketMakerWeb3Exception]: the configuration, a malformed
    offer id, the allowance, the approval, the transaction and its receipt
    can all fail, and all of it is reported under that class. *)
Theorem offer_errors_classified
  (offerId withdrawalToken : string)
  (withdrawalAmountPaid maximumDepositToWithdrawalRate : Z)
  (affiliate : option string)
  (w : world MarketMakerWeb3Client Call) (e : Js.error) :
  fst (takeOfferFixed rt C offerId withdrawalToken withdrawalAmountPaid
         affiliate w) = Throw e
  \/ fst (takeOfferDynamic rt C offerId withdrawalToken withdrawalAmountPaid
            maximumDepositToWithdrawalRate affiliate w) = Throw e
  \/ fst (cancelOffer rt C offerId w) = Throw e ->
  Js.instanceof e Js.MarketMakerWeb3Exception = true.
Proof.
  unfold takeOfferFixed, takeOfferDynamic, cancelOffer.
  intros [H|[H|H]]; revert H; apply guarded; intros cause;
    try apply handleContractError_class; reflexivity.
Qed.

(** The approval step: its outcome is [Ok] exactly when the contract may
    spend the amount, and it approves only when the allowance falls short,
    and then exactly the amount. *)
Lemma approveTokenIfNeeded_run (token spender : string) (amount allowed : Z)
  (this : MarketMakerWeb3Client) (log : list Call) :
  allowance C token (address this) spender = Ok allowed ->
  exists r l,
    approveTokenIfNeeded C token spender amount (this, log)
    = (r, (this, (log ++ Read_allowance token (address this) spender :: l)
                 %list))
    /\ filter isApproval l
       = (if (amount <=? allowed)%Z then []
          else [Write_approve token spender amount])
    /\ filter isOfferWrite l = []
    /\ (maySpend C token spender amount allowed = true -> r = Ok tt)
    /\ (maySpend C token spender amount allowed = false ->
        exists e, r = Throw e).
Proof.
  intros Hallowed. unfold approveTokenIfNeeded, maySpend. run_monad.
  rewrite Hallowed.
  destruct (amount <=? allowed)%Z; run_monad.
  { exists (Ok tt), []. repeat split. discriminate. }
  destruct (approve C token spender amount) as [hash|e]; run_monad.
  2: { exists (Throw e), [Write_approve token spender amount].
       rewrite <- app_assoc. repeat split; [discriminate|eauto]. }
  destruct (receiptStatus C hash) as [status|e]; run_monad.
  2: { exists (Throw e),
         [Write_approve token spender amount;
          WaitForTransactionReceipt hash].
       rewrite <- !app_assoc. repeat split; [discriminate|eauto]. }
  destruct (String.eqb status "reverted"); cbn [negb orb].
  - eexists _, [Write_approve token spender amount;
                WaitForTransactionReceipt hash].
    rewrite <- !app_assoc. repeat split; [discriminate|eauto].
  - exists (Ok tt), [Write_approve token spender amount;
                     WaitForTransactionReceipt hash].
    rewrite <- !app_assoc. repeat split. discriminate.
Qed.

(** X29.  Taking an offer with the contract address known and an allowance of
    [allowed].  The client approves only when the allowance is less than
    the amount to pay, and then it approves exactly that amount.  The offer
    is taken only if the contract may spend the amount; when the approval
    fails, is not confirmed or reverts, no offer transaction is submitted,
    and the call throws. *)
Theorem takeOfferFixed_approval
  (offerId withdrawalToken : string) (withdrawalAmountPaid : Z)
  (affiliate : option string) (this : MarketMakerWeb3Client)
  (contract : string) (id allowed : Z) :
  contractAddress this = Some contract ->
  Js.truthy_string (Some contract) = true ->
  BigInt rt offerId = Ok id ->
  allowance C withdrawalToken (address this) contract = Ok allowed ->
  filter isApproval
    (calls (snd (takeOfferFixed rt C offerId withdrawalToken
                   withdrawalAmountPaid affiliate (this, []))))
  = (if (withdrawalAmountPaid <=? allowed)%Z then []
     else [Write_approve withdrawalToken contract withdrawalAmountPaid])
  /\
  filter isOfferWrite
    (calls (snd (takeOfferFixed rt C offerId withdrawalToken
                   withdrawalAmountPaid affiliate (this, []))))
  = (if maySpend C withdrawalToken contract withdrawalAmountPaid allowed
     then [Write_takeOfferFixed contract id withdrawalAmountPaid
             (affiliateOr affiliate)]
     else [])
  /\
  (maySpend C withdrawalToken contract withdrawalAmountPaid allowed = false ->
   exists e,
     fst (takeOfferFixed rt C offerId withdrawalToken withdrawalAmountPaid
            affiliate (this, [])) = Throw e).
Proof.
  intros Hcontract Htruthy Hid Hallowed.
  destruct (approveTokenIfNeeded_run withdrawalToken contract
              withdrawalAmountPaid allowed this [] Hallowed)
    as (r & l & Hrun & Happrovals & Hoffers & Hyes & Hno).
  cbn [app] in Hrun.
  assert (Htake : exists r' rest,
    takeOfferFixed rt C offerId withdrawalToken withdrawalAmountPaid
      affiliate (this, [])
    = (r', (this,
            (Read_allowance withdrawalToken (address this) contract
             :: l ++ rest)%list))
    /\ filter isApproval rest = []
    /\ filter isOfferWrite rest
       = (if maySpend C withdrawalToken contract withdrawalAmountPaid
               allowed
          then [Write_takeOfferFixed contract id withdrawalAmountPaid
                  (affiliateOr affiliate)]
          else [])
    /\ (maySpend C withdrawalToken contract withdrawalAmountPaid allowed
        = false -> exists e, r' = Throw e)).
  { unfold takeOfferFixed, ensureContractLoaded.
    unfold try_catch, bind at 1, bind at 1, get at 1. cbn [fst snd].
    rewrite Hcontract, Htruthy. unfold ret at 1. cbn [Js.template].
    unfold bind at 1, lift at 1. rewrite Hid.
    rewrite (MonadFacts.bind_step _ _ _ _ _ Hrun).
    destruct (maySpend C withdrawalToken contract withdrawalAmountPaid
                allowed).
    - rewrite (Hyes eq_refl). run_monad.
      destruct (offerFixed C contract id withdrawalAmountPaid
                  (affiliateOr affiliate)) as [hash|e]; run_monad.
      + destruct (receiptStatus C hash) as [status|e]; run_monad;
          [destruct (String.eqb status "reverted")|];
          repeat match goal with
                 | |- context [if ?b then _ else _] => destruct b
                 end;
          eexists _, [_; WaitForTransactionReceipt hash];
          rewrite <- ?app_assoc; cbn [app];
          repeat split; discriminate.
      + repeat match goal with
               | |- context [if ?b then _ else _] => destruct b
               end;
          eexists _, [_]; rewrite <- ?app_assoc; cbn [app];
          repeat split; discriminate.
    - destruct (Hno eq_refl) as [e ->].
      destruct (Js.instanceof e Js.MarketMakerWeb3Exception);
        unfold throw; eexists _, []; rewrite app_nil_r;
        repeat split; eauto. }
  destruct Htake as (r' & rest & -> & Ha & Ho & Hfail).
  unfold calls. cbn [fst snd filter isApproval isOfferWrite].
  rewrite !filter_app, Happrovals, Hoffers, Ha, Ho, app_nil_r.
  repeat split. exact Hfail.
Qed.

End Client.

(** ** Scenarios *)

Import MarketMakerWeb3Scenario.

(** An offer id that is not a number. *)
Lemma offer_errors_classified_witness :
  fst (takeOfferFixed Web3Scenario.runtime (chain "success") "forty-two"
         "0xUSDC" 2000000 None (taker, []))
  = Throw (Js.new Js.MarketMakerWeb3Exception
             "Failed to take fixed offer: Cannot convert forty-two to a BigInt")
  /\ Js.instanceof
       (Js.new Js.MarketMakerWeb3Exception
          "Failed to take fixed offer: Cannot convert forty-two to a BigInt")
       Js.MarketMakerWeb3Exception = true.
Proof.
  split; [reflexivity|].
  exact (offer_errors_classified Web3Scenario.runtime (chain "success")
           "forty-two" "0xUSDC" 2000000 0 None (taker, []) _
           (or_introl eq_refl)).
Defined.

(** The approval of 2000000 units reverts: the offer is not taken. *)
Lemma takeOfferFixed_approval_witness :
  calls (snd (takeOfferFixed Scenario.runtime (chain "reverted") "2000000"
                "0xUSDC" 2000000 None (taker, [])))
  = [Read_allowance "0xUSDC" "0xWallet" "0xManager";
     Write_approve "0xUSDC" "0xManager" 2000000;
     WaitForTransactionReceipt "0xapprove"]
  /\ filter isOfferWrite
       (calls (snd (takeOfferFixed Scenario.runtime (chain "reverted")
                      "2000000" "0xUSDC" 2000000 None (taker, []))))
     = [].
Proof.
  split; [reflexivity|].
  exact (proj1 (proj2 (takeOfferFixed_approval Scenario.runtime
                         (chain "reverted") "2000000" "0xUSDC" 2000000 None
                         taker "0xManager" 2000000 0
                         eq_refl eq_refl eq_refl eq_refl))).
Defined.

Example approval_then_offer :
  takeOfferFixed Scenario.runtime (chain "success") "2000000" "0xUSDC"
    2000000 None (taker, [])
  = (Ok "0xfeed",
     (taker,
      [Read_allowance "0xUSDC" "0xWallet" "0xManager";
       Write_approve "0xUSDC" "0xManager" 2000000;
       WaitForTransactionReceipt "0xapprove";
       Write_takeOfferFixed "0xManager" 2000000 2000000 ZERO_ADDRESS;
       WaitForTransactionReceipt "0xfeed"])).
Proof. reflexivity. Qed.

End MarketMakerWeb3Facts.

(* ================================================================== *)
(** * The remote configuration: one request per mode *)
(* ================================================================== *)

Module RemoteConfigFacts.
Import RemoteConfig.

Ltac run_monad :=
  cbv beta iota delta
    [bind try_catch call lift get put ret throw fst snd negb].

Section Fetcher.
Variable rt : Runtime.
Variable W : Web.

(** The first call for a mode: one request, and a fetcher in the variable
    whatever the request came to. *)
Lemma getConfigFetcher_first (dev : bool) (g : Globals) (log : list Call) :
  fetcherOf g dev = None ->
  getConfigFetcher rt W dev (g, log)
  = (match loaded W dev with
     | Some _ => Ok (fetched rt W dev)
     | None => Throw (loadFailed dev)
     end,
     (setFetcher g dev (Some (fetched rt W dev)),
      (log ++ [Fetch (configUrl (constructor dev))])%list)).
Proof.
  intros Hnone. unfold getConfigFetcher. run_monad. rewrite Hnone.
  unfold onNew, initialize, fetchConfig, doFetch, fetched, loaded,
    loadFailed.
  run_monad.
  destruct (respond W (configUrl (constructor dev))) as [response|e];
    [|reflexivity].
  destruct (ok response); [|reflexivity].
  destruct (json response); reflexivity.
Qed.

(** Every later call: no request. *)
Lemma getConfigFetcher_again (dev : bool) (g : Globals) (log : list Call)
  (fetcher : RemoteConfigFetcher) :
  fetcherOf g dev = Some fetcher ->
  getConfigFetcher rt W dev (g, log) = (Ok fetcher, (g, log)).
Proof.
  intros Hsome. unfold getConfigFetcher. run_monad. rewrite Hsome.
  reflexivity.
Qed.

Lemma fetcherOf_setFetcher (g : Globals) (dev : bool)
  (f : option RemoteConfigFetcher) :
  fetcherOf (setFetcher g dev f) dev = f
  /\ fetcherOf (setFetcher g dev f) (negb dev) = fetcherOf g (negb dev).
Proof. destruct dev; split; reflexivity. Qed.

(** X30.  The configuration of a mode is requested once, by the first call that
    needs it.  That call answers from what was loaded, or throws when
    nothing could be loaded (the request failed, was answered with an error
    status, or its body was not JSON).  Either way the fetcher stays in its
    variable, so no later call makes a request: after a successful load it
    answers from the same configuration, and after a failed one it throws
    [Configuration not loaded] every time.  The other mode is not
    affected. *)
Theorem config_loaded_once (dev : bool) (g : Globals) (log : list Call) :
  fetcherOf g dev = None ->
  calls (snd (config_getTopupAddress rt W dev (g, log)))
  = (log ++ [Fetch (configUrl (constructor dev))])%list
  /\
  fst (config_getTopupAddress rt W dev (g, log))
  = match loaded W dev with
    | Some _ => getTopupAddress (fetched rt W dev)
    | None => Throw (loadFailed dev)
    end
  /\
  config_getTopupAddress rt W dev
    (snd (config_getTopupAddress rt W dev (g, log)))
  = (match loaded W dev with
     | Some _ => getTopupAddress (fetched rt W dev)
     | None => Throw notLoaded
     end,
     snd (config_getTopupAddress rt W dev (g, log)))
  /\
  fetcherOf (fst (snd (config_getTopupAddress rt W dev (g, log)))) (negb dev)
  = fetcherOf g (negb dev).
Proof.
  intros Hnone.
  assert (Hfirst :
    config_getTopupAddress rt W dev (g, log)
    = (match loaded W dev with
       | Some _ => getTopupAddress (fetched rt W dev)
       | None => Throw (loadFailed dev)
       end,
       (setFetcher g dev (Some (fetched rt W dev)),
        (log ++ [Fetch (configUrl (constructor dev))])%list))).
  { unfold config_getTopupAddress, bind.
    rewrite (getConfigFetcher_first dev g log Hnone).
    destruct (loaded W dev); reflexivity. }
  rewrite Hfirst. cbn [fst snd calls].
  destruct (fetcherOf_setFetcher g dev (Some (fetched rt W dev)))
    as [Hsame Hother].
  split; [reflexivity|]. split; [reflexivity|]. split; [|exact Hother].
  unfold config_getTopupAddress, bind.
  rewrite (getConfigFetcher_again dev _ _ _ Hsame). unfold lift.
  unfold fetched, getTopupAddress.
  destruct (loaded W dev); reflexivity.
Qed.

End Fetcher.

(** ** Scenarios *)

(** The configuration service is down when the client starts. *)
Lemma config_loaded_once_witness :
  config_getTopupAddress Scenario.runtime RemoteConfigScenario.down false
    (noFetchers, [])
  = (Throw (Js.new Js.Error
              "Failed to load configuration from remote: https://swarm-sdk-configurations.s3.eu-central-1.amazonaws.com/config.prod.json"),
     ({| prodFetcher := Some (constructor false); devFetcher := None |},
      [Fetch prodUrl]))
  /\
  config_getTopupAddress Scenario.runtime RemoteConfigScenario.down false
    (snd (config_getTopupAddress Scenario.runtime RemoteConfigScenario.down
            false (noFetchers, [])))
  = (Throw (Js.new Js.Error
              "Configuration not loaded. Call initialize() first."),
     ({| prodFetcher := Some (constructor false); devFetcher := None |},
      [Fetch prodUrl])).
Proof.
  split; [reflexivity|].
  exact (proj1 (proj2 (proj2
           (config_loaded_once Scenario.runtime RemoteConfigScenario.down
              false noFetchers [] eq_refl)))).
Defined.

End RemoteConfigFacts.
